(** * ModelLRM (openlrm/models/modeling_lrm.py): orchestration of the
    triplane generator, the dual-view fuser and the model facade.

    The development is a shallow embedding of [ModelLRM]:
    - [Py]: Python exceptions and error results;
    - [Torch]: contiguous row-major tensors and the tensor operations the
      source calls ([view], [reshape], [einsum] as an axis permutation,
      [flip], slice selection and assignment, [cat], [repeat]) and the
      [torch.nn] layers it instantiates;
    - [LRM]: the class itself, method by method, in a monad that threads
      the state of the collaborating modules and records every call made
      to them. *)

From Stdlib Require Import ZArith Lia Ascii.
From stdpp Require Import base numbers list strings pretty gmap.

(** ** Python exceptions *)

Module Py.

Inductive exn : Type :=
| AssertionError (msg : string)
| ValueError (msg : string)
| AttributeError (msg : string)
| RuntimeError (msg : string)
| IndexError (msg : string)
| KeyError (key : string)
| TypeError (msg : string)
| ZeroDivisionError (msg : string)
| UnboundLocalError (name : string).

Inductive result (X : Type) : Type :=
| Ok (x : X)
| Raise (e : exn).
Global Arguments Ok {X} x.
Global Arguments Raise {X} e.

Global Instance result_ret : MRet result := λ X x, Ok x.
Global Instance result_bind : MBind result := λ X Y f m,
  match m with
  | Ok x => f x
  | Raise e => Raise e
  end.

Definition is_ok {X} (r : result X) : bool :=
  match r with Ok _ => true | Raise _ => false end.

(** [assert cond, msg] *)
Definition py_assert (cond : bool) (msg : string) : result unit :=
  if cond then Ok tt else Raise (AssertionError msg).

(** [str.lower] on the ASCII range. *)
Definition lower_ascii (c : ascii) : ascii :=
  let n := nat_of_ascii c in
  if (65 <=? n) && (n <=? 90) then ascii_of_nat (n + 32) else c.

Fixpoint lower (s : string) : string :=
  match s with
  | EmptyString => EmptyString
  | String c s' => String (lower_ascii c) (lower s')
  end.

End Py.
Export Py.

(** ** Tensors *)

Module Torch.

(** A tensor is its size and its elements in contiguous row-major order. *)
Record Tensor (A : Type) : Type := mkTensor { shape : list nat; data : list A }.
Global Arguments mkTensor {A} shape data.
Global Arguments shape {A} t.
Global Arguments data {A} t.

Definition numel (sh : list nat) : nat := foldr Nat.mul 1 sh.

(** Offset of a multi-index in row-major order, and its inverse. *)
Fixpoint ravel (sh idx : list nat) : nat :=
  match sh, idx with
  | _ :: sh', i :: idx' => i * numel sh' + ravel sh' idx'
  | _, _ => 0
  end.

Fixpoint unravel (sh : list nat) (k : nat) : list nat :=
  match sh with
  | [] => []
  | _ :: sh' => Nat.div k (numel sh') :: unravel sh' (Nat.modulo k (numel sh'))
  end.

Definition in_bounds (sh idx : list nat) : Prop := Forall2 lt idx sh.

(** A Python dimension number, negative ones counting from the end. *)
Definition wrap_dim (rank : nat) (d : Z) : result nat :=
  let j := if (d <? 0)%Z then (d + Z.of_nat rank)%Z else d in
  if ((0 <=? j)%Z && (j <? Z.of_nat rank)%Z)%bool
  then Ok (Z.to_nat j)
  else Raise (IndexError "Dimension out of range").

(** The size inference of [view] and [reshape]: [None] stands for the
    one dimension given as [-1]. *)
Definition infer_size (spec : list (option nat)) (n : nat) : result (list nat) :=
  let known := numel (default 1 <$> spec) in
  match length (filter (λ o, o = None) spec) with
  | 0 =>
      if decide (known = n) then Ok (default 1 <$> spec)
      else Raise (RuntimeError "shape is invalid for input size")
  | 1 =>
      if decide (known = 0) then
        if decide (n = 0)
        then Raise (RuntimeError "cannot reshape tensor of 0 elements: the unspecified dimension size -1 can be any value and is ambiguous")
        else Raise (RuntimeError "shape is invalid for input size")
      else if decide (Nat.modulo n known = 0)
      then Ok (default (Nat.div n known) <$> spec)
      else Raise (RuntimeError "shape is invalid for input size")
  | _ => Raise (RuntimeError "only one dimension can be inferred")
  end.

(** Index helpers of the slicing and permuting operations. *)
Definition gather (l p : list nat) : list nat := (λ j, l !!! j) <$> p.

Definition inv_perm (perm : list nat) : list nat :=
  (λ k, from_option fst 0 (list_find (λ p, p = k) perm)) <$> seq 0 (length perm).

Definition ins (dim k : nat) (idx : list nat) : list nat :=
  take dim idx ++ k :: drop dim idx.

Definition flip_idx (sh ds idx : list nat) : list nat :=
  imap (λ j i, if bool_decide (j ∈ ds) then sh !!! j - 1 - i else i) idx.

Section Elements.
Context {A : Type} `{!Inhabited A}.

Definition wf (t : Tensor A) : Prop := length (data t) = numel (shape t).

Definition get (t : Tensor A) (idx : list nat) : A :=
  data t !!! ravel (shape t) idx.

Definition tabulate (sh : list nat) (f : list nat → A) : Tensor A :=
  mkTensor sh ((λ k, f (unravel sh k)) <$> seq 0 (numel sh)).

(** [x.shape[i]] *)
Definition size (t : Tensor A) (i : Z) : result nat :=
  j ← wrap_dim (length (shape t)) i; Ok (shape t !!! j).

(** [x.view(spec)]; every tensor of the model is contiguous, so the only
    failure is a size that does not fit. *)
Definition view (spec : list (option nat)) (t : Tensor A) : result (Tensor A) :=
  sh ← infer_size spec (numel (shape t)); Ok (mkTensor sh (data t)).

(** [x.reshape(spec)]: the same elements in the same order. *)
Definition reshape (spec : list (option nat)) (t : Tensor A) : result (Tensor A) :=
  view spec t.

(** [x.contiguous()] *)
Definition contiguous (t : Tensor A) : Tensor A := t.

(** [x.permute(perm)]: axis [j] of the result is axis [perm[j]] of [x]. *)
Definition permute (perm : list nat) (t : Tensor A) : result (Tensor A) :=
  if decide (length perm = length (shape t)) then
    Ok (tabulate (gather (shape t) perm)
          (λ idx, get t (gather idx (inv_perm perm))))
  else Raise (RuntimeError "number of dimensions in the tensor input does not match the length of the desired ordering").

(** [torch.einsum('nihwd->indhw', x)] and [torch.einsum('indhw->nidhw', x)]
    only reorder axes: with the input axes numbered in the order of the
    left-hand side, the right-hand side lists [perm]. *)
Definition einsum_nihwd_indhw (t : Tensor A) : result (Tensor A) :=
  permute [1; 0; 4; 2; 3] t.

Definition einsum_indhw_nidhw (t : Tensor A) : result (Tensor A) :=
  permute [1; 0; 2; 3; 4] t.

(** [torch.flip(x, dims)] *)
Definition flip (dims : list Z) (t : Tensor A) : result (Tensor A) :=
  ds ← mapM (wrap_dim (length (shape t))) dims;
  Ok (tabulate (shape t) (λ idx, get t (flip_idx (shape t) ds idx))).

(** [x[:, k]] for [dim = 1]: the slice at index [k] of axis [dim]. *)
Definition select (dim k : nat) (t : Tensor A) : result (Tensor A) :=
  if decide (dim < length (shape t)) then
    if decide (k < shape t !!! dim) then
      Ok (tabulate (delete dim (shape t)) (λ idx, get t (ins dim k idx)))
    else Raise (IndexError "index is out of bounds for dimension")
  else Raise (IndexError "too many indices for tensor").

(** [x[:, k] = v] for [dim = 1], as the tensor [x] holds after the
    assignment. The source only assigns values of the size of the slice. *)
Definition select_put (dim k : nat) (v t : Tensor A) : result (Tensor A) :=
  if decide (dim < length (shape t)) then
    if decide (k < shape t !!! dim) then
      if decide (shape v = delete dim (shape t)) then
        Ok (tabulate (shape t)
              (λ idx, if decide (idx !!! dim = k) then get v (delete dim idx)
                      else get t idx))
      else Raise (RuntimeError "shape mismatch: value tensor cannot be broadcast to indexing result")
    else Raise (IndexError "index is out of bounds for dimension")
  else Raise (IndexError "too many indices for tensor").

(** [torch.cat((a, b), dim)] *)
Definition cat (dim : nat) (a b : Tensor A) : result (Tensor A) :=
  if decide (dim < length (shape a) ∧ length (shape a) = length (shape b)
             ∧ delete dim (shape a) = delete dim (shape b)) then
    let da := shape a !!! dim in
    Ok (tabulate (<[dim := da + shape b !!! dim]> (shape a))
          (λ idx, if decide (idx !!! dim < da) then get a idx
                  else get b (<[dim := idx !!! dim - da]> idx)))
  else Raise (RuntimeError "Sizes of tensors must match except in the concatenation dimension").

(** [x.repeat(reps)] with one repetition count per axis. *)
Definition repeat_ (reps : list nat) (t : Tensor A) : result (Tensor A) :=
  if decide (length reps = length (shape t)) then
    Ok (tabulate (zip_with Nat.mul reps (shape t))
          (λ idx, get t (zip_with Nat.modulo idx (shape t))))
  else Raise (RuntimeError "Number of dimensions of repeat dims can not be smaller than number of dimensions of tensor").

(** A layer that treats the samples of a batch independently: sample [b] of
    the result is [f] of sample [b] of the input. *)
Definition sample (sh : list nat) (x : Tensor A) (b : nat) : Tensor A :=
  tabulate sh (λ idx, get x (b :: idx)).

Definition per_sample (f : Tensor A → Tensor A) (B : nat) (in_sh out_sh : list nat)
    (x : Tensor A) : Tensor A :=
  tabulate (B :: out_sh)
    (λ idx, match idx with
            | b :: idx' => get (f (sample in_sh x b)) idx'
            | [] => inhabitant
            end).

(** [nn.ConvTranspose2d(in, out, kernel_size, stride, padding)]; [ct_fn] is
    the action of its weights on one sample. The source only passes batches
    (four axes); the unbatched form of three axes is left out. *)
Record ConvTranspose2d : Type := {
  ct_in : nat; ct_out : nat; ct_kernel : nat; ct_stride : nat; ct_padding : nat;
  ct_fn : Tensor A → Tensor A }.

Definition conv_transpose_out (l : ConvTranspose2d) (h : nat) : nat :=
  Z.to_nat ((Z.of_nat h - 1) * Z.of_nat (ct_stride l) - 2 * Z.of_nat (ct_padding l)
            + (Z.of_nat (ct_kernel l) - 1) + 1).

Definition conv_transpose2d (l : ConvTranspose2d) (x : Tensor A) : result (Tensor A) :=
  match shape x with
  | [B; C; H; W] =>
      if decide (C = ct_in l) then
        Ok (per_sample (ct_fn l) B [C; H; W]
              [ct_out l; conv_transpose_out l H; conv_transpose_out l W] x)
      else Raise (RuntimeError "expected input to have the layer's number of input channels")
  | _ => Raise (RuntimeError "Expected 4D (batched) input to conv_transpose2d")
  end.

(** [nn.Conv2d(in, out, kernel_size, stride, padding)], on batches as
    well. *)
Record Conv2d : Type := {
  cv_in : nat; cv_out : nat; cv_kernel : nat; cv_stride : nat; cv_padding : nat;
  cv_fn : Tensor A → Tensor A }.

Definition conv_out (l : Conv2d) (h : nat) : nat :=
  Z.to_nat ((Z.of_nat h + 2 * Z.of_nat (cv_padding l) - (Z.of_nat (cv_kernel l) - 1) - 1)
              `div` Z.of_nat (cv_stride l) + 1).

Definition conv2d (l : Conv2d) (x : Tensor A) : result (Tensor A) :=
  match shape x with
  | [B; C; H; W] =>
      if decide (C = cv_in l) then
        Ok (per_sample (cv_fn l) B [C; H; W]
              [cv_out l; conv_out l H; conv_out l W] x)
      else Raise (RuntimeError "expected input to have the layer's number of input channels")
  | _ => Raise (RuntimeError "Expected 4D (batched) input to conv2d")
  end.

(** [nn.LayerNorm(normalized_shape)]: the trailing axes must be exactly
    [normalized_shape]; each leading index is normalised on its own. *)
Record LayerNorm : Type := {
  ln_shape : list nat;
  ln_fn : Tensor A → Tensor A }.

Definition layer_norm (l : LayerNorm) (x : Tensor A) : result (Tensor A) :=
  let lead := take (length (shape x) - length (ln_shape l)) (shape x) in
  if decide (shape x = lead ++ ln_shape l) then
    Ok (mkTensor (shape x)
          (data (per_sample (ln_fn l) (numel lead) (ln_shape l) (ln_shape l)
                   (mkTensor (numel lead :: ln_shape l) (data x)))))
  else Raise (RuntimeError "Given normalized_shape, expected input with matching trailing shape").

(** [nn.GELU()] acts on each element. *)
Definition gelu (f : A → A) (x : Tensor A) : Tensor A :=
  mkTensor (shape x) (f <$> data x).

End Elements.

Global Arguments ConvTranspose2d A : clear implicits.
Global Arguments Conv2d A : clear implicits.
Global Arguments LayerNorm A : clear implicits.

End Torch.
Export Torch.

(** ** The class ModelLRM *)

Module LRM.

(** The arguments of [ModelLRM.__init__], with the defaults of the source
    in [Args.defaults]. *)
Module Args.
Record t : Type := {
  camera_embed_dim : nat;
  rendering_samples_per_ray : nat;
  transformer_dim : nat;
  transformer_layers : nat;
  transformer_heads : nat;
  triplane_low_res : nat;
  triplane_high_res : nat;
  triplane_dim : nat;
  encoder_freeze : bool;
  encoder_type : string;
  encoder_model_name : string;
  encoder_feat_dim : nat;
  model_lora_rank : Z;
  conv_fuse : bool;
  swin_ca_fuse : bool;
  ca_dim : nat;
  ca_depth : nat;
  ca_num_heads : nat;
  ca_window_size : nat }.

Definition defaults (camera_embed_dim rendering_samples_per_ray transformer_dim
    transformer_layers transformer_heads triplane_low_res triplane_high_res
    triplane_dim : nat) : t :=
  {| camera_embed_dim := camera_embed_dim;
     rendering_samples_per_ray := rendering_samples_per_ray;
     transformer_dim := transformer_dim;
     transformer_layers := transformer_layers;
     transformer_heads := transformer_heads;
     triplane_low_res := triplane_low_res;
     triplane_high_res := triplane_high_res;
     triplane_dim := triplane_dim;
     encoder_freeze := true;
     encoder_type := "dino";
     encoder_model_name := "facebook/dino-vitb16";
     encoder_feat_dim := 768;
     model_lora_rank := 0;
     conv_fuse := false;
     swin_ca_fuse := false;
     ca_dim := 32;
     ca_depth := 2;
     ca_num_heads := 8;
     ca_window_size := 2 |}.
End Args.

(** The two encoder wrappers [_encoder_fn] chooses between. *)
Inductive EncoderClass : Type := DinoWrapper | Dinov2Wrapper.

Section Model.
Context {A S : Type} `{!Inhabited A}.

(** [nn.Parameter]: a tensor with its [requires_grad] flag. *)
Record Param : Type := { value : Tensor A; requires_grad : bool }.

(** [param.requires_grad = False] *)
Definition frozen (p : Param) : Param :=
  {| value := value p; requires_grad := false |}.

(** [nn.Module]: what its forward pass is made of, and its parameters. *)
Record NNModule (F : Type) : Type := { fwd : F; params : list Param }.
Global Arguments fwd {F} _.
Global Arguments params {F} _.

Definition with_params {F} (m : NNModule F) (ps : list Param) : NNModule F :=
  {| fwd := fwd m; params := ps |}.

(** The attribute lookup [obj.parameters()]: a module has the method, a bare
    [nn.Parameter] (a tensor) has not. *)
Definition no_parameters_attribute : exn :=
  AttributeError "'Parameter' object has no attribute 'parameters'".

Class HasParameters (T : Type) : Type := parameters : T → result (list Param).

Global Instance module_parameters {F} : HasParameters (NNModule F) :=
  λ m, Ok (params m).

Global Instance parameter_parameters : HasParameters Param :=
  λ _, Raise no_parameters_attribute.

(** The layers of the [nn.ModuleList] [front_back_conv]. *)
Inductive Layer : Type :=
| LConv2d (l : Conv2d A)
| LLayerNorm (l : LayerNorm A)
| LGELU (f : A → A).

Definition layer_forward (l : Layer) (x : Tensor A) : result (Tensor A) :=
  match l with
  | LConv2d c => conv2d c x
  | LLayerNorm n => layer_norm n x
  | LGELU f => Ok (gelu f x)
  end.

(** [CrossAttentionLayer(dim, depth, num_heads, window_size)] *)
Record CrossAttentionLayer : Type := {
  ca_dim : nat; ca_depth : nat; ca_num_heads : nat; ca_window_size : nat }.

(** The attributes of a [ModelLRM] instance. An attribute that [__init__]
    sets on some paths only is an [option]. *)
Record ModelLRM : Type := {
  encoder_feat_dim : nat;
  camera_embed_dim : nat;
  triplane_low_res : nat;
  triplane_high_res : nat;
  triplane_dim : nat;
  conv_fuse : bool;
  swin_ca_fuse : bool;
  encoder : NNModule EncoderClass;
  camera_embedder : NNModule unit;
  pos_embed : Param;
  transformer : NNModule unit;
  upsampler : NNModule (ConvTranspose2d A);
  synthesizer : NNModule unit;
  front_back_conv : option (list Layer);
  swin_cross_attention : option (NNModule CrossAttentionLayer) }.

Definition set_encoder (m : NNModule EncoderClass) (self : ModelLRM) : ModelLRM :=
  {| encoder_feat_dim := encoder_feat_dim self; camera_embed_dim := camera_embed_dim self;
     triplane_low_res := triplane_low_res self; triplane_high_res := triplane_high_res self;
     triplane_dim := triplane_dim self; conv_fuse := conv_fuse self;
     swin_ca_fuse := swin_ca_fuse self; encoder := m;
     camera_embedder := camera_embedder self; pos_embed := pos_embed self;
     transformer := transformer self; upsampler := upsampler self;
     synthesizer := synthesizer self; front_back_conv := front_back_conv self;
     swin_cross_attention := swin_cross_attention self |}.

Definition set_camera_embedder (m : NNModule unit) (self : ModelLRM) : ModelLRM :=
  {| encoder_feat_dim := encoder_feat_dim self; camera_embed_dim := camera_embed_dim self;
     triplane_low_res := triplane_low_res self; triplane_high_res := triplane_high_res self;
     triplane_dim := triplane_dim self; conv_fuse := conv_fuse self;
     swin_ca_fuse := swin_ca_fuse self; encoder := encoder self;
     camera_embedder := m; pos_embed := pos_embed self;
     transformer := transformer self; upsampler := upsampler self;
     synthesizer := synthesizer self; front_back_conv := front_back_conv self;
     swin_cross_attention := swin_cross_attention self |}.

Definition set_transformer (m : NNModule unit) (self : ModelLRM) : ModelLRM :=
  {| encoder_feat_dim := encoder_feat_dim self; camera_embed_dim := camera_embed_dim self;
     triplane_low_res := triplane_low_res self; triplane_high_res := triplane_high_res self;
     triplane_dim := triplane_dim self; conv_fuse := conv_fuse self;
     swin_ca_fuse := swin_ca_fuse self; encoder := encoder self;
     camera_embedder := camera_embedder self; pos_embed := pos_embed self;
     transformer := m; upsampler := upsampler self;
     synthesizer := synthesizer self; front_back_conv := front_back_conv self;
     swin_cross_attention := swin_cross_attention self |}.

Definition set_upsampler (m : NNModule (ConvTranspose2d A)) (self : ModelLRM) : ModelLRM :=
  {| encoder_feat_dim := encoder_feat_dim self; camera_embed_dim := camera_embed_dim self;
     triplane_low_res := triplane_low_res self; triplane_high_res := triplane_high_res self;
     triplane_dim := triplane_dim self; conv_fuse := conv_fuse self;
     swin_ca_fuse := swin_ca_fuse self; encoder := encoder self;
     camera_embedder := camera_embedder self; pos_embed := pos_embed self;
     transformer := transformer self; upsampler := m;
     synthesizer := synthesizer self; front_back_conv := front_back_conv self;
     swin_cross_attention := swin_cross_attention self |}.

Definition set_synthesizer (m : NNModule unit) (self : ModelLRM) : ModelLRM :=
  {| encoder_feat_dim := encoder_feat_dim self; camera_embed_dim := camera_embed_dim self;
     triplane_low_res := triplane_low_res self; triplane_high_res := triplane_high_res self;
     triplane_dim := triplane_dim self; conv_fuse := conv_fuse self;
     swin_ca_fuse := swin_ca_fuse self; encoder := encoder self;
     camera_embedder := camera_embedder self; pos_embed := pos_embed self;
     transformer := transformer self; upsampler := upsampler self;
     synthesizer := m; front_back_conv := front_back_conv self;
     swin_cross_attention := swin_cross_attention self |}.

Definition set_front_back_conv (l : list Layer) (self : ModelLRM) : ModelLRM :=
  {| encoder_feat_dim := encoder_feat_dim self; camera_embed_dim := camera_embed_dim self;
     triplane_low_res := triplane_low_res self; triplane_high_res := triplane_high_res self;
     triplane_dim := triplane_dim self; conv_fuse := conv_fuse self;
     swin_ca_fuse := swin_ca_fuse self; encoder := encoder self;
     camera_embedder := camera_embedder self; pos_embed := pos_embed self;
     transformer := transformer self; upsampler := upsampler self;
     synthesizer := synthesizer self; front_back_conv := Some l;
     swin_cross_attention := swin_cross_attention self |}.

Definition set_swin_cross_attention (m : NNModule CrossAttentionLayer) (self : ModelLRM)
    : ModelLRM :=
  {| encoder_feat_dim := encoder_feat_dim self; camera_embed_dim := camera_embed_dim self;
     triplane_low_res := triplane_low_res self; triplane_high_res := triplane_high_res self;
     triplane_dim := triplane_dim self; conv_fuse := conv_fuse self;
     swin_ca_fuse := swin_ca_fuse self; encoder := encoder self;
     camera_embedder := camera_embedder self; pos_embed := pos_embed self;
     transformer := transformer self; upsampler := upsampler self;
     synthesizer := synthesizer self; front_back_conv := front_back_conv self;
     swin_cross_attention := Some m |}.

(** *** freeze_modules

    A method that assigns to attributes of [self] runs on the instance and
    returns it as the assignments left it, also when it raises. *)
Definition Method (X : Type) : Type := ModelLRM → result X * ModelLRM.

(** [for param in obj.parameters(): param.requires_grad = False], with the
    parameters written back by [put]. *)
Definition freeze_parameters {T} `{!HasParameters T} (obj : T)
    (put : list Param → ModelLRM → ModelLRM) : Method unit :=
  λ self,
    match parameters obj with
    | Ok ps => (Ok tt, put (frozen <$> ps) self)
    | Raise e => (Raise e, self)
    end.

Definition when (b : bool) (m : Method unit) : Method unit :=
  λ self, if b then m self else (Ok tt, self).

Definition seq_method (m1 m2 : Method unit) : Method unit :=
  λ self,
    match m1 self with
    | (Ok _, self') => m2 self'
    | (Raise e, self') => (Raise e, self')
    end.

Definition freeze_modules (encoder_ camera_embedder_ pos_embed_ transformer_
    upsampler_ synthesizer_ : bool) : Method unit :=
  λ self,
  seq_method
    (when encoder_ (λ self,
       freeze_parameters (encoder self)
         (λ ps, set_encoder (with_params (encoder self) ps)) self))
  (seq_method
    (when camera_embedder_ (λ self,
       freeze_parameters (camera_embedder self)
         (λ ps, set_camera_embedder (with_params (camera_embedder self) ps)) self))
  (seq_method
    (when pos_embed_ (λ self,
       freeze_parameters (pos_embed self) (λ _ self, self) self))
  (seq_method
    (when transformer_ (λ self,
       freeze_parameters (transformer self)
         (λ ps, set_transformer (with_params (transformer self) ps)) self))
  (seq_method
    (when upsampler_ (λ self,
       freeze_parameters (upsampler self)
         (λ ps, set_upsampler (with_params (upsampler self) ps)) self))
    (when synthesizer_ (λ self,
       freeze_parameters (synthesizer self)
         (λ ps, set_synthesizer (with_params (synthesizer self) ps)) self))))))
  self.

(** *** _encoder_fn *)

(** The function falls off its end, returning [None], when neither
    comparison holds. *)
Definition _encoder_fn (encoder_type : string) : result (option EncoderClass) :=
  let encoder_type := lower encoder_type in
  py_assert (bool_decide (encoder_type ∈ ["dino"; "dinov2"])) "Unsupported encoder type";;
  if decide (encoder_type = "dino") then Ok (Some DinoWrapper)
  else if decide (encoder_type = "dinov2") then Ok (Some Dinov2Wrapper)
  else Ok None.

(** *** The collaborators

    [Weights] is what the layers of [torch.nn] the class instantiates
    compute with their initial weights, and the draw of [torch.randn].
    [Collaborators] is the code of the other files of the package: the
    constructors [__init__] calls and the forward passes, which run on a
    state [S] of their own (buffers, random generators). *)
Class Weights : Type := {
  randn : list nat → list nat → A;
  pos_scale : nat → A → A;
  upsampler_fn : Tensor A → Tensor A;
  upsampler_params : list Param;
  conv_fn : nat → Tensor A → Tensor A;
  norm_fn : nat → Tensor A → Tensor A;
  gelu_fn : A → A }.

Class Collaborators : Type := {
  new_encoder : EncoderClass → string → bool → result (list Param);
  new_camera_embedder : nat → nat → result (list Param);
  new_transformer :
    string → nat → nat → nat → nat → nat → option Z → result (list Param);
  mark_only_lora_as_trainable : list Param → list Param;
  new_synthesizer : nat → nat → result (list Param);
  new_cross_attention : CrossAttentionLayer → result (list Param);
  encoder_call : EncoderClass → Tensor A → S → result (Tensor A) * S;
  camera_embedder_call : Tensor A → S → result (Tensor A) * S;
  transformer_call :
    Tensor A → Tensor A → Tensor A → S → result (Tensor A) * S;
  swin_cross_attention_call :
    CrossAttentionLayer → Tensor A → Tensor A → nat → nat →
    S → result (list (Tensor A)) * S;
  synthesizer_call :
    Tensor A → Tensor A → Tensor A → Tensor A → Tensor A → Z →
    S → result (gmap string (Tensor A)) * S }.

Context `{!Weights, !Collaborators}.

(** *** __init__ *)

Definition new_front_back_conv (triplane_dim triplane_high_res : nat) : list Layer :=
  [ LConv2d {| cv_in := triplane_dim * 2; cv_out := triplane_dim * 4;
               cv_kernel := 3; cv_stride := 1; cv_padding := 1; cv_fn := conv_fn 0 |};
    LLayerNorm {| ln_shape := [triplane_dim * 4; triplane_high_res; triplane_high_res];
                  ln_fn := norm_fn 1 |};
    LGELU gelu_fn;
    LConv2d {| cv_in := triplane_dim * 4; cv_out := triplane_dim * 4;
               cv_kernel := 3; cv_stride := 1; cv_padding := 1; cv_fn := conv_fn 3 |};
    LLayerNorm {| ln_shape := [triplane_dim * 4; triplane_high_res; triplane_high_res];
                  ln_fn := norm_fn 4 |};
    LGELU gelu_fn;
    LConv2d {| cv_in := triplane_dim * 4; cv_out := triplane_dim;
               cv_kernel := 3; cv_stride := 1; cv_padding := 1; cv_fn := conv_fn 6 |} ].

Definition new_pos_embed (triplane_low_res transformer_dim : nat) : result Param :=
  let size := [1; 3 * triplane_low_res ^ 2; transformer_dim] in
  if decide (transformer_dim = 0) then Raise (ZeroDivisionError "float division by zero")
  else Ok {| value := tabulate size (λ idx, pos_scale transformer_dim (randn size idx));
             requires_grad := true |}.

Definition no_fusion_method : exn :=
  ValueError "You need to specify a method for fusing the front and the back.".

Definition finish (r : result unit * ModelLRM) : result ModelLRM :=
  match r with
  | (Ok _, self) => Ok self
  | (Raise e, _) => Raise e
  end.

Definition init (args : Args.t) : result ModelLRM :=
  cls ← _encoder_fn (Args.encoder_type args);
  cls ← match cls with
        | Some c => Ok c
        | None => Raise (TypeError "'NoneType' object is not callable")
        end;
  enc ← new_encoder cls (Args.encoder_model_name args) (Args.encoder_freeze args);
  cam ← new_camera_embedder (12 + 4) (Args.camera_embed_dim args);
  pos ← new_pos_embed (Args.triplane_low_res args) (Args.transformer_dim args);
  tr ← (if (0 <? Args.model_lora_rank args)%Z then
          ps ← new_transformer "cond_mod" (Args.transformer_layers args)
                 (Args.transformer_heads args) (Args.transformer_dim args)
                 (Args.encoder_feat_dim args) (Args.camera_embed_dim args)
                 (Some (Args.model_lora_rank args));
          Ok (mark_only_lora_as_trainable ps)
        else
          new_transformer "cond_mod" (Args.transformer_layers args)
            (Args.transformer_heads args) (Args.transformer_dim args)
            (Args.encoder_feat_dim args) (Args.camera_embed_dim args) None);
  syn ← new_synthesizer (Args.triplane_dim args) (Args.rendering_samples_per_ray args);
  let self :=
    {| encoder_feat_dim := Args.encoder_feat_dim args;
       camera_embed_dim := Args.camera_embed_dim args;
       triplane_low_res := Args.triplane_low_res args;
       triplane_high_res := Args.triplane_high_res args;
       triplane_dim := Args.triplane_dim args;
       conv_fuse := Args.conv_fuse args;
       swin_ca_fuse := Args.swin_ca_fuse args;
       encoder := {| fwd := cls; params := enc |};
       camera_embedder := {| fwd := tt; params := cam |};
       pos_embed := pos;
       transformer := {| fwd := tt; params := tr |};
       upsampler :=
         {| fwd := {| ct_in := Args.transformer_dim args; ct_out := Args.triplane_dim args;
                      ct_kernel := 2; ct_stride := 2; ct_padding := 0;
                      ct_fn := upsampler_fn |};
            params := upsampler_params |};
       synthesizer := {| fwd := tt; params := syn |};
       front_back_conv := None;
       swin_cross_attention := None |} in
  if (0 <? Args.model_lora_rank args)%Z then
    if conv_fuse self then
      let self :=
        set_front_back_conv
          (new_front_back_conv (Args.triplane_dim args) (Args.triplane_high_res args)) self in
      finish (freeze_modules true true false false false false self)
    else if swin_ca_fuse self then
      let layer := {| ca_dim := Args.ca_dim args; ca_depth := Args.ca_depth args;
                      ca_num_heads := Args.ca_num_heads args;
                      ca_window_size := Args.ca_window_size args |} in
      ca ← new_cross_attention layer;
      let self := set_swin_cross_attention {| fwd := layer; params := ca |} self in
      finish (freeze_modules true true false false false false self)
    else Raise no_fusion_method
  else Ok self.

(** *** The forward passes

    A forward pass reads [self], runs on the state of the collaborators and
    records the calls it makes to the submodules, in order. *)
Inductive Call : Type :=
| CallEncoder (image : Tensor A)
| CallCameraEmbedder (camera : Tensor A)
| CallTransformer (x cond mod_ : Tensor A)
| CallUpsampler (x : Tensor A)
| CallFrontBackConv (x : Tensor A)
| CallSwinCrossAttention (front back : Tensor A) (height width : nat)
| CallSynthesizer (planes render_cameras render_anchors render_resolutions
    render_bg_colors : Tensor A) (render_region_size : Z).

Definition Run (X : Type) : Type := S → result X * S * list Call.

Global Instance run_ret : MRet Run := λ X x s, (Ok x, s, []).
Global Instance run_bind : MBind Run := λ X Y f m s,
  match m s with
  | (Ok x, s', tr) => let '(r, s'', tr') := f x s' in (r, s'', tr ++ tr')
  | (Raise e, s', tr) => (Raise e, s', tr)
  end.

(** A step that neither calls a submodule nor touches the state. *)
Definition lift {X} (r : result X) : Run X := λ s, (r, s, []).

(** A call to a submodule: recorded, then run. *)
Definition call {X} (c : Call) (f : S → result X * S) : Run X :=
  λ s, let '(r, s') := f s in (r, s', [c]).

Definition outcome {X} (r : result X * S * list Call) : result X := r.1.1.
Definition state_after {X} (r : result X * S * list Call) : S := r.1.2.
Definition calls {X} (r : result X * S * list Call) : list Call := r.2.

Definition forward_transformer (self : ModelLRM) (image_feats camera_embeddings : Tensor A)
    : Run (Tensor A) :=
  a ← lift (size image_feats 0);
  b ← lift (size camera_embeddings 0);
  lift (py_assert (bool_decide (a = b))
          "Batch size mismatch for image_feats and camera_embeddings!");;
  N ← lift (size image_feats 0);
  x ← lift (repeat_ [N; 1; 1] (value (pos_embed self)));
  call (CallTransformer x image_feats camera_embeddings)
       (transformer_call x image_feats camera_embeddings).

Definition reshape_upsample (self : ModelLRM) (tokens : Tensor A) : Run (Tensor A) :=
  N ← lift (size tokens 0);
  let H := triplane_low_res self in
  let W := triplane_low_res self in
  x ← lift (view [Some N; Some 3; Some H; Some W; None] tokens);
  x ← lift (einsum_nihwd_indhw x);
  x ← lift (view [Some (3 * N); None; Some H; Some W] (contiguous x));
  x ← call (CallUpsampler x) (λ s, (conv_transpose2d (fwd (upsampler self)) x, s));
  x ← lift (view (Some 3 :: Some N :: (Some <$> drop (length (shape x) - 3) (shape x))) x);
  x ← lift (einsum_indhw_nidhw x);
  mret (contiguous x).

(** [f"Feature dimension mismatch: {d} vs {e}"] *)
Definition mismatch_msg (d e : nat) : string :=
  "Feature dimension mismatch: " +:+ pretty d +:+ " vs " +:+ pretty e.

(** The end of [forward_planes], from the call of [forward_transformer];
    [N] is [image.shape[0]]. *)
Definition decode_planes (self : ModelLRM) (N : nat) (image_feats camera_embeddings : Tensor A)
    : Run (Tensor A) :=
  tokens ← forward_transformer self image_feats camera_embeddings;
  planes ← reshape_upsample self tokens;
  n ← lift (size planes 0);
  lift (py_assert (bool_decide (n = N)) "Batch size mismatch for planes");;
  n ← lift (size planes 1);
  lift (py_assert (bool_decide (n = 3)) "Planes should have 3 channels");;
  mret planes.

Definition forward_planes (self : ModelLRM) (image camera : Tensor A) : Run (Tensor A) :=
  N ← lift (size image 0);
  image_feats ← call (CallEncoder image) (encoder_call (fwd (encoder self)) image);
  d ← lift (size image_feats (-1));
  lift (py_assert (bool_decide (d = encoder_feat_dim self))
          (mismatch_msg d (encoder_feat_dim self)));;
  camera_embeddings ← call (CallCameraEmbedder camera) (camera_embedder_call camera);
  d ← lift (size camera_embeddings (-1));
  lift (py_assert (bool_decide (d = camera_embed_dim self))
          (mismatch_msg d (camera_embed_dim self)));;
  decode_planes self N image_feats camera_embeddings.

(** [back_planes[:, k, :, :, :]], read and assigned. *)
Definition plane (k : nat) (t : Tensor A) : result (Tensor A) :=
  if decide (5 ≤ length (shape t)) then select 1 k t
  else Raise (IndexError "too many indices for tensor").

Definition set_plane (k : nat) (v t : Tensor A) : result (Tensor A) :=
  if decide (5 ≤ length (shape t)) then select_put 1 k v t
  else Raise (IndexError "too many indices for tensor").

(** The three assignments of [forward] that mirror the planes of the back
    view: XY, then XZ, then YZ. *)
Definition flip_back_planes (back_planes : Tensor A) : result (Tensor A) :=
  v ← plane 0 back_planes; v ← flip [-2; -1]%Z v;
  back_planes ← set_plane 0 v back_planes;
  v ← plane 1 back_planes; v ← flip [-1]%Z v;
  back_planes ← set_plane 1 v back_planes;
  v ← plane 2 back_planes; v ← flip [-2]%Z v;
  set_plane 2 v back_planes.

(** [for layer in self.front_back_conv: planes = layer(planes)] *)
Fixpoint run_layers (layers : list Layer) (planes : Tensor A) : Run (Tensor A) :=
  match layers with
  | [] => mret planes
  | layer :: layers' =>
      planes ← call (CallFrontBackConv planes) (λ s, (layer_forward layer planes, s));
      run_layers layers' planes
  end.

(** [getattr]: an attribute that was never assigned. *)
Definition attribute {X} (name : string) (o : option X) : result X :=
  match o with
  | Some x => Ok x
  | None => Raise (AttributeError ("'ModelLRM' object has no attribute '" +:+ name +:+ "'"))
  end.

(** [bs, num_planes, channels, height, width = front_planes.shape] *)
Definition unpack5 (sh : list nat) : result (nat * nat * nat * nat * nat) :=
  match sh with
  | [a; b; c; d; e] => Ok (a, b, c, d, e)
  | _ => Raise (ValueError "wrong number of values to unpack (expected 5)")
  end.

(** [N, M = render_cameras.shape[:2]] *)
Definition unpack2 (sh : list nat) : result (nat * nat) :=
  match take 2 sh with
  | [a; b] => Ok (a, b)
  | _ => Raise (ValueError "not enough values to unpack (expected 2)")
  end.

(** The fusion of the two triplanes; [None] when neither branch of the
    [if]/[elif] runs and the local [planes] stays unassigned. *)
Definition fuse (self : ModelLRM) (front_planes back_planes : Tensor A)
    : Run (option (Tensor A)) :=
  '(bs, num_planes, channels, height, width) ← lift (unpack5 (shape front_planes));
  if conv_fuse self then
    planes ← lift (cat 2 front_planes back_planes);
    planes ← lift (reshape [None; Some (channels * 2); Some height; Some width] planes);
    layers ← lift (attribute "front_back_conv" (front_back_conv self));
    planes ← run_layers layers planes;
    planes ← lift (view [Some bs; Some num_planes; None; Some height; Some width] planes);
    mret (Some planes)
  else if swin_ca_fuse self then
    front_planes ← lift (reshape [Some (bs * num_planes); Some channels; Some (height * width)]
                           front_planes);
    front_planes ← lift (permute [0; 2; 1] front_planes);
    back_planes ← lift (reshape [Some (bs * num_planes); Some channels; Some (height * width)]
                          back_planes);
    back_planes ← lift (permute [0; 2; 1] back_planes);
    ca ← lift (attribute "swin_cross_attention" (swin_cross_attention self));
    out ← call (CallSwinCrossAttention front_planes back_planes height width)
               (swin_cross_attention_call (fwd ca) front_planes back_planes height width);
    out0 ← lift (match out with
                 | t :: _ => Ok t
                 | [] => Raise (IndexError "tuple index out of range")
                 end);
    planes ← lift (permute [0; 2; 1] out0);
    planes ← lift (reshape [Some bs; Some num_planes; Some channels; Some height; Some width]
                     planes);
    mret (Some planes)
  else mret None.

(** The checks at the head of [forward]. *)
Definition validate (image source_camera render_cameras render_anchors
    render_bg_colors : Tensor A) : result unit :=
  a ← size image 0; b ← size source_camera 0;
  py_assert (bool_decide (a = b)) "Batch size mismatch for image and source_camera";;
  a ← size image 0; b ← size render_cameras 0;
  py_assert (bool_decide (a = b)) "Batch size mismatch for image and render_cameras";;
  a ← size image 0; b ← size render_anchors 0;
  py_assert (bool_decide (a = b)) "Batch size mismatch for image and render_anchors";;
  a ← size image 0; b ← size render_bg_colors 0;
  py_assert (bool_decide (a = b)) "Batch size mismatch for image and render_bg_colors".

(** The dispatch of [forward] on [image_back]: the value of the local
    [planes] when the [if] statement is left, [None] when unassigned. *)
Definition dispatch (self : ModelLRM) (image source_camera : Tensor A)
    (image_back : option (Tensor A)) : Run (option (Tensor A)) :=
  match image_back with
  | Some image_back =>
      front_planes ← forward_planes self image source_camera;
      back_planes ← forward_planes self image_back source_camera;
      back_planes ← lift (flip_back_planes back_planes);
      fuse self front_planes back_planes
  | None =>
      planes ← forward_planes self image source_camera;
      mret (Some planes)
  end.

Definition forward (self : ModelLRM) (image source_camera render_cameras render_anchors
    render_resolutions render_bg_colors : Tensor A) (render_region_size : Z)
    (image_back : option (Tensor A)) : Run (gmap string (Tensor A)) :=
  lift (validate image source_camera render_cameras render_anchors render_bg_colors);;
  '(N, M) ← lift (unpack2 (shape render_cameras));
  planes ← dispatch self image source_camera image_back;
  planes ← lift (match planes with
                 | Some p => Ok p
                 | None => Raise (UnboundLocalError "planes")
                 end);
  render_results ←
    call (CallSynthesizer planes render_cameras render_anchors render_resolutions
            render_bg_colors render_region_size)
         (synthesizer_call planes render_cameras render_anchors render_resolutions
            render_bg_colors render_region_size);
  images_rgb ← lift (match render_results !! "images_rgb" with
                     | Some t => Ok t
                     | None => Raise (KeyError "images_rgb")
                     end);
  n ← lift (size images_rgb 0);
  lift (py_assert (bool_decide (n = N)) "Batch size mismatch for render_results");;
  m ← lift (size images_rgb 1);
  lift (py_assert (bool_decide (m = M))
          "Number of rendered views should be consistent with render_cameras");;
  mret (render_results ∪ {[ "planes" := planes ]}).

(** *** What the specification says of the collaborators and of the planes *)

(** The mirrored position of (row, col) in plane [p] of a grid of [H] rows
    and [W] columns, in the words of the specification: plane 0 is flipped
    along both spatial axes, plane 1 along the width only, plane 2 along the
    height only. *)
Definition mirror (H W p r c : nat) : nat * nat :=
  match p with
  | 0 => (H - 1 - r, W - 1 - c)
  | 1 => (r, W - 1 - c)
  | _ => (H - 1 - r, c)
  end.

(** The tokens of plane [i] of batch element [n], in the words of the
    specification: the [i]-th run of [low * low] tokens of the sequence, read
    as a [low] by [low] grid, channel first. *)
Definition token_grid (F low : nat) (tokens : Tensor A) (n i : nat) : Tensor A :=
  tabulate [F; low; low]
    (λ idx, match idx with
            | [d; h; w] => get tokens [n; i * low * low + h * low + w; d]
            | _ => inhabitant
            end).

(** Modelled from the spec: the forward passes of the encoder wrappers
    (encoders/dino_wrapper.py, encoders/dinov2_wrapper.py), of
    [CameraEmbedder] (embedder.py) and of [TransformerDecoder]
    (transformer.py), which are not part of this file. Their interfaces:
    encode (N, C, H, W) to (N, L, feat_dim), embed (N, raw_dim) to
    (N, embed_dim), decode (N, L, D) with conditioning (N, L', feat_dim) and
    modulation (N, embed_dim) to (N, L, D). *)
Definition interfaces (self : ModelLRM) : Prop :=
  (∀ image s N C H W, shape image = [N; C; H; W] →
     ∃ feats L, (encoder_call (fwd (encoder self)) image s).1 = Ok feats ∧
                shape feats = [N; L; encoder_feat_dim self]) ∧
  (∀ camera s N R, shape camera = [N; R] →
     ∃ emb, (camera_embedder_call camera s).1 = Ok emb ∧
            shape emb = [N; camera_embed_dim self]) ∧
  (∀ x cond mod_ s N L D L' E,
     shape x = [N; L; D] → shape cond = [N; L'; encoder_feat_dim self] →
     shape mod_ = [N; E] →
     ∃ tokens, (transformer_call x cond mod_ s).1 = Ok tokens ∧ shape tokens = [N; L; D]).

(** Modelled from the spec: the forward pass of [CrossAttentionLayer]
    (swin_transformer.py), which is not part of this file. It produces fused
    tokens of the size of the token sequences it is given; they come first in
    the tuple it returns. *)
Definition cross_attention_interface : Prop :=
  ∀ layer front back h w s B L Ch,
    shape front = [B; L; Ch] → shape back = [B; L; Ch] →
    ∃ out rest, (swin_cross_attention_call layer front back h w s).1 = Ok (out :: rest) ∧
                shape out = [B; L; Ch].

(** Modelled from the spec: inference with frozen parameters (section 5).
    What the forward passes of the encoder, of the camera embedder and of
    the transformer return is a function of their inputs, their parameters
    being immutable during inference. The state they run on (buffers,
    caches, counters) may change with every call; the state a call starts
    from does not show in what it returns. *)
Record Inference : Type := {
  encoder_out : EncoderClass → Tensor A → result (Tensor A);
  camera_embedder_out : Tensor A → result (Tensor A);
  transformer_out : Tensor A → Tensor A → Tensor A → result (Tensor A) }.

Definition frozen_parameters (p : Inference) : Prop :=
  (∀ cls x s, (encoder_call cls x s).1 = encoder_out p cls x) ∧
  (∀ x s, (camera_embedder_call x s).1 = camera_embedder_out p x) ∧
  (∀ x c m s, (transformer_call x c m s).1 = transformer_out p x c m).

(** Modelled from the spec: the Plane Generator as the pure function of its
    inputs and of the parameters that section 5 speaks of, in the six steps
    of section 4.1. It has no state to read or to leave; a violated contract
    is the error of the source.

    Steps 3 and 4: the positional grid, broadcast to the batch size, is
    decoded with the image features as conditioning and the camera
    embedding as modulation. *)
Definition decoded_tokens (self : ModelLRM) (p : Inference)
    (image_feats camera_embeddings : Tensor A) : result (Tensor A) :=
  a ← size image_feats 0;
  b ← size camera_embeddings 0;
  py_assert (bool_decide (a = b))
    "Batch size mismatch for image_feats and camera_embeddings!";;
  N ← size image_feats 0;
  grid ← repeat_ [N; 1; 1] (value (pos_embed self));
  transformer_out p grid image_feats camera_embeddings.

(** Step 5: tokens (N, 3 * low^2, feat) are reinterpreted as
    (N, 3, low, low, feat), transposed and stacked to (3 * N, feat, low, low),
    upsampled by the one shared transform, and un-stacked and transposed
    back to (N, 3, D', H', W'). *)
Definition upsampled_planes (self : ModelLRM) (tokens : Tensor A) : result (Tensor A) :=
  N ← size tokens 0;
  x ← view [Some N; Some 3; Some (triplane_low_res self); Some (triplane_low_res self); None]
        tokens;
  x ← einsum_nihwd_indhw x;
  x ← view [Some (3 * N); None; Some (triplane_low_res self); Some (triplane_low_res self)]
        (contiguous x);
  x ← conv_transpose2d (fwd (upsampler self)) x;
  x ← view (Some 3 :: Some N :: (Some <$> drop (length (shape x) - 3) (shape x))) x;
  x ← einsum_indhw_nidhw x;
  Ok (contiguous x).

(** Steps 1 and 2, the two steps above, and the post-conditions of
    step 6. *)
Definition plane_generator (self : ModelLRM) (p : Inference) (image camera : Tensor A)
    : result (Tensor A) :=
  N ← size image 0;
  image_feats ← encoder_out p (fwd (encoder self)) image;
  d ← size image_feats (-1);
  py_assert (bool_decide (d = encoder_feat_dim self))
    (mismatch_msg d (encoder_feat_dim self));;
  camera_embeddings ← camera_embedder_out p camera;
  d ← size camera_embeddings (-1);
  py_assert (bool_decide (d = camera_embed_dim self))
    (mismatch_msg d (camera_embed_dim self));;
  tokens ← decoded_tokens self p image_feats camera_embeddings;
  planes ← upsampled_planes self tokens;
  n ← size planes 0;
  py_assert (bool_decide (n = N)) "Batch size mismatch for planes";;
  n ← size planes 1;
  py_assert (bool_decide (n = 3)) "Planes should have 3 channels";;
  Ok planes.

(** A run that hands the state of the collaborators back unchanged. *)
Definition preserves {X} (m : Run X) : Prop := ∀ s, state_after (m s) = s.

(** A run whose outcome and whose calls are the same from every state. *)
Definition state_blind {X} (m : Run X) : Prop :=
  ∀ s s', outcome (m s) = outcome (m s') ∧ calls (m s) = calls (m s').

End Model.

Global Arguments Weights A : clear implicits.
Global Arguments Collaborators A S : clear implicits.
Global Arguments Call A : clear implicits.
Global Arguments Run A S X : clear implicits.
Global Arguments Param A : clear implicits.
Global Arguments NNModule A F : clear implicits.
Global Arguments Layer A : clear implicits.
Global Arguments ModelLRM A : clear implicits.
Global Arguments Method A X : clear implicits.
Global Arguments Inference A : clear implicits.

End LRM.
Export LRM.

(** ** A small instance

    Integer tensors, a transposed convolution of kernel 2 and stride 2 with
    explicit weights, and collaborators that satisfy the interfaces of the
    package: the encoder returns (N, L, feat), the camera embedder
    (N, embed), the decoder a sequence of the size of its input, the
    renderer ['images_rgb'] of size (N, M, ...). Their state counts
    nothing and is never changed. *)

Module Small.

Definition sumZ (f : nat → Z) (n : nat) : Z :=
  foldr (λ i acc, (f i + acc)%Z) 0%Z (seq 0 n).

Definition up_k2s2 (cout : nat) (w : nat → nat → nat → nat → Z) (x : Tensor Z) : Tensor Z :=
  match shape x with
  | [C; H; W] =>
      tabulate [cout; 2 * H; 2 * W]
        (λ idx, match idx with
                | [co; y; x'] =>
                    sumZ (λ ci, Z.mul (get x [ci; Nat.div y 2; Nat.div x' 2])
                                      (w ci co (Nat.modulo y 2) (Nat.modulo x' 2))) C
                | _ => 0%Z
                end)
  | _ => x
  end.

Definition mix_channels (cout : nat) (x : Tensor Z) : Tensor Z :=
  match shape x with
  | [C; H; W] =>
      tabulate [cout; H; W]
        (λ idx, match idx with
                | [co; y; x'] => Z.add (sumZ (λ ci, get x [ci; y; x']) C) (Z.of_nat co)
                | _ => 0%Z
                end)
  | _ => x
  end.

Definition a_param (g : bool) : Param Z :=
  {| value := mkTensor [1] [0%Z]; requires_grad := g |}.

Global Instance weights : Weights Z := {|
  randn size idx := (Z.of_nat (ravel size idx) + 1)%Z;
  pos_scale d x := x;
  upsampler_fn := up_k2s2 1 (λ ci co ky kx, Z.of_nat (1 + ci + 2 * ky + kx));
  upsampler_params := [a_param true; a_param true];
  conv_fn k := mix_channels (if decide (k = 6) then 1 else 4);
  norm_fn k x := x;
  gelu_fn z := Z.max 0 z |}.

Global Instance collaborators : Collaborators Z nat := {|
  new_encoder cls name freeze := Ok [a_param (negb freeze)];
  new_camera_embedder raw embed := Ok [a_param true];
  new_transformer block layers heads inner cond mod_ rank := Ok [a_param true; a_param true];
  mark_only_lora_as_trainable ps :=
    match ps with p :: rest => frozen p :: rest | [] => [] end;
  new_synthesizer dim samples := Ok [a_param true];
  new_cross_attention layer := Ok [a_param true];
  encoder_call cls image s :=
    match shape image with
    | N :: _ => (Ok (tabulate [N; 2; 3]
                       (λ idx, Z.add (data image !!! ravel [N; 2; 3] idx) 1)), s)
    | [] => (Raise (RuntimeError "expected a batch of images"), s)
    end;
  camera_embedder_call camera s :=
    match shape camera with
    | N :: _ => (Ok (tabulate [N; 2] (λ idx, data camera !!! ravel [N; 2] idx)), s)
    | [] => (Raise (RuntimeError "expected a batch of cameras"), s)
    end;
  transformer_call x cond mod_ s :=
    (Ok (tabulate (shape x)
           (λ idx, Z.add (Z.add (get x idx) (get cond [idx !!! 0; 0; 0]))
                         (get mod_ [idx !!! 0; 0]))), s);
  swin_cross_attention_call layer front back height width s :=
    (Ok [tabulate (shape front) (λ idx, (get front idx + get back idx)%Z)], s);
  synthesizer_call planes cams anchors resolutions bg region s :=
    match shape cams with
    | N :: M :: _ =>
        (Ok {[ "images_rgb" :=
                 tabulate [N; M; 3; 1; 1] (λ idx, get planes [idx !!! 0; 0; 0; 0; 0]) ]}, s)
    | _ => (Raise (RuntimeError "expected render cameras of size (N, M, D)"), s)
    end |}.

(** transformer_dim 2, triplane_low_res 1 and triplane_dim 1, as the weights
    above are made for; the other sizes and the fusion mode are chosen by
    the caller. *)
Definition custom (encoder_feat_dim camera_embed_dim triplane_high_res : nat)
    (model_lora_rank : Z) (conv_fuse swin_ca_fuse : bool) : Args.t :=
  {| Args.camera_embed_dim := camera_embed_dim; Args.rendering_samples_per_ray := 1;
     Args.transformer_dim := 2; Args.transformer_layers := 1;
     Args.transformer_heads := 1; Args.triplane_low_res := 1;
     Args.triplane_high_res := triplane_high_res; Args.triplane_dim := 1;
     Args.encoder_freeze := true; Args.encoder_type := "dino";
     Args.encoder_model_name := "facebook/dino-vitb16";
     Args.encoder_feat_dim := encoder_feat_dim;
     Args.model_lora_rank := model_lora_rank; Args.conv_fuse := conv_fuse;
     Args.swin_ca_fuse := swin_ca_fuse; Args.ca_dim := 1; Args.ca_depth := 1;
     Args.ca_num_heads := 1; Args.ca_window_size := 2 |}.

(** The sizes the collaborators above produce: encoder_feat_dim 3,
    camera_embed_dim 2, and triplane_high_res 2, twice the low resolution. *)
Definition args (model_lora_rank : Z) (conv_fuse swin_ca_fuse : bool) : Args.t :=
  custom 3 2 2 model_lora_rank conv_fuse swin_ca_fuse.

(** A tensor of the given size holding [start], [start + 1], ... *)
Definition iota (sh : list nat) (start : Z) : Tensor Z :=
  tabulate sh (λ idx, (start + Z.of_nat (ravel sh idx))%Z).

(** The model [__init__] builds from [a]. *)
Definition blank : ModelLRM Z :=
  {| encoder_feat_dim := 0; camera_embed_dim := 0; triplane_low_res := 0;
     triplane_high_res := 0; triplane_dim := 0; conv_fuse := false; swin_ca_fuse := false;
     encoder := {| fwd := DinoWrapper; params := [] |};
     camera_embedder := {| fwd := tt; params := [] |};
     pos_embed := a_param true;
     transformer := {| fwd := tt; params := [] |};
     upsampler := {| fwd := {| ct_in := 0; ct_out := 0; ct_kernel := 2; ct_stride := 2;
                               ct_padding := 0; ct_fn := λ x, x |};
                     params := [] |};
     synthesizer := {| fwd := tt; params := [] |};
     front_back_conv := None; swin_cross_attention := None |}.

Definition model (a : Args.t) : ModelLRM Z :=
  match init (S := nat) a with
  | Ok self => self
  | Raise _ => blank
  end.

(** Two images each for a front and a back view, a camera, and a render
    request for one view per sample. *)
Definition image : Tensor Z := iota [2; 1; 1; 1] 5.
Definition image_back : Tensor Z := iota [2; 1; 1; 1] 9.
Definition source_camera : Tensor Z := iota [2; 16] 1.
Definition render_cameras : Tensor Z := iota [2; 1; 3] 0.
Definition render_anchors : Tensor Z := iota [2; 1; 2] 0.
Definition render_resolutions : Tensor Z := iota [2; 1; 1] 0.
Definition render_bg_colors : Tensor Z := iota [2; 1; 1] 0.

(** What a run returned, or a default. *)
Definition value_of {X} (r : result X) (default : X) : X :=
  match r with Ok x => x | Raise _ => default end.

Definition encoded (image : Tensor Z) : Tensor Z :=
  value_of (encoder_call DinoWrapper image 0).1 image.

Definition embedded (camera : Tensor Z) : Tensor Z :=
  value_of (camera_embedder_call (S := nat) camera 0).1 camera.

Definition planes_of (self : ModelLRM Z) (image camera : Tensor Z)
    (image_back : option (Tensor Z)) : Tensor Z :=
  match outcome (dispatch (S := nat) self image camera image_back 0) with
  | Ok (Some p) => p
  | _ => image
  end.

End Small.

(** ** The renderer and further inputs *)

Section Rendering.
Context {A S : Type} `{!Inhabited A} `{!Collaborators A S}.

(** Modelled from the spec: the forward pass of [TriplaneSynthesizer]
    (rendering/synthesizer.py), which is not part of this file. For render
    cameras of size (N, M, ...) it returns a dictionary that holds
    ['images_rgb'] of size (N, M, ...). *)
Definition synthesizer_interface : Prop :=
  ∀ planes cams anchors resolutions bg region s N M rest,
    shape cams = N :: M :: rest →
    ∃ results img rest',
      (synthesizer_call planes cams anchors resolutions bg region s).1 = Ok results ∧
      results !! "images_rgb" = Some img ∧ shape img = N :: M :: rest'.

End Rendering.

Section Freezing.
Context {A : Type}.

(** Every parameter of the list is frozen. *)
Definition all_frozen (ps : list (Param A)) : Prop :=
  Forall (λ p, requires_grad p = false) ps.

(** [ps'] holds the parameters of [ps], in order and with their values, and
    none that was frozen is trainable again. *)
Definition kept_or_frozen (ps ps' : list (Param A)) : Prop :=
  Forall2 (λ p p', value p' = value p ∧ (requires_grad p' = true → requires_grad p = true))
    ps ps'.

(** The module [m] after [for param in m.parameters(): param.requires_grad =
    False], when [b] holds. *)
Definition freeze_if {F} (b : bool) (m : NNModule A F) : NNModule A F :=
  if b then with_params m (frozen <$> params m) else m.

End Freezing.

Module Cases.

(** Arguments of [__init__] with another encoder type, or another
    transformer dimension. *)
Definition with_encoder_type (encoder_type : string) (a : Args.t) : Args.t :=
  {| Args.camera_embed_dim := Args.camera_embed_dim a;
     Args.rendering_samples_per_ray := Args.rendering_samples_per_ray a;
     Args.transformer_dim := Args.transformer_dim a;
     Args.transformer_layers := Args.transformer_layers a;
     Args.transformer_heads := Args.transformer_heads a;
     Args.triplane_low_res := Args.triplane_low_res a;
     Args.triplane_high_res := Args.triplane_high_res a;
     Args.triplane_dim := Args.triplane_dim a;
     Args.encoder_freeze := Args.encoder_freeze a;
     Args.encoder_type := encoder_type;
     Args.encoder_model_name := Args.encoder_model_name a;
     Args.encoder_feat_dim := Args.encoder_feat_dim a;
     Args.model_lora_rank := Args.model_lora_rank a;
     Args.conv_fuse := Args.conv_fuse a;
     Args.swin_ca_fuse := Args.swin_ca_fuse a;
     Args.ca_dim := Args.ca_dim a; Args.ca_depth := Args.ca_depth a;
     Args.ca_num_heads := Args.ca_num_heads a;
     Args.ca_window_size := Args.ca_window_size a |}.

Definition with_transformer_dim (transformer_dim : nat) (a : Args.t) : Args.t :=
  {| Args.camera_embed_dim := Args.camera_embed_dim a;
     Args.rendering_samples_per_ray := Args.rendering_samples_per_ray a;
     Args.transformer_dim := transformer_dim;
     Args.transformer_layers := Args.transformer_layers a;
     Args.transformer_heads := Args.transformer_heads a;
     Args.triplane_low_res := Args.triplane_low_res a;
     Args.triplane_high_res := Args.triplane_high_res a;
     Args.triplane_dim := Args.triplane_dim a;
     Args.encoder_freeze := Args.encoder_freeze a;
     Args.encoder_type := Args.encoder_type a;
     Args.encoder_model_name := Args.encoder_model_name a;
     Args.encoder_feat_dim := Args.encoder_feat_dim a;
     Args.model_lora_rank := Args.model_lora_rank a;
     Args.conv_fuse := Args.conv_fuse a;
     Args.swin_ca_fuse := Args.swin_ca_fuse a;
     Args.ca_dim := Args.ca_dim a; Args.ca_depth := Args.ca_depth a;
     Args.ca_num_heads := Args.ca_num_heads a;
     Args.ca_window_size := Args.ca_window_size a |}.

(** The collaborators of [Small] with another renderer. By [mode], its
    results hold no ['images_rgb'] (0), images for one sample too many (1),
    for one view too many (2), or the images and a ['planes'] entry of its
    own (any other). *)
Definition renderer_results (mode N M : nat) : gmap string (Tensor Z) :=
  match mode with
  | 0 => ∅
  | 1 => {[ "images_rgb" := Small.iota [N + 1; M; 3; 1; 1] 0 ]}
  | 2 => {[ "images_rgb" := Small.iota [N; M + 1; 3; 1; 1] 0 ]}
  | _ => <[ "planes" := Small.iota [1] 7 ]> {[ "images_rgb" := Small.iota [N; M; 3; 1; 1] 0 ]}
  end.

Definition with_renderer (mode : nat) : Collaborators Z nat := {|
  new_encoder := @new_encoder Z nat Small.collaborators;
  new_camera_embedder := @new_camera_embedder Z nat Small.collaborators;
  new_transformer := @new_transformer Z nat Small.collaborators;
  mark_only_lora_as_trainable := @mark_only_lora_as_trainable Z nat Small.collaborators;
  new_synthesizer := @new_synthesizer Z nat Small.collaborators;
  new_cross_attention := @new_cross_attention Z nat Small.collaborators;
  encoder_call := @encoder_call Z nat Small.collaborators;
  camera_embedder_call := @camera_embedder_call Z nat Small.collaborators;
  transformer_call := @transformer_call Z nat Small.collaborators;
  swin_cross_attention_call := @swin_cross_attention_call Z nat Small.collaborators;
  synthesizer_call planes cams anchors resolutions bg region s :=
    match shape cams with
    | N :: M :: _ => (Ok (renderer_results mode N M), s)
    | _ => (Raise (RuntimeError "expected render cameras of size (N, M, D)"), s)
    end |}.

(** The collaborators of [Small] with forward passes that count: every call
    of the encoder, of the camera embedder, of the transformer, of the
    cross-attention layer and of the renderer adds one to the state. What
    they return is what those of [Small] do. *)
Definition tick {X} (r : result X * nat) : result X * nat := (r.1, S r.2).

Definition counting : Collaborators Z nat := {|
  new_encoder := @new_encoder Z nat Small.collaborators;
  new_camera_embedder := @new_camera_embedder Z nat Small.collaborators;
  new_transformer := @new_transformer Z nat Small.collaborators;
  mark_only_lora_as_trainable := @mark_only_lora_as_trainable Z nat Small.collaborators;
  new_synthesizer := @new_synthesizer Z nat Small.collaborators;
  new_cross_attention := @new_cross_attention Z nat Small.collaborators;
  encoder_call cls image s :=
    tick (@encoder_call Z nat Small.collaborators cls image s);
  camera_embedder_call camera s :=
    tick (@camera_embedder_call Z nat Small.collaborators camera s);
  transformer_call x cond mod_ s :=
    tick (@transformer_call Z nat Small.collaborators x cond mod_ s);
  swin_cross_attention_call layer front back height width s :=
    tick (@swin_cross_attention_call Z nat Small.collaborators layer front back
            height width s);
  synthesizer_call planes cams anchors resolutions bg region s :=
    tick (@synthesizer_call Z nat Small.collaborators planes cams anchors resolutions
            bg region s) |}.

(** What the encoder, the camera embedder and the transformer of [Small]
    compute. *)
Definition inference : Inference Z := {|
  encoder_out cls image := (@encoder_call Z nat Small.collaborators cls image 0).1;
  camera_embedder_out camera :=
    (@camera_embedder_call Z nat Small.collaborators camera 0).1;
  transformer_out x cond mod_ :=
    (@transformer_call Z nat Small.collaborators x cond mod_ 0).1 |}.

End Cases.

(** ** Call traces *)

Section Traces.
Context {A S : Type}.

(** Every call that the run [m] makes satisfies [P], whatever the state it
    starts from. *)
Definition traces {X} (P : Call A → Prop) (m : Run A S X) : Prop :=
  ∀ s, Forall P (calls (m s)).

(** The calls to the submodules of the plane generator, and to those of
    the two fusion strategies. *)
Definition is_plane_call (c : Call A) : bool :=
  match c with
  | CallEncoder _ | CallCameraEmbedder _ | CallTransformer _ _ _ | CallUpsampler _ => true
  | _ => false
  end.

Definition is_front_back_conv_call (c : Call A) : bool :=
  match c with CallFrontBackConv _ => true | _ => false end.

Definition is_swin_call (c : Call A) : bool :=
  match c with CallSwinCrossAttention _ _ _ _ => true | _ => false end.

End Traces.

(** * Properties *)

(** ** Row-major indexing *)

Lemma ravel_lt sh idx : in_bounds sh idx → ravel sh idx < numel sh.
Proof.
  unfold in_bounds. intros Hb. induction Hb as [|i n idx sh Hi Hb IH]; simpl.
  - lia.
  - nia.
Qed.

Lemma unravel_ravel sh idx : in_bounds sh idx → unravel sh (ravel sh idx) = idx.
Proof.
  unfold in_bounds. intros Hb. induction Hb as [|i n idx sh Hi Hb IH]; simpl.
  - done.
  - pose proof (ravel_lt _ _ Hb) as Hlt.
    assert (Hn : numel sh ≠ 0) by lia.
    rewrite Nat.div_add_l by done.
    rewrite (Nat.div_small (ravel sh idx)) by done.
    rewrite (Nat.add_comm (i * numel sh)), Nat.Div0.mod_add, Nat.mod_small by done.
    rewrite IH. f_equal. lia.
Qed.

Lemma unravel_in_bounds sh k : k < numel sh → in_bounds sh (unravel sh k).
Proof.
  unfold in_bounds. revert k. induction sh as [|n sh IH]; intros k Hk; simpl in *.
  - constructor.
  - destruct (decide (numel sh = 0)) as [Hz|Hz]; [rewrite Hz in Hk; lia|].
    constructor.
    + apply Nat.Div0.div_lt_upper_bound. lia.
    + apply IH. apply Nat.mod_upper_bound. done.
Qed.

Lemma in_bounds_cons_inv n sh idx :
  in_bounds (n :: sh) idx → ∃ i idx', idx = i :: idx' ∧ i < n ∧ in_bounds sh idx'.
Proof. unfold in_bounds. intros Hb. inversion Hb; subst. eauto. Qed.

Lemma in_bounds_nil_inv idx : in_bounds [] idx → idx = [].
Proof. unfold in_bounds. intros Hb. by inversion Hb. Qed.

(** [bounds] proves that an explicit index lies in an explicit size;
    [unpack_bounds] turns such a hypothesis into the components of the index. *)
Ltac bounds := unfold in_bounds; repeat (constructor; [lia|]); constructor.

Ltac unpack_bounds H :=
  repeat (let i := fresh "i" in let Hi := fresh "Hi" in
          apply in_bounds_cons_inv in H as (i & ? & -> & Hi & H));
  apply in_bounds_nil_inv in H as ->.

Lemma bind_Ok {X Y} (x : X) (f : X → result Y) : (Ok x ≫= f) = f x.
Proof. done. Qed.

Lemma bind_Ok_inv {X Y} (m : result X) (f : X → result Y) y :
  m ≫= f = Ok y → ∃ x, m = Ok x ∧ f x = Ok y.
Proof. destruct m as [x|e]; [eauto|done]. Qed.

(** ** Tensor operations *)

Section TensorFacts.
Context {A : Type} `{!Inhabited A}.
Implicit Types t v x : Tensor A.

Lemma wf_tabulate sh (f : list nat → A) : wf (tabulate sh f).
Proof. unfold wf, tabulate; simpl. by rewrite length_fmap, length_seq. Qed.

Lemma get_tabulate sh (f : list nat → A) idx :
  in_bounds sh idx → get (tabulate sh f) idx = f idx.
Proof.
  intros Hb. unfold get, tabulate; simpl.
  pose proof (ravel_lt _ _ Hb) as Hlt.
  apply list_lookup_total_correct.
  rewrite list_lookup_fmap, lookup_seq_lt by done. simpl.
  by rewrite unravel_ravel.
Qed.

Lemma tabulate_ext sh (f g : list nat → A) :
  (∀ idx, in_bounds sh idx → f idx = g idx) → tabulate sh f = tabulate sh g.
Proof.
  intros Hfg. unfold tabulate. f_equal.
  apply list_fmap_ext. intros i k Hk.
  apply lookup_seq in Hk as [-> Hlt]. simpl.
  apply Hfg. by apply unravel_in_bounds.
Qed.

Lemma size_0 t n sh : shape t = n :: sh → size t 0 = Ok n.
Proof.
  intros Hsh. unfold size, wrap_dim. rewrite Hsh.
  change (0 <? 0)%Z with false. cbv iota.
  replace (0 <? Z.of_nat (length (n :: sh)))%Z with true
    by (symmetry; apply Z.ltb_lt; simpl; lia).
  done.
Qed.

Lemma size_1 t a b sh : shape t = a :: b :: sh → size t 1 = Ok b.
Proof.
  intros Hsh. unfold size, wrap_dim. rewrite Hsh.
  change (1 <? 0)%Z with false. cbv iota.
  replace (1 <? Z.of_nat (length (a :: b :: sh)))%Z with true
    by (symmetry; apply Z.ltb_lt; simpl; lia).
  done.
Qed.

Lemma size_last3 t a b c : shape t = [a; b; c] → size t (-1) = Ok c.
Proof. intros Hsh. unfold size. by rewrite Hsh. Qed.

Lemma size_last2 t a b : shape t = [a; b] → size t (-1) = Ok b.
Proof. intros Hsh. unfold size. by rewrite Hsh. Qed.

Lemma view_one_hole spec t q :
  length (filter (λ o, o = None) spec) = 1 →
  numel (default 1 <$> spec) ≠ 0 →
  numel (shape t) = q * numel (default 1 <$> spec) →
  view spec t = Ok (mkTensor (default q <$> spec) (data t)).
Proof.
  intros Hh Hk Hn. unfold view, infer_size. rewrite Hh.
  rewrite decide_False by done. rewrite Hn.
  rewrite decide_True by (by apply Nat.Div0.mod_mul).
  by rewrite Nat.div_mul.
Qed.

Lemma view_no_hole spec t :
  length (filter (λ o, o = None) spec) = 0 →
  numel (default 1 <$> spec) = numel (shape t) →
  view spec t = Ok (mkTensor (default 1 <$> spec) (data t)).
Proof.
  intros Hh Hn. unfold view, infer_size. rewrite Hh.
  by rewrite decide_True by done.
Qed.

Lemma permute_ok perm t :
  length perm = length (shape t) →
  permute perm t =
    Ok (tabulate (gather (shape t) perm) (λ idx, get t (gather idx (inv_perm perm)))).
Proof. intros Hl. unfold permute. by rewrite decide_True. Qed.

Lemma repeat_batch t N L D :
  shape t = [1; L; D] → ∃ x, repeat_ [N; 1; 1] t = Ok x ∧ shape x = [N; L; D].
Proof.
  intros Hsh. unfold repeat_. rewrite Hsh. rewrite decide_True by done.
  eexists. split; [done|]. simpl. by rewrite Nat.mul_1_r, !Nat.add_0_r.
Qed.

Lemma cat_planes (a b : Tensor A) N P D H W :
  shape a = [N; P; D; H; W] → shape b = [N; P; D; H; W] →
  ∃ c, cat 2 a b = Ok c ∧ shape c = [N; P; D + D; H; W].
Proof.
  intros Ha Hb. unfold cat. rewrite Ha, Hb.
  rewrite decide_True by (simpl; auto with lia).
  eexists. split; done.
Qed.

Lemma get_per_sample (f : Tensor A → Tensor A) B in_sh out_sh (x : Tensor A) b idx :
  b < B → in_bounds out_sh idx →
  get (per_sample f B in_sh out_sh x) (b :: idx) = get (f (sample in_sh x b)) idx.
Proof.
  intros Hb Hidx. unfold per_sample. rewrite get_tabulate; [done|].
  by constructor.
Qed.

Lemma conv_transpose2d_ok (l : ConvTranspose2d A) (x : Tensor A) B H W :
  shape x = [B; ct_in l; H; W] →
  conv_transpose2d l x =
    Ok (per_sample (ct_fn l) B [ct_in l; H; W]
          [ct_out l; conv_transpose_out l H; conv_transpose_out l W] x).
Proof.
  intros Hsh. unfold conv_transpose2d. rewrite Hsh.
  by rewrite decide_True by done.
Qed.

(** Kernel 2, stride 2, no padding: the spatial size doubles. *)
Lemma upsampler_doubles (l : ConvTranspose2d A) h :
  ct_kernel l = 2 → ct_stride l = 2 → ct_padding l = 0 → 0 < h →
  conv_transpose_out l h = 2 * h.
Proof. intros Hk Hs Hp Hh. unfold conv_transpose_out. rewrite Hk, Hs, Hp. lia. Qed.

(** Kernel 3, stride 1, padding 1: the spatial size stays. *)
Lemma conv_out_same (l : Conv2d A) h :
  cv_kernel l = 3 → cv_stride l = 1 → cv_padding l = 1 → conv_out l h = h.
Proof.
  intros Hk Hs Hp. unfold conv_out. rewrite Hk, Hs, Hp.
  change (Z.of_nat 1) with 1%Z. rewrite Z.div_1_r. lia.
Qed.

Lemma conv2d_shape (l : Conv2d A) x B H W :
  shape x = [B; cv_in l; H; W] →
  cv_kernel l = 3 → cv_stride l = 1 → cv_padding l = 1 →
  ∃ y, conv2d l x = Ok y ∧ shape y = [B; cv_out l; H; W].
Proof.
  intros Hsh Hk Hs Hp. unfold conv2d. rewrite Hsh.
  rewrite decide_True by done. eexists. split; [done|].
  simpl. by rewrite !conv_out_same.
Qed.

Lemma layer_norm_shape (l : LayerNorm A) x B C H W :
  shape x = [B; C; H; W] → ln_shape l = [C; H; W] →
  ∃ y, layer_norm l x = Ok y ∧ shape y = [B; C; H; W].
Proof.
  intros Hsh Hl. unfold layer_norm. rewrite Hsh, Hl.
  rewrite decide_True by done. eexists. split; done.
Qed.

End TensorFacts.

(** ** The mirroring of the back planes *)

Section BackPlanes.
Context {A : Type} `{!Inhabited A}.
Implicit Types t v : Tensor A.

Lemma plane_ok t N P D H W k :
  shape t = [N; P; D; H; W] → k < P →
  plane k t = Ok (tabulate [N; D; H; W] (λ idx, get t (ins 1 k idx))).
Proof.
  intros Hsh Hk. unfold plane, select. rewrite Hsh. simpl.
  rewrite !decide_True by lia. done.
Qed.

Lemma set_plane_ok t v N P D H W k :
  shape t = [N; P; D; H; W] → shape v = [N; D; H; W] → k < P →
  set_plane k v t =
    Ok (tabulate [N; P; D; H; W]
          (λ idx, if decide (idx !!! 1 = k) then get v (delete 1 idx) else get t idx)).
Proof.
  intros Hsh Hv Hk. unfold set_plane, select_put. rewrite Hsh, Hv. simpl.
  rewrite !decide_True by (done || lia). done.
Qed.

Lemma flip_hw_ok v N D H W :
  shape v = [N; D; H; W] →
  flip [-2; -1]%Z v =
    Ok (tabulate [N; D; H; W] (λ idx, get v (flip_idx [N; D; H; W] [2; 3] idx))).
Proof. intros Hv. unfold flip. rewrite Hv. done. Qed.

Lemma flip_w_ok v N D H W :
  shape v = [N; D; H; W] →
  flip [-1]%Z v =
    Ok (tabulate [N; D; H; W] (λ idx, get v (flip_idx [N; D; H; W] [3] idx))).
Proof. intros Hv. unfold flip. rewrite Hv. done. Qed.

Lemma flip_h_ok v N D H W :
  shape v = [N; D; H; W] →
  flip [-2]%Z v =
    Ok (tabulate [N; D; H; W] (λ idx, get v (flip_idx [N; D; H; W] [2] idx))).
Proof. intros Hv. unfold flip. rewrite Hv. done. Qed.

Lemma mirror_lt H W p r c :
  r < H → c < W → (mirror H W p r c).1 < H ∧ (mirror H W p r c).2 < W.
Proof. intros ??. destruct p as [|[|p]]; simpl; lia. Qed.

(** Mirroring is its own inverse on the grid. *)
Lemma mirror_swap H W p r c r0 c0 :
  r < H → c < W → r0 < H → c0 < W →
  mirror H W p r c = (r0, c0) ↔ (r, c) = mirror H W p r0 c0.
Proof.
  intros ????. destruct p as [|[|p]]; simpl;
    (split; intros [= ? ?]; f_equal; lia).
Qed.

(** The three assignments succeed on five axes with three planes, and the
    element at (n, p, d, r, c) afterwards is the one that was at the mirrored
    position of plane [p]. *)
Lemma flip_back_planes_get (bp : Tensor A) N D H W :
  shape bp = [N; 3; D; H; W] →
  ∃ bp', flip_back_planes bp = Ok bp' ∧ shape bp' = [N; 3; D; H; W] ∧ wf bp' ∧
    ∀ n p d r c, n < N → p < 3 → d < D → r < H → c < W →
      get bp' [n; p; d; r; c] = get bp [n; p; d; (mirror H W p r c).1; (mirror H W p r c).2].
Proof.
  intros Hsh. unfold flip_back_planes.
  erewrite plane_ok by (done || lia). rewrite bind_Ok.
  erewrite flip_hw_ok by done. rewrite bind_Ok.
  erewrite set_plane_ok by (done || lia). rewrite bind_Ok.
  erewrite plane_ok by (done || lia). rewrite bind_Ok.
  erewrite flip_w_ok by done. rewrite bind_Ok.
  erewrite set_plane_ok by (done || lia). rewrite bind_Ok.
  erewrite plane_ok by (done || lia). rewrite bind_Ok.
  erewrite flip_h_ok by done. rewrite bind_Ok.
  erewrite set_plane_ok by (done || lia).
  eexists. split; [done|]. split; [done|]. split; [apply wf_tabulate|].
  intros n p d r c Hn Hp Hd Hr Hc.
  assert (H - 1 - r < H) by lia. assert (W - 1 - c < W) by lia.
  unfold flip_idx, ins.
  destruct p as [|[|[|p]]]; [| | |lia];
    repeat (rewrite get_tabulate by bounds; simpl); done.
Qed.


End BackPlanes.

(** ** Runs *)

Section RunFacts.
Context {A S : Type} `{!Inhabited A} `{!Collaborators A S}.
Implicit Types s : S.

Lemma bind_lift {X Y} (r : result X) (f : X → Run A S Y) s :
  (lift r ≫= f) s = match r with Ok x => f x s | Raise e => (Raise e, s, []) end.
Proof.
  unfold mbind, run_bind, lift. destruct r as [x|e]; [|done].
  by destruct (f x s) as [[? ?] ?].
Qed.

Lemma bind_lift_Ok {X Y} (x : X) (f : X → Run A S Y) s : (lift (Ok x) ≫= f) s = f x s.
Proof. by rewrite bind_lift. Qed.

Lemma bind_call {X Y} (c : Call A) (g : S → result X * S) (f : X → Run A S Y) s :
  (call c g ≫= f) s =
    match (g s).1 with
    | Ok x => let r := f x (g s).2 in (outcome r, state_after r, c :: calls r)
    | Raise e => (Raise e, (g s).2, [c])
    end.
Proof.
  unfold mbind, run_bind, call, outcome, state_after, calls.
  destruct (g s) as [[x|e] s']; simpl; [|done].
  by destruct (f x s') as [[? ?] ?].
Qed.

Lemma bind_call_Ok {X Y} (c : Call A) (x : X) (f : X → Run A S Y) s :
  (call c (λ s, (Ok x, s)) ≫= f) s =
    (outcome (f x s), state_after (f x s), c :: calls (f x s)).
Proof. by rewrite bind_call. Qed.

Lemma bind_run {X Y} (m : Run A S X) (f : X → Run A S Y) s :
  (m ≫= f) s =
    match outcome (m s) with
    | Ok x => let r := f x (state_after (m s)) in
              (outcome r, state_after r, calls (m s) ++ calls r)
    | Raise e => (Raise e, state_after (m s), calls (m s))
    end.
Proof.
  unfold mbind, run_bind, outcome, state_after, calls.
  destruct (m s) as [[[x|e] s'] tr]; simpl; [|done].
  by destruct (f x s') as [[? ?] ?].
Qed.

Lemma bind_run_Ok {X Y} (m : Run A S X) (f : X → Run A S Y) s x s' tr :
  m s = (Ok x, s', tr) →
  (m ≫= f) s = (outcome (f x s'), state_after (f x s'), tr ++ calls (f x s')).
Proof. intros Hm. by rewrite bind_run, Hm. Qed.

Lemma outcome_bind_lift_Ok {X Y} (x : X) (f : X → Run A S Y) s :
  outcome ((lift (Ok x) ≫= f) s) = outcome (f x s).
Proof. by rewrite bind_lift_Ok. Qed.

Lemma outcome_bind_call {X Y} (c : Call A) (g : S → result X * S) (f : X → Run A S Y) s x :
  (g s).1 = Ok x → outcome ((call c g ≫= f) s) = outcome (f x (g s).2).
Proof. intros Hg. rewrite bind_call, Hg. done. Qed.

Lemma outcome_bind_run {X Y} (m : Run A S X) (f : X → Run A S Y) s x :
  outcome (m s) = Ok x → outcome ((m ≫= f) s) = outcome (f x (state_after (m s))).
Proof. intros Hm. rewrite bind_run, Hm. done. Qed.

Lemma outcome_call {X} (c : Call A) (g : S → result X * S) s :
  outcome (call c g s) = (g s).1.
Proof. unfold call, outcome. by destruct (g s). Qed.

(** *** Runs that leave the state alone *)

Lemma preserves_lift {X} (r : result X) : preserves (lift r : Run A S X).
Proof. done. Qed.

Lemma preserves_ret {X} (x : X) : preserves (mret x : Run A S X).
Proof. done. Qed.

Lemma preserves_call {X} (c : Call A) (g : S → result X * S) :
  (∀ s, (g s).2 = s) → preserves (call c g).
Proof.
  intros Hg s. unfold call, state_after. specialize (Hg s).
  by destruct (g s) as [? ?].
Qed.

Lemma preserves_bind {X Y} (m : Run A S X) (f : X → Run A S Y) :
  preserves m → (∀ x, preserves (f x)) → preserves (m ≫= f).
Proof.
  intros Hm Hf s. rewrite bind_run. specialize (Hm s).
  destruct (outcome (m s)) as [x|e]; simpl; [|done].
  unfold state_after at 1. simpl. rewrite Hm. apply Hf.
Qed.

(** *** Runs that do not look at the state *)

Lemma outcome_lift {X} (r : result X) s : outcome (lift r s : result X * S * list (Call A)) = r.
Proof. done. Qed.

(** The outcome of a sequence whose steps return the same from every
    state is that of the steps chained as pure computations. *)
Lemma outcome_bind_pure {X Y} (m : Run A S X) (f : X → Run A S Y)
    (r : result X) (g : X → result Y) :
  (∀ s, outcome (m s) = r) → (∀ x s, outcome (f x s) = g x) →
  ∀ s, outcome ((m ≫= f) s) = r ≫= g.
Proof.
  intros Hm Hf s. rewrite bind_run, Hm. destruct r as [x|e]; [|done].
  cbv zeta. unfold outcome at 1. simpl. apply Hf.
Qed.

Lemma state_blind_lift {X} (r : result X) : state_blind (lift r : Run A S X).
Proof. done. Qed.

Lemma state_blind_ret {X} (x : X) : state_blind (mret x : Run A S X).
Proof. done. Qed.

Lemma state_blind_call {X} (c : Call A) (g : S → result X * S) :
  (∀ s s', (g s).1 = (g s').1) → state_blind (call c g).
Proof.
  intros Hg s s'. unfold call, outcome, calls. specialize (Hg s s').
  destruct (g s) as [? ?], (g s') as [? ?]. simpl in *. by subst.
Qed.

Lemma state_blind_bind {X Y} (m : Run A S X) (f : X → Run A S Y) :
  state_blind m → (∀ x, state_blind (f x)) → state_blind (m ≫= f).
Proof.
  intros Hm Hf s s'. rewrite !bind_run. destruct (Hm s s') as [Ho Hc].
  rewrite Ho, Hc. destruct (outcome (m s')) as [x|e]; [|done].
  destruct (Hf x (state_after (m s)) (state_after (m s'))) as [Ho' Hc'].
  cbv zeta. unfold outcome at 1 3, calls at 1 4. simpl. by rewrite Ho', Hc'.
Qed.

(** The decoding stage and the upsampling stage return what their pure
    counterparts compute. *)
Lemma forward_transformer_pure (self : ModelLRM A) (p : Inference A)
    image_feats camera_embeddings :
  frozen_parameters p →
  ∀ s, outcome (forward_transformer self image_feats camera_embeddings s)
       = decoded_tokens self p image_feats camera_embeddings.
Proof.
  intros (_ & _ & Htr). unfold forward_transformer, decoded_tokens.
  do 5 (apply outcome_bind_pure; [intros; apply outcome_lift|intros ?; cbv beta]).
  intros s. rewrite outcome_call. apply Htr.
Qed.

Lemma reshape_upsample_pure (self : ModelLRM A) tokens :
  ∀ s : S, outcome (reshape_upsample self tokens s) = upsampled_planes self tokens.
Proof.
  unfold reshape_upsample, upsampled_planes.
  do 4 (apply outcome_bind_pure; [intros; apply outcome_lift|intros ?; cbv beta zeta]).
  apply outcome_bind_pure; [intros; by rewrite outcome_call|intros ?; cbv beta].
  do 2 (apply outcome_bind_pure; [intros; apply outcome_lift|intros ?; cbv beta]).
  done.
Qed.

Lemma state_blind_forward_planes (self : ModelLRM A) (p : Inference A) image camera :
  frozen_parameters p → state_blind (forward_planes self image camera).
Proof.
  intros (Henc & Hcam & Htr).
  unfold forward_planes, decode_planes, forward_transformer, reshape_upsample.
  repeat first
    [ apply state_blind_ret
    | apply state_blind_lift
    | apply state_blind_call; intros s s';
      first [done | by rewrite !Henc | by rewrite !Hcam | by rewrite !Htr]
    | apply state_blind_bind; [|intros ?] ].
Qed.

(** With a back image, [forward] generates the front planes, then the back
    planes, mirrors the back planes with no submodule called, and only then
    fuses. *)
Lemma dispatch_mirrors_before_fusing (self : ModelLRM A) (image source_camera image_back
    front_planes back_planes : Tensor A) s s1 s2 tr1 tr2 :
  forward_planes self image source_camera s = (Ok front_planes, s1, tr1) →
  forward_planes self image_back source_camera s1 = (Ok back_planes, s2, tr2) →
  dispatch self image source_camera (Some image_back) s =
    match flip_back_planes back_planes with
    | Ok mirrored =>
        (outcome (fuse self front_planes mirrored s2),
         state_after (fuse self front_planes mirrored s2),
         tr1 ++ tr2 ++ calls (fuse self front_planes mirrored s2))
    | Raise e => (Raise e, s2, tr1 ++ tr2)
    end.
Proof.
  intros Hfront Hback. unfold dispatch.
  rewrite (bind_run_Ok _ _ _ _ _ _ Hfront), (bind_run_Ok _ _ _ _ _ _ Hback), bind_lift.
  unfold outcome, state_after, calls.
  destruct (flip_back_planes back_planes) as [mirrored|e]; simpl; [done|].
  by rewrite app_nil_r.
Qed.

(** *** The facade *)

(** C4: when the batch size of the image differs from that of the source
    camera, of the render cameras, of the render anchors or of the background
    colors, [forward] raises an assertion error with no submodule called and
    the state of the collaborators untouched. *)
Theorem forward_batch_mismatch (self : ModelLRM A)
    (image source_camera render_cameras render_anchors render_resolutions
       render_bg_colors : Tensor A) (render_region_size : Z)
    (image_back : option (Tensor A)) s (n n1 n2 n3 n4 : nat) :
  size image 0 = Ok n → size source_camera 0 = Ok n1 →
  size render_cameras 0 = Ok n2 → size render_anchors 0 = Ok n3 →
  size render_bg_colors 0 = Ok n4 →
  n ≠ n1 ∨ n ≠ n2 ∨ n ≠ n3 ∨ n ≠ n4 →
  ∃ msg, forward self image source_camera render_cameras render_anchors
           render_resolutions render_bg_colors render_region_size image_back s
         = (Raise (AssertionError msg), s, []).
Proof.
  intros Hi H1 H2 H3 H4 Hne. unfold forward. rewrite bind_lift.
  unfold validate. rewrite Hi, H1, H2, H3, H4. rewrite !bind_Ok.
  repeat case_bool_decide; simpl; eauto. lia.
Qed.

(** C10: the checks of [forward] never look at the render resolutions: with
    the other inputs consistent and the planes computed, a tensor of
    resolutions of another batch size passes and is handed to the
    synthesizer as it came. *)
Theorem forward_resolutions_unchecked (self : ModelLRM A)
    (image source_camera render_cameras render_anchors render_resolutions
       render_bg_colors : Tensor A) (render_region_size : Z)
    (image_back : option (Tensor A)) s s1 tr planes (N M R : nat) rest :
  size image 0 = Ok N → size source_camera 0 = Ok N →
  shape render_cameras = N :: M :: rest → size render_anchors 0 = Ok N →
  size render_bg_colors 0 = Ok N →
  size render_resolutions 0 = Ok R → R ≠ N →
  dispatch self image source_camera image_back s = (Ok (Some planes), s1, tr) →
  validate image source_camera render_cameras render_anchors render_bg_colors = Ok () ∧
  calls (forward self image source_camera render_cameras render_anchors
           render_resolutions render_bg_colors render_region_size image_back s)
    = tr ++ [CallSynthesizer planes render_cameras render_anchors render_resolutions
               render_bg_colors render_region_size].
Proof.
  intros Hi Hc Hrc Ha Hb Hr Hne Hd.
  assert (Hrc0 : size render_cameras 0 = Ok N) by by eapply size_0.
  assert (Hv : validate image source_camera render_cameras render_anchors
                 render_bg_colors = Ok ()).
  { unfold validate. rewrite Hi, Hc, Hrc0, Ha, Hb. rewrite !bind_Ok.
    rewrite !bool_decide_eq_true_2 by done. done. }
  split; [done|].
  unfold forward. rewrite bind_lift, Hv, bind_lift.
  unfold unpack2. rewrite Hrc. simpl.
  rewrite bind_run, Hd. simpl. unfold calls at 1. simpl. f_equal.
  unfold state_after. simpl.
  rewrite bind_lift, bind_call.
  destruct (synthesizer_call _ _ _ _ _ _ s1) as [[rr|e] s2]; simpl; [|done].
  f_equal. unfold calls. simpl.
  rewrite bind_lift. destruct (rr !! "images_rgb") as [img|]; [|done].
  rewrite bind_lift. destruct (size img 0) as [n|]; [|done].
  rewrite bind_lift. destruct (py_assert _ _) as [|]; [|done].
  rewrite bind_lift. destruct (size img 1) as [m|]; [|done].
  rewrite bind_lift. destruct (py_assert _ _) as [|]; done.
Qed.

(** *** The plane generator *)

(** C7: when the last dimension of the encoder's output is not the
    configured feature dimension, [forward_planes] raises an assertion error
    with only the encoder called; when that of the camera embedder's output
    is not the configured embedding dimension, it raises one with only the
    encoder and the embedder called; when both match, neither assertion
    fires and the run goes on with the decoder stage. *)
Theorem forward_planes_dimension_checks (self : ModelLRM A) (image camera : Tensor A)
    s s1 (N d : nat) (image_feats : Tensor A) :
  size image 0 = Ok N →
  encoder_call (fwd (encoder self)) image s = (Ok image_feats, s1) →
  size image_feats (-1) = Ok d →
  (d ≠ encoder_feat_dim self →
     forward_planes self image camera s =
       (Raise (AssertionError (mismatch_msg d (encoder_feat_dim self))), s1,
        [CallEncoder image])) ∧
  (d = encoder_feat_dim self →
     ∀ camera_embeddings s2 e,
       camera_embedder_call camera s1 = (Ok camera_embeddings, s2) →
       size camera_embeddings (-1) = Ok e →
       (e ≠ camera_embed_dim self →
          forward_planes self image camera s =
            (Raise (AssertionError (mismatch_msg e (camera_embed_dim self))), s2,
             [CallEncoder image; CallCameraEmbedder camera])) ∧
       (e = camera_embed_dim self →
          forward_planes self image camera s =
            (outcome (decode_planes self N image_feats camera_embeddings s2),
             state_after (decode_planes self N image_feats camera_embeddings s2),
             [CallEncoder image; CallCameraEmbedder camera]
               ++ calls (decode_planes self N image_feats camera_embeddings s2)))).
Proof.
  intros HN Henc Hd. unfold forward_planes.
  rewrite bind_lift, HN, bind_call, Henc. simpl.
  rewrite bind_lift, Hd, bind_lift. split.
  - intros Hne. by rewrite bool_decide_eq_false_2 by done.
  - intros ->. rewrite bool_decide_eq_true_2 by done. simpl.
    intros camera_embeddings s2 e Hcam He.
    rewrite bind_call, Hcam. simpl.
    rewrite bind_lift, He, bind_lift. split.
    + intros Hne. by rewrite bool_decide_eq_false_2 by done.
    + intros ->. by rewrite bool_decide_eq_true_2 by done.
Qed.


(** The reshaping and upsampling step, axis by axis. *)
Lemma reshape_upsample_spec (self : ModelLRM A) (tokens : Tensor A) (N low : nat)
    (l : ConvTranspose2d A) s :
  triplane_low_res self = low → fwd (upsampler self) = l →
  0 < N → 0 < low → shape tokens = [N; 3 * low ^ 2; ct_in l] →
  ∃ x out,
    reshape_upsample self tokens s = (Ok out, s, [CallUpsampler x]) ∧
    shape x = [3 * N; ct_in l; low; low] ∧
    (∀ n i, n < N → i < 3 →
       sample [ct_in l; low; low] x (i * N + n) = token_grid (ct_in l) low tokens n i) ∧
    shape out = [N; 3; ct_out l; conv_transpose_out l low; conv_transpose_out l low] ∧
    (∀ n i d y x', n < N → i < 3 → d < ct_out l →
       y < conv_transpose_out l low → x' < conv_transpose_out l low →
       get out [n; i; d; y; x']
         = get (ct_fn l (token_grid (ct_in l) low tokens n i)) [d; y; x']).
Proof.
  intros <- <- HN Hlow Hsh. unfold reshape_upsample.
  set (low := triplane_low_res self) in *. set (l := fwd (upsampler self)) in *.
  set (F := ct_in l) in *.
  rewrite (size_0 _ _ _ Hsh), bind_lift_Ok.
  rewrite (view_one_hole _ _ F); [|done|simpl; nia|rewrite Hsh; simpl; lia].
  rewrite bind_lift_Ok.
  set (x1 := mkTensor _ (data tokens)).
  unfold einsum_nihwd_indhw. rewrite permute_ok by done. rewrite bind_lift_Ok.
  set (x2 := tabulate _ _). unfold contiguous.
  rewrite (view_one_hole _ _ F); [|done|simpl; nia|simpl; lia].
  rewrite bind_lift_Ok.
  set (x3 := mkTensor _ (data x2)).
  rewrite (conv_transpose2d_ok l x3 (3 * N) low low) by done.
  rewrite bind_call_Ok.
  set (x4 := per_sample _ _ _ _ _).
  change (shape x4) with [3 * N; ct_out l; conv_transpose_out l low; conv_transpose_out l low].
  rewrite view_no_hole; [|done|simpl; lia].
  rewrite bind_lift_Ok.
  set (x5 := mkTensor _ (data x4)).
  unfold einsum_indhw_nidhw. rewrite permute_ok by done. rewrite bind_lift_Ok.
  set (x6 := tabulate _ _).
  exists x3, x6. split; [done|].
  split; [done|].
  assert (Hgrid : ∀ n i, n < N → i < 3 →
            sample [F; low; low] x3 (i * N + n) = token_grid F low tokens n i).
  { intros n i Hn Hi. unfold sample, token_grid. apply tabulate_ext.
    intros idx Hidx. unpack_bounds Hidx.
    change (get x3 [i * N + n; i0; i1; i2])
      with (data x2 !!! ravel [3 * N; F; low; low] [i * N + n; i0; i1; i2]).
    replace (ravel [3 * N; F; low; low] [i * N + n; i0; i1; i2])
      with (ravel [3; N; F; low; low] [i; n; i0; i1; i2]) by (simpl; lia).
    change (data x2 !!! _) with (get x2 [i; n; i0; i1; i2]).
    unfold x2. rewrite get_tabulate by (simpl; bounds).
    unfold gather, inv_perm. simpl.
    change (get x1 [n; i; i1; i2; i0])
      with (data tokens !!! ravel [N; 3; low; low; F] [n; i; i1; i2; i0]).
    unfold get. rewrite Hsh. f_equal. simpl. lia. }
  split; [done|]. split; [done|].
  intros n i d y x' Hn Hi Hd Hy Hx.
  unfold x6. rewrite get_tabulate by (simpl; bounds).
  unfold gather, inv_perm. simpl.
  change (get x5 [i; n; d; y; x'])
    with (data x4 !!! ravel [3; N; ct_out l; conv_transpose_out l low; conv_transpose_out l low]
                        [i; n; d; y; x']).
  replace (ravel [3; N; ct_out l; conv_transpose_out l low; conv_transpose_out l low]
             [i; n; d; y; x'])
    with (ravel [3 * N; ct_out l; conv_transpose_out l low; conv_transpose_out l low]
            [i * N + n; d; y; x']) by (simpl; lia).
  change (data x4 !!! _) with (get x4 [i * N + n; d; y; x']).
  unfold x4. rewrite get_per_sample by (nia || bounds).
  by rewrite Hgrid.
Qed.

(** C3: tokens of size (N, 3 * low^2, feat) go to the upsampler as one batch
    of size (3 * N, feat, low, low) whose sample [i * N + n] is the token
    grid of plane [i] of batch element [n]; the upsampler is called once, on
    all of them; the result has size (N, 3, D', H', W') and its plane [i] of
    batch element [n] is the upsampled token grid of plane [i] of [n]. *)
Theorem reshape_upsample_planes (self : ModelLRM A) (tokens : Tensor A) (N low : nat)
    (l : ConvTranspose2d A) s :
  triplane_low_res self = low → fwd (upsampler self) = l →
  0 < N → 0 < low → shape tokens = [N; 3 * low ^ 2; ct_in l] →
  ∃ x out,
    reshape_upsample self tokens s = (Ok out, s, [CallUpsampler x]) ∧
    shape x = [3 * N; ct_in l; low; low] ∧
    (∀ n i, n < N → i < 3 →
       sample [ct_in l; low; low] x (i * N + n) = token_grid (ct_in l) low tokens n i) ∧
    shape out = [N; 3; ct_out l; conv_transpose_out l low; conv_transpose_out l low] ∧
    (∀ n i d y x', n < N → i < 3 → d < ct_out l →
       y < conv_transpose_out l low → x' < conv_transpose_out l low →
       get out [n; i; d; y; x']
         = get (ct_fn l (token_grid (ct_in l) low tokens n i)) [d; y; x']).
Proof. apply reshape_upsample_spec. Qed.

End RunFacts.

(** ** Construction *)

Section InitFacts.
Context {A S : Type} `{!Inhabited A} `{!Weights A} `{!Collaborators A S}.
Implicit Types x : Tensor A.

(** C9: [freeze_modules] with [pos_embed=True] raises an attribute error,
    whatever the other flags, and leaves the transformer, the upsampler and
    the synthesizer untouched; no call of [freeze_modules], raising or not,
    changes the positional grid; with [pos_embed=False], as in the two calls
    of [__init__], it does not raise. *)
Theorem freeze_modules_pos_embed :
  (∀ e c t u sy (self : ModelLRM A),
     (freeze_modules e c true t u sy self).1 = Raise no_parameters_attribute ∧
     transformer (freeze_modules e c true t u sy self).2 = transformer self ∧
     upsampler (freeze_modules e c true t u sy self).2 = upsampler self ∧
     synthesizer (freeze_modules e c true t u sy self).2 = synthesizer self) ∧
  (∀ e c p t u sy (self : ModelLRM A),
     pos_embed (freeze_modules e c p t u sy self).2 = pos_embed self) ∧
  (∀ e c t u sy (self : ModelLRM A),
     (freeze_modules e c false t u sy self).1 = Ok ()) ∧
  (∀ (self : ModelLRM A),
     is_ok (finish (freeze_modules true true false false false false self)) = true).
Proof.
  split; [|split; [|split]].
  - intros [] [] t u sy self; done.
  - intros [] [] [] [] [] [] self; done.
  - intros [] [] [] [] [] self; done.
  - done.
Qed.

(** What a model that [__init__] returned holds. *)
Lemma init_inv (args : Args.t) (self : ModelLRM A) :
  init args = Ok self →
  encoder_feat_dim self = Args.encoder_feat_dim args ∧
  camera_embed_dim self = Args.camera_embed_dim args ∧
  triplane_low_res self = Args.triplane_low_res args ∧
  triplane_high_res self = Args.triplane_high_res args ∧
  triplane_dim self = Args.triplane_dim args ∧
  conv_fuse self = Args.conv_fuse args ∧
  swin_ca_fuse self = Args.swin_ca_fuse args ∧
  Args.transformer_dim args ≠ 0 ∧
  shape (value (pos_embed self)) =
    [1; 3 * Args.triplane_low_res args ^ 2; Args.transformer_dim args] ∧
  requires_grad (pos_embed self) = true ∧
  ct_in (fwd (upsampler self)) = Args.transformer_dim args ∧
  ct_out (fwd (upsampler self)) = Args.triplane_dim args ∧
  ct_kernel (fwd (upsampler self)) = 2 ∧ ct_stride (fwd (upsampler self)) = 2 ∧
  ct_padding (fwd (upsampler self)) = 0 ∧
  ((0 <? Args.model_lora_rank args)%Z = true →
     (Args.conv_fuse args = true ∧
      front_back_conv self =
        Some (new_front_back_conv (Args.triplane_dim args) (Args.triplane_high_res args))) ∨
     (Args.conv_fuse args = false ∧ Args.swin_ca_fuse args = true ∧
      is_Some (swin_cross_attention self))).
Proof.
  unfold init. intros Hinit.
  apply bind_Ok_inv in Hinit as (cls0 & _ & Hinit).
  apply bind_Ok_inv in Hinit as (cls & _ & Hinit).
  apply bind_Ok_inv in Hinit as (enc & _ & Hinit).
  apply bind_Ok_inv in Hinit as (cam & _ & Hinit).
  apply bind_Ok_inv in Hinit as (pos & Hpos & Hinit).
  apply bind_Ok_inv in Hinit as (tr & _ & Hinit).
  apply bind_Ok_inv in Hinit as (syn & _ & Hinit).
  unfold new_pos_embed in Hpos.
  destruct (decide (Args.transformer_dim args = 0)) as [|Hdim]; [done|].
  injection Hpos as <-.
  cbv zeta in Hinit. cbn [conv_fuse swin_ca_fuse] in Hinit.
  destruct (0 <? Args.model_lora_rank args)%Z.
  - destruct (Args.conv_fuse args) eqn:Hconv.
    + injection Hinit as <-. simpl. repeat split; try done. intros _. by left.
    + destruct (Args.swin_ca_fuse args) eqn:Hswin; [|done].
      apply bind_Ok_inv in Hinit as (ca & _ & Hinit).
      injection Hinit as <-. simpl. repeat split; try done. intros _. right. eauto.
  - injection Hinit as <-. simpl. repeat split; done.
Qed.

(** C2, as the code has it: with a positive [model_lora_rank] and neither
    fusion strategy selected, [__init__] raises, and the error is the
    configuration error whenever the encoder type is supported and the
    submodules construct; a model that [__init__] returned for a positive
    [model_lora_rank] has a fusion strategy selected and its module built,
    and its fusion never leaves [planes] unassigned. *)
Theorem init_requires_fusion_with_lora (args : Args.t) :
  (0 < Args.model_lora_rank args)%Z →
  (Args.conv_fuse args = false → Args.swin_ca_fuse args = false →
     (∃ e, init args = Raise e) ∧
     (∀ cls enc cam tr syn,
        _encoder_fn (Args.encoder_type args) = Ok (Some cls) →
        new_encoder cls (Args.encoder_model_name args) (Args.encoder_freeze args) = Ok enc →
        new_camera_embedder (12 + 4) (Args.camera_embed_dim args) = Ok cam →
        Args.transformer_dim args ≠ 0 →
        new_transformer "cond_mod" (Args.transformer_layers args)
          (Args.transformer_heads args) (Args.transformer_dim args)
          (Args.encoder_feat_dim args) (Args.camera_embed_dim args)
          (Some (Args.model_lora_rank args)) = Ok tr →
        new_synthesizer (Args.triplane_dim args) (Args.rendering_samples_per_ray args)
          = Ok syn →
        init args = Raise no_fusion_method)) ∧
  (∀ self, init args = Ok self →
     (conv_fuse self = true ∧ is_Some (front_back_conv self) ∨
      conv_fuse self = false ∧ swin_ca_fuse self = true
        ∧ is_Some (swin_cross_attention self)) ∧
     ∀ front_planes back_planes s,
       outcome (fuse self front_planes back_planes s) ≠ Ok None).
Proof.
  intros Hlora. apply Z.ltb_lt in Hlora. split.
  - intros Hconv Hswin. split.
    + destruct (init args) as [self|e] eqn:Hinit; [|eauto].
      apply init_inv in Hinit as (_&_&_&_&_&_&_&_&_&_&_&_&_&_&_& Hf).
      destruct (Hf Hlora) as [[? _]|(_ & ? & _)]; congruence.
    + intros cls enc cam tr syn Hcls Henc Hcam Hdim Htr Hsyn.
      unfold init. rewrite Hcls, !bind_Ok, Henc, bind_Ok, Hcam, bind_Ok.
      unfold new_pos_embed. rewrite decide_False by done. rewrite bind_Ok.
      rewrite Hlora, Htr, !bind_Ok, Hsyn, bind_Ok.
      cbv zeta. cbn [conv_fuse swin_ca_fuse]. by rewrite Hconv, Hswin.
  - intros self Hinit.
    apply init_inv in Hinit as (_&_&_&_&_& Hc & Hs &_&_&_&_&_&_&_&_& Hf).
    assert (Hsel : conv_fuse self = true ∧ is_Some (front_back_conv self) ∨
              conv_fuse self = false ∧ swin_ca_fuse self = true
                ∧ is_Some (swin_cross_attention self)).
    { destruct (Hf Hlora) as [[Hconv Hl]|(Hconv & Hswin & Hca)].
      - left. rewrite Hc, Hl. eauto.
      - right. rewrite Hc, Hs. eauto. }
    split; [done|].
    intros front back s. unfold fuse. rewrite bind_lift.
    destruct (unpack5 (shape front)) as [[[[[bs np] ch] h] w]|e]; [|done].
    destruct Hsel as [[Hconv _]|(Hconv & Hswin & _)].
    + rewrite Hconv.
      repeat (rewrite bind_lift;
              match goal with |- context [match ?r with Ok _ => _ | Raise _ => _ end] =>
                destruct r; [|done] end).
      rewrite bind_run. destruct (outcome (run_layers _ _ _)); [|done].
      unfold outcome at 1. simpl. rewrite bind_lift.
      match goal with |- context [match ?r with Ok _ => _ | Raise _ => _ end] =>
        destruct r; done end.
    + rewrite Hconv, Hswin.
      repeat (rewrite bind_lift;
              match goal with |- context [match ?r with Ok _ => _ | Raise _ => _ end] =>
                destruct r; [|done] end).
      rewrite bind_call.
      match goal with |- context [match ?r with Ok _ => _ | Raise _ => _ end] =>
        destruct r; [|done] end.
      unfold outcome at 1. simpl.
      repeat (rewrite bind_lift;
              match goal with |- context [match ?r with Ok _ => _ | Raise _ => _ end] =>
                destruct r; [|done] end).
      done.
Qed.

(** ** The size of the planes *)

Lemma forward_transformer_ok self image_feats camera_embeddings s N L L' D E :
  interfaces self → shape (value (pos_embed self)) = [1; L; D] →
  shape image_feats = [N; L'; encoder_feat_dim self] →
  shape camera_embeddings = [N; E] →
  ∃ tokens, outcome (forward_transformer self image_feats camera_embeddings s) = Ok tokens ∧
            shape tokens = [N; L; D].
Proof.
  intros (_ & _ & Htr) Hpos Hf He. unfold forward_transformer.
  rewrite (size_0 _ _ _ Hf), outcome_bind_lift_Ok.
  rewrite (size_0 _ _ _ He), outcome_bind_lift_Ok.
  rewrite bool_decide_eq_true_2 by done. simpl py_assert. rewrite !outcome_bind_lift_Ok.
  destruct (repeat_batch _ N _ _ Hpos) as (x & -> & Hx).
  rewrite outcome_bind_lift_Ok, outcome_call.
  by eapply Htr.
Qed.

(** An empty batch does not get through the first [view]. *)
Lemma reshape_upsample_empty_batch (self : ModelLRM A) tokens sh (s : S) :
  shape tokens = 0 :: sh →
  is_ok (outcome (reshape_upsample self tokens s)) = false.
Proof.
  intros Hsh. unfold reshape_upsample.
  rewrite (size_0 _ _ _ Hsh), bind_lift_Ok, bind_lift.
  unfold view, infer_size. simpl.
  by destruct (decide (numel (shape tokens) = 0)).
Qed.

(** C5: for a model that [__init__] returned, collaborators that keep their
    interfaces, an image (N, C, H, W) and a camera (N, R) with N positive,
    [forward_planes] returns planes of size (N, 3, triplane_dim,
    2 * triplane_low_res, 2 * triplane_low_res): all but N is read off the
    arguments of [__init__], and the two final assertions pass. *)
Theorem forward_planes_shape (args : Args.t) (self : ModelLRM A)
    (image camera : Tensor A) (N C H W R : nat) s :
  init args = Ok self → interfaces self →
  0 < N → 0 < Args.triplane_low_res args →
  shape image = [N; C; H; W] → shape camera = [N; R] →
  ∃ planes, outcome (forward_planes self image camera s) = Ok planes ∧
    shape planes = [N; 3; Args.triplane_dim args;
                    2 * Args.triplane_low_res args; 2 * Args.triplane_low_res args].
Proof.
  intros Hinit Hif HN Hlow Himg Hcam.
  apply init_inv in Hinit
    as (_ & _ & Hl & _ & _ & _ & _ & _ & Hpos & _ & Hin & Hout & Hk & Hst & Hp & _).
  pose proof Hif as (Henc & Hemb & _).
  destruct (Henc image s N C H W Himg) as (feats & L' & Hfeats & Hfs).
  unfold forward_planes.
  rewrite (size_0 _ _ _ Himg), outcome_bind_lift_Ok.
  rewrite (outcome_bind_call _ _ _ _ _ Hfeats).
  set (s1 := (encoder_call _ _ _).2).
  rewrite (size_last3 _ _ _ _ Hfs), outcome_bind_lift_Ok.
  rewrite bool_decide_eq_true_2 by done. simpl py_assert. rewrite outcome_bind_lift_Ok.
  destruct (Hemb camera s1 N R Hcam) as (emb & Hemb' & Hes).
  rewrite (outcome_bind_call _ _ _ _ _ Hemb').
  set (s2 := (camera_embedder_call _ _).2).
  rewrite (size_last2 _ _ _ Hes), outcome_bind_lift_Ok.
  rewrite bool_decide_eq_true_2 by done. simpl py_assert. rewrite outcome_bind_lift_Ok.
  unfold decode_planes.
  destruct (forward_transformer_ok self feats emb s2 N _ L' _ _ Hif Hpos Hfs Hes)
    as (tokens & Htok & Hts).
  rewrite (outcome_bind_run _ _ _ _ Htok).
  set (s3 := state_after _).
  rewrite <-Hin in Hts.
  destruct (reshape_upsample_spec self tokens N _ _ s3 Hl eq_refl HN Hlow Hts)
    as (x & out & Hrun & _ & _ & Hos & _).
  rewrite (outcome_bind_run _ _ _ out) by (by rewrite Hrun).
  rewrite (size_0 _ _ _ Hos), outcome_bind_lift_Ok.
  rewrite bool_decide_eq_true_2 by done. simpl py_assert. rewrite outcome_bind_lift_Ok.
  rewrite (size_1 _ _ _ _ Hos), outcome_bind_lift_Ok.
  rewrite bool_decide_eq_true_2 by done. simpl py_assert. rewrite outcome_bind_lift_Ok.
  exists out. split; [done|].
  by rewrite Hos, Hout, upsampler_doubles.
Qed.

(** ** The size of the fused planes *)

Lemma layer_step {Y} (l : Layer A) x y (f : Tensor A → Run A S Y) (s : S) :
  layer_forward l x = Ok y →
  outcome ((call (CallFrontBackConv x) (λ s, (layer_forward l x, s)) ≫= f) s)
    = outcome (f y s).
Proof. intros Hl. by rewrite (outcome_bind_call _ _ _ _ y). Qed.

(** The stack of [front_back_conv] takes (B, 2 D, hr, hr) to (B, D, hr, hr). *)
Lemma run_front_back_conv x B D hr (s : S) :
  shape x = [B; D * 2; hr; hr] →
  ∃ y, outcome (run_layers (new_front_back_conv D hr) x s) = Ok y ∧
       shape y = [B; D; hr; hr].
Proof.
  intros Hx. unfold new_front_back_conv. cbn [run_layers].
  match goal with |- context [layer_forward (LConv2d ?l) x] =>
    destruct (conv2d_shape l x _ _ _ Hx eq_refl eq_refl eq_refl) as (y1 & Hy1 & Hs1) end.
  rewrite (layer_step _ _ y1) by exact Hy1. cbn [cv_out] in Hs1.
  match goal with |- context [layer_forward (LLayerNorm ?l) y1] =>
    destruct (layer_norm_shape l y1 _ _ _ _ Hs1 eq_refl) as (y2 & Hy2 & Hs2) end.
  rewrite (layer_step _ _ y2) by exact Hy2.
  rewrite (layer_step _ _ (gelu gelu_fn y2)) by done.
  assert (Hg2 : shape (gelu gelu_fn y2) = [B; D * 4; hr; hr]) by exact Hs2.
  match goal with |- context [layer_forward (LConv2d ?l) (gelu gelu_fn y2)] =>
    destruct (conv2d_shape l _ _ _ _ Hg2 eq_refl eq_refl eq_refl) as (y3 & Hy3 & Hs3) end.
  rewrite (layer_step _ _ y3) by exact Hy3. cbn [cv_out] in Hs3.
  match goal with |- context [layer_forward (LLayerNorm ?l) y3] =>
    destruct (layer_norm_shape l y3 _ _ _ _ Hs3 eq_refl) as (y4 & Hy4 & Hs4) end.
  rewrite (layer_step _ _ y4) by exact Hy4.
  rewrite (layer_step _ _ (gelu gelu_fn y4)) by done.
  assert (Hg4 : shape (gelu gelu_fn y4) = [B; D * 4; hr; hr]) by exact Hs4.
  match goal with |- context [layer_forward (LConv2d ?l) (gelu gelu_fn y4)] =>
    destruct (conv2d_shape l _ _ _ _ Hg4 eq_refl eq_refl eq_refl) as (y5 & Hy5 & Hs5) end.
  rewrite (layer_step _ _ y5) by exact Hy5. cbn [cv_out] in Hs5.
  exists y5. done.
Qed.


End InitFacts.

(** ** The small instance *)

Section SmallFacts.
Import Small.

Lemma small_interfaces (self : ModelLRM Z) :
  encoder_feat_dim self = 3 → camera_embed_dim self = 2 →
  interfaces (S := nat) self.
Proof.
  intros Hf Hc. split; [|split].
  - intros image s N C H W Hsh. simpl. rewrite Hsh, Hf. by eexists _, 2.
  - intros camera s N R Hsh. simpl. rewrite Hsh, Hc. by eexists.
  - intros x cond mod_ s N L D L' E Hx _ _. simpl. rewrite Hx. by eexists.
Qed.

Lemma small_cross_attention : cross_attention_interface (A := Z) (S := nat).
Proof.
  intros layer front back h w s B L Ch Hf _. simpl. rewrite Hf. by eexists _, [].
Qed.

Lemma counting_frozen :
  @frozen_parameters Z nat Cases.counting Cases.inference.
Proof.
  split; [|split].
  - intros cls x s. simpl. by destruct (shape x).
  - intros x s. simpl. by destruct (shape x).
  - done.
Qed.

Lemma small_init_0 : init (S := nat) (args 0 false false) = Ok (model (args 0 false false)).
Proof. vm_compute. reflexivity. Qed.

Lemma small_init_conv : init (S := nat) (args 1 true false) = Ok (model (args 1 true false)).
Proof. vm_compute. reflexivity. Qed.

Lemma small_init_swin : init (S := nat) (args 1 false true) = Ok (model (args 1 false true)).
Proof. vm_compute. reflexivity. Qed.


(** C2 as stated fails: with the default [model_lora_rank] of 0 and neither
    strategy selected, [__init__] returns a model, and a call with a back
    image runs both plane generators and then finds [planes] unassigned. *)
Lemma init_without_lora_accepts_no_fusion :
  Args.conv_fuse (args 0 false false) = false ∧
  Args.swin_ca_fuse (args 0 false false) = false ∧
  init (S := nat) (args 0 false false) = Ok (model (args 0 false false)) ∧
  outcome (forward (S := nat) (model (args 0 false false)) image source_camera
             render_cameras render_anchors render_resolutions render_bg_colors 8
             (Some image_back) 0)
    = Raise (UnboundLocalError "planes").
Proof. repeat split; vm_compute; reflexivity. Qed.

Lemma init_requires_fusion_with_lora_witness :
  init (S := nat) (args 1 false false) = Raise no_fusion_method ∧
  ∀ front_planes back_planes s,
    outcome (fuse (S := nat) (model (args 1 true false)) front_planes back_planes s)
      ≠ Ok None.
Proof.
  split.
  - destruct (init_requires_fusion_with_lora (S := nat) (args 1 false false)) as [H1 _];
      [reflexivity|].
    destruct (H1 eq_refl eq_refl) as [_ H].
    apply (H DinoWrapper [a_param false] [a_param true] [a_param true; a_param true]
             [a_param true]); (reflexivity || discriminate).
  - destruct (init_requires_fusion_with_lora (S := nat) (args 1 true false)) as [_ H2];
      [reflexivity|].
    apply H2. vm_compute. reflexivity.
Defined.

Lemma reshape_upsample_planes_witness :
  ∃ x out,
    reshape_upsample (S := nat) (model (args 0 false false)) (iota [2; 3; 2] 0) 0
      = (Ok out, 0, [CallUpsampler x]) ∧
    shape x = [6; 2; 1; 1] ∧ shape out = [2; 3; 1; 2; 2] ∧
    sample [2; 1; 1] x (2 * 2 + 1) = token_grid 2 1 (iota [2; 3; 2] 0) 1 2.
Proof.
  destruct (reshape_upsample_planes (S := nat) (model (args 0 false false))
              (iota [2; 3; 2] 0) 2 1 (fwd (upsampler (model (args 0 false false)))) 0)
    as (x & out & Hrun & Hx & Hgrid & Hout & _);
    [reflexivity|reflexivity|lia|lia|reflexivity|].
  exists x, out. split; [exact Hrun|]. split; [exact Hx|]. split; [exact Hout|].
  apply (Hgrid 1 2); lia.
Defined.

(** C4, for four images and three cameras. *)
Lemma forward_batch_mismatch_witness :
  ∃ msg,
    forward (S := nat) (model (args 0 false false)) (iota [4; 1; 1; 1] 0) (iota [3; 16] 0)
      render_cameras render_anchors render_resolutions render_bg_colors 8 None 0
    = (Raise (AssertionError msg), 0, []).
Proof.
  apply (forward_batch_mismatch (S := nat) _ _ _ _ _ _ _ _ _ _ 4 3 2 2 2);
    [reflexivity..|left; lia].
Defined.

Lemma forward_planes_shape_witness :
  ∃ planes,
    outcome (forward_planes (S := nat) (model (args 0 false false)) image source_camera 0)
      = Ok planes ∧
    shape planes = [2; 3; 1; 2; 2].
Proof.
  apply (forward_planes_shape (args 0 false false) _ image source_camera 2 1 1 1 16 0).
  - exact small_init_0.
  - apply small_interfaces; reflexivity.
  - lia.
  - simpl. lia.
  - reflexivity.
  - reflexivity.
Defined.


(** The same through the facade: [__init__] accepts a high resolution of 4
    over a low resolution of 1, the planes come out with 2 rows and columns,
    and the call with a back image stops at the layer normalisation. *)
Lemma conv_fusion_needs_twice_the_low_resolution :
  is_ok (init (S := nat) (custom 3 2 4 1 true false)) = true ∧
  outcome (forward (S := nat) (model (custom 3 2 4 1 true false)) image source_camera
             render_cameras render_anchors render_resolutions render_bg_colors 8
             (Some image_back) 0)
    = Raise (RuntimeError
               "Given normalized_shape, expected input with matching trailing shape").
Proof. split; vm_compute; reflexivity. Qed.


(** C7: an encoder of feature dimension 3 under a model configured for 5,
    an embedder of dimension 2 under a model configured for 7, and both under
    a model configured for 3 and 2. *)
Lemma forward_planes_dimension_checks_witness :
  forward_planes (S := nat) (model (custom 5 2 2 0 false false))
      image source_camera 0
    = (Raise (AssertionError "Feature dimension mismatch: 3 vs 5"), 0,
       [CallEncoder image]) ∧
  forward_planes (S := nat) (model (custom 3 7 2 0 false false))
      image source_camera 0
    = (Raise (AssertionError "Feature dimension mismatch: 2 vs 7"), 0,
       [CallEncoder image; CallCameraEmbedder source_camera]) ∧
  calls (forward_planes (S := nat) (model (args 0 false false)) image source_camera 0)
    = [CallEncoder image; CallCameraEmbedder source_camera]
        ++ calls (decode_planes (S := nat) (model (args 0 false false)) 2
                    (encoded image) (embedded source_camera) 0).
Proof.
  split; [|split].
  - destruct (forward_planes_dimension_checks (S := nat)
                (model (custom 5 2 2 0 false false))
                image source_camera 0 0 2 3 (encoded image)) as [H _];
      [reflexivity|reflexivity|reflexivity|].
    apply H. discriminate.
  - destruct (forward_planes_dimension_checks (S := nat)
                (model (custom 3 7 2 0 false false))
                image source_camera 0 0 2 3 (encoded image)) as [_ H];
      [reflexivity|reflexivity|reflexivity|].
    destruct (H eq_refl (embedded source_camera) 0 2) as [H' _];
      [reflexivity|reflexivity|].
    apply H'. discriminate.
  - destruct (forward_planes_dimension_checks (S := nat) (model (args 0 false false))
                image source_camera 0 0 2 3 (encoded image)) as [_ H];
      [reflexivity|reflexivity|reflexivity|].
    destruct (H eq_refl (embedded source_camera) 0 2) as [_ H'];
      [reflexivity|reflexivity|].
    rewrite (H' eq_refl). reflexivity.
Defined.


(** C10, for resolutions of batch size 3 with every other input of batch
    size 2. *)
Lemma forward_resolutions_unchecked_witness :
  validate image source_camera render_cameras render_anchors render_bg_colors = Ok () ∧
  calls (forward (S := nat) (model (args 0 false false)) image source_camera
           render_cameras render_anchors (iota [3; 1; 1] 0) render_bg_colors 8 None 0)
    = calls (dispatch (S := nat) (model (args 0 false false)) image source_camera None 0)
        ++ [CallSynthesizer
              (planes_of (model (args 0 false false)) image source_camera None)
              render_cameras render_anchors (iota [3; 1; 1] 0) render_bg_colors 8].
Proof.
  apply (forward_resolutions_unchecked (S := nat) _ _ _ _ _ _ _ _ _ 0 0 _ _ 2 1 3 [3]);
    [reflexivity|reflexivity|reflexivity|reflexivity|reflexivity|reflexivity|lia|].
  vm_compute. reflexivity.
Defined.

End SmallFacts.

(** * Further properties *)

(** ** The choice of the encoder *)

Lemma lower_ascii_idemp (c : ascii) : lower_ascii (lower_ascii c) = lower_ascii c.
Proof. by destruct c as [[] [] [] [] [] [] [] []]. Qed.

Lemma lower_idemp (s : string) : lower (lower s) = lower s.
Proof. induction s as [|c s IH]; simpl; [done|]. by rewrite lower_ascii_idemp, IH. Qed.

(** X1: [_encoder_fn] decides on the lower-cased name: it returns
    [DinoWrapper] exactly for the names that lower-case to 'dino',
    [Dinov2Wrapper] exactly for those that lower-case to 'dinov2', and raises
    the assertion error "Unsupported encoder type" for every other name, so
    that it never falls off its end and returns [None]; a name and its
    lower-case spelling give the same result. *)
Theorem encoder_fn_cases (encoder_type : string) :
  ((lower encoder_type = "dino" ∧ _encoder_fn encoder_type = Ok (Some DinoWrapper)) ∨
   (lower encoder_type = "dinov2" ∧ _encoder_fn encoder_type = Ok (Some Dinov2Wrapper)) ∨
   (lower encoder_type ≠ "dino" ∧ lower encoder_type ≠ "dinov2" ∧
    _encoder_fn encoder_type = Raise (AssertionError "Unsupported encoder type"))) ∧
  _encoder_fn (lower encoder_type) = _encoder_fn encoder_type.
Proof.
  split.
  - unfold _encoder_fn. cbv zeta.
    destruct (decide (lower encoder_type = "dino")) as [Hd|Hd].
    + left. split; [done|]. rewrite Hd. done.
    + destruct (decide (lower encoder_type = "dinov2")) as [Hv|Hv].
      * right; left. split; [done|]. rewrite Hv. done.
      * right; right. split; [done|]. split; [done|].
        rewrite bool_decide_eq_false_2; [done|].
        rewrite !elem_of_cons, elem_of_nil. tauto.
  - unfold _encoder_fn. cbv zeta. by rewrite lower_idemp.
Qed.

Section InitMore.
Context {A S : Type} `{!Inhabited A} `{!Weights A} `{!Collaborators A S}.

(** X2: [__init__] with an encoder type that lower-cases to neither
    'dino' nor 'dinov2' raises the assertion error
    "Unsupported encoder type", whatever the other arguments are and
    whatever the constructors of the submodules would do. *)
Theorem init_unsupported_encoder (args : Args.t) :
  lower (Args.encoder_type args) ≠ "dino" →
  lower (Args.encoder_type args) ≠ "dinov2" →
  init args = Raise (AssertionError "Unsupported encoder type").
Proof.
  intros Hd Hv. unfold init, _encoder_fn. cbv zeta.
  rewrite bool_decide_eq_false_2; [done|].
  rewrite !elem_of_cons, elem_of_nil. tauto.
Qed.

End InitMore.

(** ** Freezing *)

Section FreezeFacts.
Context {A : Type} `{!Inhabited A}.
Implicit Types ps : list (Param A).
Implicit Types self : ModelLRM A.

Lemma frozen_fmap_idemp ps : frozen <$> (frozen <$> ps) = frozen <$> ps.
Proof. rewrite <-list_fmap_compose. by apply list_fmap_ext. Qed.

Lemma freeze_if_orb {F} (b1 b2 : bool) (m : NNModule A F) :
  freeze_if b2 (freeze_if b1 m) = freeze_if (b1 || b2) m.
Proof.
  destruct b1, b2; unfold freeze_if, with_params; simpl; try done.
  by rewrite frozen_fmap_idemp.
Qed.

Lemma all_frozen_fmap ps : all_frozen (frozen <$> ps).
Proof. unfold all_frozen. apply Forall_fmap, Forall_true. done. Qed.

Lemma kept_or_frozen_refl ps : kept_or_frozen ps ps.
Proof. unfold kept_or_frozen. apply Forall2_same_length_lookup_2; [done|].
  intros i p p' Hp Hp'. rewrite Hp in Hp'. by injection Hp' as <-. Qed.

Lemma kept_or_frozen_fmap ps : kept_or_frozen ps (frozen <$> ps).
Proof.
  unfold kept_or_frozen. apply Forall2_fmap_r, Forall2_same_length_lookup_2; [done|].
  intros i p p' Hp Hp'. rewrite Hp in Hp'. injection Hp' as <-. done.
Qed.

Lemma kept_or_frozen_freeze_if {F} b (m : NNModule A F) :
  kept_or_frozen (params m) (params (freeze_if b m)).
Proof. destruct b; [apply kept_or_frozen_fmap|apply kept_or_frozen_refl]. Qed.

(** What [freeze_modules] leaves when it does not look at [pos_embed]. *)
Lemma freeze_modules_run e c t u y self :
  freeze_modules e c false t u y self =
    (Ok (),
     {| encoder_feat_dim := encoder_feat_dim self; camera_embed_dim := camera_embed_dim self;
        triplane_low_res := triplane_low_res self;
        triplane_high_res := triplane_high_res self;
        triplane_dim := triplane_dim self; conv_fuse := conv_fuse self;
        swin_ca_fuse := swin_ca_fuse self;
        encoder := freeze_if e (encoder self);
        camera_embedder := freeze_if c (camera_embedder self);
        pos_embed := pos_embed self;
        transformer := freeze_if t (transformer self);
        upsampler := freeze_if u (upsampler self);
        synthesizer := freeze_if y (synthesizer self);
        front_back_conv := front_back_conv self;
        swin_cross_attention := swin_cross_attention self |}).
Proof. destruct self. by destruct e, c, t, u, y. Qed.

(** What it leaves when it does: the exception comes after the encoder and
    the camera embedder. *)
Lemma freeze_modules_raise e c t u y self :
  freeze_modules e c true t u y self =
    (Raise no_parameters_attribute,
     {| encoder_feat_dim := encoder_feat_dim self; camera_embed_dim := camera_embed_dim self;
        triplane_low_res := triplane_low_res self;
        triplane_high_res := triplane_high_res self;
        triplane_dim := triplane_dim self; conv_fuse := conv_fuse self;
        swin_ca_fuse := swin_ca_fuse self;
        encoder := freeze_if e (encoder self);
        camera_embedder := freeze_if c (camera_embedder self);
        pos_embed := pos_embed self;
        transformer := transformer self;
        upsampler := upsampler self;
        synthesizer := synthesizer self;
        front_back_conv := front_back_conv self;
        swin_cross_attention := swin_cross_attention self |}).
Proof. destruct self. by destruct e, c. Qed.

(** X3: two calls of [freeze_modules] that leave [pos_embed] alone
    leave the model as one call with the flags of both does, and a second
    call with the same flags changes nothing. *)
Theorem freeze_modules_compose e1 c1 t1 u1 y1 e2 c2 t2 u2 y2 self :
  (freeze_modules e2 c2 false t2 u2 y2 (freeze_modules e1 c1 false t1 u1 y1 self).2).2
    = (freeze_modules (e1 || e2) (c1 || c2) false (t1 || t2) (u1 || u2) (y1 || y2) self).2 ∧
  (freeze_modules e1 c1 false t1 u1 y1 (freeze_modules e1 c1 false t1 u1 y1 self).2).2
    = (freeze_modules e1 c1 false t1 u1 y1 self).2.
Proof.
  assert (Hc : ∀ e1 c1 t1 u1 y1 e2 c2 t2 u2 y2,
    (freeze_modules e2 c2 false t2 u2 y2 (freeze_modules e1 c1 false t1 u1 y1 self).2).2
    = (freeze_modules (e1 || e2) (c1 || c2) false (t1 || t2) (u1 || u2) (y1 || y2) self).2).
  { clear. intros. rewrite !freeze_modules_run. cbn [snd encoder camera_embedder transformer
      upsampler synthesizer encoder_feat_dim camera_embed_dim triplane_low_res
      triplane_high_res triplane_dim conv_fuse swin_ca_fuse pos_embed front_back_conv
      swin_cross_attention].
    by rewrite !freeze_if_orb. }
  split; [apply Hc|]. rewrite Hc. by rewrite !orb_diag.
Qed.

(** X4: for every combination of flags, also when it raises,
    [freeze_modules] keeps the parameters of the encoder, the camera
    embedder, the transformer, the upsampler and the synthesizer in order
    and with their values, and makes no frozen parameter trainable again. *)
Theorem freeze_modules_never_unfreezes e c p t u y self :
  kept_or_frozen (params (encoder self))
    (params (encoder (freeze_modules e c p t u y self).2)) ∧
  kept_or_frozen (params (camera_embedder self))
    (params (camera_embedder (freeze_modules e c p t u y self).2)) ∧
  kept_or_frozen (params (transformer self))
    (params (transformer (freeze_modules e c p t u y self).2)) ∧
  kept_or_frozen (params (upsampler self))
    (params (upsampler (freeze_modules e c p t u y self).2)) ∧
  kept_or_frozen (params (synthesizer self))
    (params (synthesizer (freeze_modules e c p t u y self).2)).
Proof.
  destruct p.
  - rewrite freeze_modules_raise. simpl.
    repeat split; (apply kept_or_frozen_freeze_if || apply kept_or_frozen_refl).
  - rewrite freeze_modules_run. simpl.
    repeat split; apply kept_or_frozen_freeze_if.
Qed.

(** X5: after [freeze_modules] every parameter of the encoder is
    frozen when [encoder=True] and every parameter of the camera embedder
    when [camera_embedder=True], whatever the other flags, also with
    [pos_embed=True] where the call raises after these two; with
    [pos_embed=False] the same holds of the transformer, of the upsampler
    and of the synthesizer for their flags. *)
Theorem freeze_modules_freezes self :
  (∀ c p t u y, all_frozen (params (encoder (freeze_modules true c p t u y self).2))) ∧
  (∀ e p t u y,
     all_frozen (params (camera_embedder (freeze_modules e true p t u y self).2))) ∧
  (∀ e c u y,
     all_frozen (params (transformer (freeze_modules e c false true u y self).2))) ∧
  (∀ e c t y,
     all_frozen (params (upsampler (freeze_modules e c false t true y self).2))) ∧
  (∀ e c t u,
     all_frozen (params (synthesizer (freeze_modules e c false t u true self).2))).
Proof.
  repeat split; intros; try rewrite freeze_modules_run;
    try (destruct p; [rewrite freeze_modules_raise|rewrite freeze_modules_run]);
    apply all_frozen_fmap.
Qed.

End FreezeFacts.

(** ** What construction leaves *)

Section InitPolicy.
Context {A S : Type} `{!Inhabited A} `{!Weights A} `{!Collaborators A S}.

(** The steps of a construction that returned. *)
Lemma init_steps (args : Args.t) (self : ModelLRM A) :
  init args = Ok self →
  ∃ cls enc cam tr syn,
    _encoder_fn (Args.encoder_type args) = Ok (Some cls) ∧
    new_encoder cls (Args.encoder_model_name args) (Args.encoder_freeze args) = Ok enc ∧
    new_camera_embedder (12 + 4) (Args.camera_embed_dim args) = Ok cam ∧
    new_transformer "cond_mod" (Args.transformer_layers args)
      (Args.transformer_heads args) (Args.transformer_dim args)
      (Args.encoder_feat_dim args) (Args.camera_embed_dim args)
      (if (0 <? Args.model_lora_rank args)%Z then Some (Args.model_lora_rank args) else None)
      = Ok tr ∧
    new_synthesizer (Args.triplane_dim args) (Args.rendering_samples_per_ray args) = Ok syn ∧
    fwd (encoder self) = cls ∧
    params (upsampler self) = upsampler_params ∧
    params (synthesizer self) = syn ∧
    (if (0 <? Args.model_lora_rank args)%Z
     then params (encoder self) = frozen <$> enc ∧
          params (camera_embedder self) = frozen <$> cam ∧
          params (transformer self) = mark_only_lora_as_trainable tr
     else params (encoder self) = enc ∧ params (camera_embedder self) = cam ∧
          params (transformer self) = tr ∧
          front_back_conv self = None ∧ swin_cross_attention self = None).
Proof.
  unfold init. intros Hinit.
  apply bind_Ok_inv in Hinit as (cls0 & Hcls0 & Hinit).
  apply bind_Ok_inv in Hinit as (cls & Hcls & Hinit).
  destruct cls0 as [cls'|]; [|done]. injection Hcls as ->.
  apply bind_Ok_inv in Hinit as (enc & Henc & Hinit).
  apply bind_Ok_inv in Hinit as (cam & Hcam & Hinit).
  apply bind_Ok_inv in Hinit as (pos & Hpos & Hinit).
  apply bind_Ok_inv in Hinit as (tr & Htr & Hinit).
  apply bind_Ok_inv in Hinit as (syn & Hsyn & Hinit).
  cbv zeta in Hinit. cbn [conv_fuse swin_ca_fuse] in Hinit.
  destruct (0 <? Args.model_lora_rank args)%Z.
  - apply bind_Ok_inv in Htr as (tr0 & Htr0 & [= <-]).
    exists cls, enc, cam, tr0, syn.
    destruct (Args.conv_fuse args).
    + injection Hinit as <-. simpl. repeat split; done.
    + destruct (Args.swin_ca_fuse args); [|done].
      apply bind_Ok_inv in Hinit as (ca & _ & Hinit).
      injection Hinit as <-. simpl. repeat split; done.
  - exists cls, enc, cam, tr, syn. injection Hinit as <-. simpl. repeat split; done.
Qed.

(** X6: a model that [__init__] returned for a positive
    [model_lora_rank] has every parameter of the encoder and of the camera
    embedder frozen and the positional embedding trainable; the parameters
    of the upsampler and of the synthesizer are as they were constructed,
    and those of the transformer, built with the rank, are as
    [mark_only_lora_as_trainable] left them. *)
Theorem init_with_lora_trains_no_encoder (args : Args.t) (self : ModelLRM A) :
  init args = Ok self → (0 < Args.model_lora_rank args)%Z →
  all_frozen (params (encoder self)) ∧
  all_frozen (params (camera_embedder self)) ∧
  requires_grad (pos_embed self) = true ∧
  params (upsampler self) = upsampler_params ∧
  (∃ tr, new_transformer "cond_mod" (Args.transformer_layers args)
           (Args.transformer_heads args) (Args.transformer_dim args)
           (Args.encoder_feat_dim args) (Args.camera_embed_dim args)
           (Some (Args.model_lora_rank args)) = Ok tr ∧
         params (transformer self) = mark_only_lora_as_trainable tr) ∧
  (∃ syn, new_synthesizer (Args.triplane_dim args) (Args.rendering_samples_per_ray args)
            = Ok syn ∧
          params (synthesizer self) = syn).
Proof.
  intros Hinit Hlora. apply Z.ltb_lt in Hlora.
  pose proof (init_inv _ _ Hinit) as (_&_&_&_&_&_&_&_&_& Hpos & _).
  destruct (init_steps _ _ Hinit)
    as (cls & enc & cam & tr & syn & _ & _ & _ & Htr & Hsyn & _ & Hup & Hs & Hp).
  rewrite Hlora in Htr, Hp. destruct Hp as (-> & -> & Htp).
  repeat split; try done; try apply all_frozen_fmap; eauto.
Qed.

(** X7: a model that [__init__] returned for a [model_lora_rank]
    of 0 or less has neither [front_back_conv] nor [swin_cross_attention],
    though it stores [conv_fuse] and [swin_ca_fuse] as they were given; its
    encoder, camera embedder and transformer, built without a rank, hold
    their parameters as constructed, [freeze_modules] not having run. *)
Theorem init_without_lora_builds_no_fusion (args : Args.t) (self : ModelLRM A) :
  init args = Ok self → (Args.model_lora_rank args ≤ 0)%Z →
  front_back_conv self = None ∧ swin_cross_attention self = None ∧
  conv_fuse self = Args.conv_fuse args ∧ swin_ca_fuse self = Args.swin_ca_fuse args ∧
  (∃ cls enc, _encoder_fn (Args.encoder_type args) = Ok (Some cls) ∧
     new_encoder cls (Args.encoder_model_name args) (Args.encoder_freeze args) = Ok enc ∧
     params (encoder self) = enc) ∧
  (∃ cam, new_camera_embedder (12 + 4) (Args.camera_embed_dim args) = Ok cam ∧
     params (camera_embedder self) = cam) ∧
  (∃ tr, new_transformer "cond_mod" (Args.transformer_layers args)
           (Args.transformer_heads args) (Args.transformer_dim args)
           (Args.encoder_feat_dim args) (Args.camera_embed_dim args) None = Ok tr ∧
         params (transformer self) = tr).
Proof.
  intros Hinit Hlora. apply Z.ltb_ge in Hlora.
  pose proof (init_inv _ _ Hinit) as (_&_&_&_&_& Hc & Hs & _).
  destruct (init_steps _ _ Hinit)
    as (cls & enc & cam & tr & syn & Hcls & Henc & Hcam & Htr & Hsyn & _ & Hup & Hsy & Hp).
  rewrite Hlora in Htr, Hp. destruct Hp as (-> & -> & -> & -> & ->).
  repeat split; eauto.
Qed.

End InitPolicy.

(** ** The decoder stage *)

Section Decoder.
Context {A S : Type} `{!Inhabited A} `{!Collaborators A S}.
Implicit Types s : S.

Lemma call_run {X} (c : Call A) (g : S → result X * S) s :
  call c g s = ((g s).1, (g s).2, [c]).
Proof. unfold call. by destruct (g s). Qed.

Lemma repeat_batch_get (t : Tensor A) N L D :
  shape t = [1; L; D] →
  ∃ x, repeat_ [N; 1; 1] t = Ok x ∧ shape x = [N; L; D] ∧
    ∀ n l d, n < N → l < L → d < D → get x [n; l; d] = get t [0; l; d].
Proof.
  intros Hsh. unfold repeat_. rewrite Hsh. rewrite decide_True by done.
  eexists. split; [done|]. split.
  { simpl. by rewrite Nat.mul_1_r, !Nat.add_0_r. }
  intros n l d Hn Hl Hd. rewrite get_tabulate by (simpl; bounds).
  simpl. by rewrite !Nat.mod_small by done.
Qed.

(** X8: when the image features and the camera embeddings differ
    in batch size, [forward_transformer] raises the assertion error
    "Batch size mismatch for image_feats and camera_embeddings!" with the
    transformer not called and the state untouched. *)
Theorem forward_transformer_batch_mismatch (self : ModelLRM A)
    (image_feats camera_embeddings : Tensor A) s (a b : nat) :
  size image_feats 0 = Ok a → size camera_embeddings 0 = Ok b → a ≠ b →
  forward_transformer self image_feats camera_embeddings s =
    (Raise (AssertionError "Batch size mismatch for image_feats and camera_embeddings!"),
     s, []).
Proof.
  intros Ha Hb Hne. unfold forward_transformer.
  rewrite Ha, bind_lift_Ok, Hb, bind_lift_Ok, bind_lift.
  by rewrite bool_decide_eq_false_2 by done.
Qed.

(** The run of [forward_transformer] on consistent batch sizes, and the
    size of the queries. *)
Lemma forward_transformer_run (self : ModelLRM A)
    (image_feats camera_embeddings : Tensor A) s (N L D : nat) rest rest' :
  shape (value (pos_embed self)) = [1; L; D] →
  shape image_feats = N :: rest → shape camera_embeddings = N :: rest' →
  ∃ x,
    forward_transformer self image_feats camera_embeddings s =
      ((transformer_call x image_feats camera_embeddings s).1,
       (transformer_call x image_feats camera_embeddings s).2,
       [CallTransformer x image_feats camera_embeddings]) ∧
    shape x = [N; L; D].
Proof.
  intros Hpos Hf He. unfold forward_transformer.
  rewrite (size_0 _ _ _ Hf), bind_lift_Ok, (size_0 _ _ _ He), bind_lift_Ok.
  rewrite bool_decide_eq_true_2 by done. simpl py_assert. rewrite !bind_lift_Ok.
  destruct (repeat_batch _ N _ _ Hpos) as (x & -> & Hx).
  rewrite bind_lift_Ok. exists x. by rewrite call_run.
Qed.

(** X9: on image features and camera embeddings of one batch size
    N, [forward_transformer] calls the transformer exactly once, with the
    features as condition, the embeddings as modulation and queries of size
    (N, L, D) that hold the positional embedding (1, L, D) once per sample;
    its result and state are those of that call. *)
Theorem forward_transformer_broadcasts (self : ModelLRM A)
    (image_feats camera_embeddings : Tensor A) s (N L D : nat) rest rest' :
  shape (value (pos_embed self)) = [1; L; D] →
  shape image_feats = N :: rest → shape camera_embeddings = N :: rest' →
  ∃ x,
    forward_transformer self image_feats camera_embeddings s =
      ((transformer_call x image_feats camera_embeddings s).1,
       (transformer_call x image_feats camera_embeddings s).2,
       [CallTransformer x image_feats camera_embeddings]) ∧
    shape x = [N; L; D] ∧
    ∀ n l d, n < N → l < L → d < D →
      get x [n; l; d] = get (value (pos_embed self)) [0; l; d].
Proof.
  intros Hpos Hf He. unfold forward_transformer.
  rewrite (size_0 _ _ _ Hf), bind_lift_Ok, (size_0 _ _ _ He), bind_lift_Ok.
  rewrite bool_decide_eq_true_2 by done. simpl py_assert. rewrite !bind_lift_Ok.
  destruct (repeat_batch_get _ N _ _ Hpos) as (x & -> & Hx & Hget).
  rewrite bind_lift_Ok. exists x. by rewrite call_run.
Qed.

(** X10: on an empty batch of tokens, and on any tokens when
    [triplane_low_res] is 0, [reshape_upsample] raises a runtime error at
    its first [view], with the upsampler not called and the state
    untouched. *)
Theorem reshape_upsample_rejects_empty (self : ModelLRM A) (tokens : Tensor A)
    (N : nat) sh s :
  shape tokens = N :: sh → N = 0 ∨ triplane_low_res self = 0 →
  ∃ msg, reshape_upsample self tokens s = (Raise (RuntimeError msg), s, []).
Proof.
  intros Hsh Hz. unfold reshape_upsample.
  rewrite (size_0 _ _ _ Hsh), bind_lift_Ok, bind_lift.
  unfold view, infer_size. simpl.
  rewrite decide_True by (destruct Hz as [->| ->]; lia).
  destruct (decide (numel (shape tokens) = 0)); simpl; eauto.
Qed.

End Decoder.

(** ** Mirroring twice *)

Section Involution.
Context {A : Type} `{!Inhabited A}.
Implicit Types t : Tensor A.

Lemma ravel_unravel sh k : k < numel sh → ravel sh (unravel sh k) = k.
Proof.
  revert k. induction sh as [|n sh IH]; intros k Hk; simpl in *.
  - lia.
  - destruct (decide (numel sh = 0)) as [Hz|Hz]; [rewrite Hz in Hk; lia|].
    rewrite IH by (by apply Nat.mod_upper_bound).
    pose proof (Nat.div_mod k (numel sh) Hz). lia.
Qed.

Lemma tensor_ext t1 t2 :
  wf t1 → wf t2 → shape t1 = shape t2 →
  (∀ idx, in_bounds (shape t1) idx → get t1 idx = get t2 idx) → t1 = t2.
Proof.
  destruct t1 as [sh d1], t2 as [sh2 d2]. unfold wf, get. simpl.
  intros H1 H2 <- Hget. f_equal.
  apply list_eq_same_length with (numel sh); [done..|].
  intros i x y Hi Hx Hy.
  specialize (Hget (unravel sh i) (unravel_in_bounds _ _ Hi)).
  rewrite ravel_unravel in Hget by done.
  rewrite (list_lookup_total_correct _ _ _ Hx) in Hget.
  by rewrite (list_lookup_total_correct _ _ _ Hy) in Hget.
Qed.

Lemma mirror_mirror H W p r c :
  r < H → c < W →
  mirror H W p (mirror H W p r c).1 (mirror H W p r c).2 = (r, c).
Proof. intros ??. destruct p as [|[|p]]; simpl; f_equal; lia. Qed.

(** X11: the mirroring that [forward] applies to the back planes
    keeps their size and is its own inverse: applied to its result on a
    triplane (N, 3, D, H, W) it gives the triplane back. *)
Theorem flip_back_planes_involutive (bp : Tensor A) (N D H W : nat) :
  wf bp → shape bp = [N; 3; D; H; W] →
  ∃ bp', flip_back_planes bp = Ok bp' ∧ shape bp' = shape bp ∧
         flip_back_planes bp' = Ok bp.
Proof.
  intros Hwf Hsh.
  destruct (flip_back_planes_get bp N D H W Hsh) as (bp' & Hrun & Hsh' & Hwf' & Hget).
  destruct (flip_back_planes_get bp' N D H W Hsh') as (bp'' & Hrun' & Hsh'' & Hwf'' & Hget').
  exists bp'. split; [done|]. split; [congruence|].
  rewrite Hrun'. f_equal. apply tensor_ext; [done|done|congruence|].
  rewrite Hsh''. intros idx Hidx. unpack_bounds Hidx.
  rewrite Hget' by done.
  destruct (mirror_lt H W i0 i2 i3) as [Hr Hc]; [done..|].
  rewrite Hget by done. by rewrite mirror_mirror.
Qed.

End Involution.

(** ** What the fusion modules are given *)

Section FusionLayout.
Context {A S : Type} `{!Inhabited A} `{!Collaborators A S}.
Implicit Types s : S.

Lemma calls_bind_run {X Y} (m : Run A S X) (f : X → Run A S Y) s :
  calls ((m ≫= f) s) =
    calls (m s) ++ match outcome (m s) with
                   | Ok x => calls (f x (state_after (m s)))
                   | Raise _ => []
                   end.
Proof.
  rewrite bind_run. destruct (outcome (m s)); unfold calls; simpl; [done|].
  by rewrite app_nil_r.
Qed.

(** X12: with the convolutional strategy and planes of size
    (N, P, D, H, W), D, H, W positive, the first layer of [front_back_conv]
    is called on a batch of size (N * P, 2 * D, H, W) whose sample
    [n * P + p] holds plane [p] of sample [n]: its first D channels are those
    of the front plane, its last D channels those of the back plane. *)
Theorem conv_fusion_input_layout (self : ModelLRM A) (front_planes back_planes : Tensor A)
    (N P D H W : nat) (layer : Layer A) (layers : list (Layer A)) s :
  conv_fuse self = true → front_back_conv self = Some (layer :: layers) →
  shape front_planes = [N; P; D; H; W] → shape back_planes = [N; P; D; H; W] →
  0 < D → 0 < H → 0 < W →
  ∃ x rest,
    calls (fuse self front_planes back_planes s) = CallFrontBackConv x :: rest ∧
    shape x = [N * P; D * 2; H; W] ∧
    ∀ n p c h w, n < N → p < P → c < D * 2 → h < H → w < W →
      get x [n * P + p; c; h; w] =
        if decide (c < D) then get front_planes [n; p; c; h; w]
        else get back_planes [n; p; c - D; h; w].
Proof.
  intros Hconv Hlayers Hf Hb HD HH HW. unfold fuse.
  rewrite Hf. unfold unpack5. rewrite bind_lift_Ok. cbv beta iota. rewrite Hconv.
  unfold cat. rewrite Hf, Hb. rewrite decide_True by (simpl; auto with lia).
  rewrite bind_lift_Ok. set (both := tabulate _ _). unfold reshape.
  rewrite (view_one_hole _ _ (N * P)); [|done|simpl; nia|simpl; lia].
  rewrite bind_lift_Ok, Hlayers. simpl attribute. rewrite bind_lift_Ok.
  set (x := mkTensor _ (data both)).
  assert (∃ rest, calls ((run_layers (layer :: layers) x ≫= λ planes,
                    lift (view [Some N; Some P; None; Some H; Some W] planes) ≫= λ planes,
                    mret (Some planes)) s) = CallFrontBackConv x :: rest) as [rest Hrest].
  { rewrite calls_bind_run. cbn [run_layers]. rewrite bind_call.
    destruct (layer_forward layer x); simpl; eauto. }
  exists x, rest. split; [exact Hrest|]. split; [done|].
  intros n p c h w Hn Hp Hc Hh Hw.
  change (get x [n * P + p; c; h; w])
    with (data both !!! ravel [N * P; D * 2; H; W] [n * P + p; c; h; w]).
  replace (ravel [N * P; D * 2; H; W] [n * P + p; c; h; w])
    with (ravel [N; P; D + D; H; W] [n; p; c; h; w]) by (simpl; lia).
  change (data both !!! _) with (get both [n; p; c; h; w]).
  unfold both. rewrite get_tabulate by (simpl; bounds). simpl.
  by destruct (decide (c < D)).
Qed.

(** X13: with the cross-attention strategy and planes of size
    (N, P, D, H, W), the only call of the fusion is that of the
    cross-attention layer, on token sequences of size (N * P, H * W, D) with
    the height and the width: token [h * W + w] of sequence [n * P + p] holds
    the channels of position (h, w) of plane [p] of sample [n], front and
    back alike; when the layer returns tokens of that size first in its
    tuple, the fused planes have size (N, P, D, H, W) and hold each token
    at the position its inputs came from. *)
Theorem swin_fusion_token_layout (self : ModelLRM A) (front_planes back_planes : Tensor A)
    (N P D H W : nat) (ca : NNModule A CrossAttentionLayer) s :
  conv_fuse self = false → swin_ca_fuse self = true →
  swin_cross_attention self = Some ca →
  shape front_planes = [N; P; D; H; W] → shape back_planes = [N; P; D; H; W] →
  ∃ front_tokens back_tokens,
    calls (fuse self front_planes back_planes s) =
      [CallSwinCrossAttention front_tokens back_tokens H W] ∧
    shape front_tokens = [N * P; H * W; D] ∧ shape back_tokens = [N * P; H * W; D] ∧
    (∀ n p c h w, n < N → p < P → c < D → h < H → w < W →
       get front_tokens [n * P + p; h * W + w; c] = get front_planes [n; p; c; h; w] ∧
       get back_tokens [n * P + p; h * W + w; c] = get back_planes [n; p; c; h; w]) ∧
    (∀ out rest s',
       swin_cross_attention_call (fwd ca) front_tokens back_tokens H W s
         = (Ok (out :: rest), s') →
       shape out = [N * P; H * W; D] →
       ∃ planes,
         fuse self front_planes back_planes s =
           (Ok (Some planes), s', [CallSwinCrossAttention front_tokens back_tokens H W]) ∧
         shape planes = [N; P; D; H; W] ∧
         ∀ n p c h w, n < N → p < P → c < D → h < H → w < W →
           get planes [n; p; c; h; w] = get out [n * P + p; h * W + w; c]).
Proof.
  intros Hconv Hswin Hca Hf Hb. unfold fuse.
  rewrite Hf. unfold unpack5. rewrite bind_lift_Ok. cbv beta iota. rewrite Hconv, Hswin.
  unfold reshape.
  rewrite (view_no_hole _ front_planes); [|done|rewrite Hf; simpl; lia].
  rewrite bind_lift_Ok, permute_ok by done. rewrite bind_lift_Ok.
  rewrite (view_no_hole _ back_planes); [|done|rewrite Hb; simpl; lia].
  rewrite bind_lift_Ok, permute_ok by done. rewrite bind_lift_Ok.
  rewrite Hca. simpl attribute. rewrite bind_lift_Ok.
  set (fv := mkTensor _ (data front_planes)). set (bv := mkTensor _ (data back_planes)).
  set (ft := tabulate _ _). set (bt := tabulate _ _).
  assert (Hin : ∀ n p c h w, n < N → p < P → c < D → h < H → w < W →
            in_bounds [N * P; H * W; D] [n * P + p; h * W + w; c]).
  { intros. unfold in_bounds. repeat (constructor; [nia|]). constructor. }
  exists ft, bt. split; [|split; [done|split; [done|split]]].
  - rewrite bind_call.
    destruct (swin_cross_attention_call _ _ _ _ _ s) as [[[|out rest]|e] s']; simpl; try done.
    unfold calls. simpl. f_equal.
    rewrite bind_lift_Ok.
    repeat (rewrite bind_lift;
            match goal with |- context [match ?r with Ok _ => _ | Raise _ => _ end] =>
              destruct r; [|done] end).
    done.
  - intros n p c h w Hn Hp Hc Hh Hw. split.
    + unfold ft. rewrite get_tabulate by (by apply Hin).
      unfold gather, inv_perm. simpl.
      unfold get. rewrite Hf. f_equal. simpl. lia.
    + unfold bt. rewrite get_tabulate by (by apply Hin).
      unfold gather, inv_perm. simpl.
      unfold get. rewrite Hb. f_equal. simpl. lia.
  - intros out rest s' Hcall Hos.
    rewrite bind_call, Hcall. simpl. rewrite bind_lift_Ok.
    rewrite permute_ok by (by rewrite Hos). rewrite bind_lift_Ok, Hos.
    set (pt := tabulate _ _).
    rewrite view_no_hole; [|done|simpl; lia].
    rewrite bind_lift_Ok. eexists. split; [done|]. split; [done|].
    intros n p c h w Hn Hp Hc Hh Hw.
    match goal with |- get ?pl _ = _ =>
      change (get pl [n; p; c; h; w])
        with (data pt !!! ravel [N; P; D; H; W] [n; p; c; h; w]) end.
    replace (ravel [N; P; D; H; W] [n; p; c; h; w])
      with (ravel [N * P; D; H * W] [n * P + p; c; h * W + w]) by (simpl; lia).
    change (data pt !!! _) with (get pt [n * P + p; c; h * W + w]).
    unfold pt. rewrite get_tabulate.
    2: { unfold in_bounds. simpl. repeat (constructor; [nia|]). constructor. }
    done.
Qed.

End FusionLayout.

(** ** The facade and the renderer *)

Section Facade.
Context {A S : Type} `{!Inhabited A} `{!Collaborators A S}.
Implicit Types s : S.

(** The run of [forward] from the call of the synthesizer on. *)
Lemma forward_from_dispatch (self : ModelLRM A)
    (image source_camera render_cameras render_anchors render_resolutions
       render_bg_colors : Tensor A) (render_region_size : Z)
    (image_back : option (Tensor A)) s s1 tr planes (N M : nat) rest :
  validate image source_camera render_cameras render_anchors render_bg_colors = Ok () →
  shape render_cameras = N :: M :: rest →
  dispatch self image source_camera image_back s = (Ok (Some planes), s1, tr) →
  forward self image source_camera render_cameras render_anchors render_resolutions
    render_bg_colors render_region_size image_back s =
  let call_ := CallSynthesizer planes render_cameras render_anchors render_resolutions
                 render_bg_colors render_region_size in
  let r := synthesizer_call planes render_cameras render_anchors render_resolutions
             render_bg_colors render_region_size s1 in
  (render_results ← r.1;
   images_rgb ← match render_results !! "images_rgb" with
                | Some t => Ok t
                | None => Raise (KeyError "images_rgb")
                end;
   n ← size images_rgb 0;
   py_assert (bool_decide (n = N)) "Batch size mismatch for render_results";;
   m ← size images_rgb 1;
   py_assert (bool_decide (m = M))
     "Number of rendered views should be consistent with render_cameras";;
   Ok (render_results ∪ {[ "planes" := planes ]}),
   r.2, tr ++ [call_]).
Proof.
  intros Hv Hrc Hd. unfold forward. rewrite bind_lift, Hv, bind_lift.
  unfold unpack2. rewrite Hrc. simpl.
  rewrite (bind_run_Ok _ _ _ _ _ _ Hd), bind_lift_Ok, bind_call.
  destruct (synthesizer_call _ _ _ _ _ _ s1) as [[rr|e] s2]; simpl; [|done].
  rewrite bind_lift. destruct (rr !! "images_rgb") as [img|]; simpl; [|done].
  rewrite bind_lift. destruct (size img 0) as [n|]; simpl; [|done].
  rewrite bind_lift. destruct (py_assert _ _) as [|]; simpl; [|done].
  rewrite bind_lift. destruct (size img 1) as [m|]; simpl; [|done].
  rewrite bind_lift. destruct (py_assert _ _) as [|]; done.
Qed.

(** The run of [forward] when the dispatch leaves no planes. *)
Lemma forward_without_planes (self : ModelLRM A)
    (image source_camera render_cameras render_anchors render_resolutions
       render_bg_colors : Tensor A) (render_region_size : Z)
    (image_back : option (Tensor A)) s s1 tr r (N M : nat) rest :
  validate image source_camera render_cameras render_anchors render_bg_colors = Ok () →
  shape render_cameras = N :: M :: rest →
  dispatch self image source_camera image_back s = (r, s1, tr) →
  (∀ planes, r ≠ Ok (Some planes)) →
  forward self image source_camera render_cameras render_anchors render_resolutions
    render_bg_colors render_region_size image_back s =
  (Raise (match r with Raise e => e | Ok _ => UnboundLocalError "planes" end), s1, tr).
Proof.
  intros Hv Hrc Hd Hr. unfold forward. rewrite bind_lift, Hv, bind_lift.
  unfold unpack2. rewrite Hrc. simpl.
  rewrite bind_run, Hd. unfold outcome, state_after, calls. simpl.
  destruct r as [[planes|]|e]; [by destruct (Hr planes)| |done].
  rewrite bind_lift. simpl. by rewrite app_nil_r.
Qed.

(** X14: when the checks on the inputs pass, the planes are
    computed and the synthesizer returns results whose ['images_rgb'] has
    the batch size and the number of views of the render cameras, [forward]
    returns after that single call of the synthesizer, in the state it left;
    the dictionary returned holds every entry of the results, nothing else
    but 'planes', and the planes under 'planes' unless the results have a
    'planes' entry of their own, which wins. *)
Theorem forward_returns_render_results (self : ModelLRM A)
    (image source_camera render_cameras render_anchors render_resolutions
       render_bg_colors : Tensor A) (render_region_size : Z)
    (image_back : option (Tensor A)) s s1 s2 tr planes results img (N M : nat) rest rest' :
  validate image source_camera render_cameras render_anchors render_bg_colors = Ok () →
  shape render_cameras = N :: M :: rest →
  dispatch self image source_camera image_back s = (Ok (Some planes), s1, tr) →
  synthesizer_call planes render_cameras render_anchors render_resolutions
    render_bg_colors render_region_size s1 = (Ok results, s2) →
  results !! "images_rgb" = Some img → shape img = N :: M :: rest' →
  ∃ out,
    forward self image source_camera render_cameras render_anchors render_resolutions
      render_bg_colors render_region_size image_back s
    = (Ok out, s2,
       tr ++ [CallSynthesizer planes render_cameras render_anchors render_resolutions
                render_bg_colors render_region_size]) ∧
    (∀ k v, results !! k = Some v → out !! k = Some v) ∧
    (∀ k, k ≠ "planes" → out !! k = results !! k) ∧
    (results !! "planes" = None → out !! "planes" = Some planes).
Proof.
  intros Hv Hrc Hd Hsyn Himg Hsh.
  exists (results ∪ {[ "planes" := planes ]}). split; [|split; [|split]].
  - rewrite (forward_from_dispatch _ _ _ _ _ _ _ _ _ _ _ _ _ _ _ _ Hv Hrc Hd).
    cbv zeta. rewrite Hsyn. simpl. rewrite Himg. simpl.
    rewrite (size_0 _ _ _ Hsh). simpl. rewrite bool_decide_eq_true_2 by done. simpl.
    rewrite (size_1 _ _ _ _ Hsh). simpl. by rewrite bool_decide_eq_true_2 by done.
  - intros k v Hk. by apply lookup_union_Some_l.
  - intros k Hk. apply lookup_union_l. by apply lookup_singleton_ne.
  - intros Hnone. rewrite lookup_union_r by done. apply lookup_singleton_eq.
Qed.

(** X15: when the planes are computed and the synthesizer returns,
    [forward] ends in the state the synthesizer left, the synthesizer being
    its last call; it raises a key error when the results have no
    ['images_rgb'], the assertion error
    "Batch size mismatch for render_results" when the first size of the
    images is not that of the render cameras, and the assertion error on the
    number of views when the first size agrees and the second does not. *)
Theorem forward_render_checks (self : ModelLRM A)
    (image source_camera render_cameras render_anchors render_resolutions
       render_bg_colors : Tensor A) (render_region_size : Z)
    (image_back : option (Tensor A)) s s1 s2 tr planes results (N M : nat) rest :
  validate image source_camera render_cameras render_anchors render_bg_colors = Ok () →
  shape render_cameras = N :: M :: rest →
  dispatch self image source_camera image_back s = (Ok (Some planes), s1, tr) →
  synthesizer_call planes render_cameras render_anchors render_resolutions
    render_bg_colors render_region_size s1 = (Ok results, s2) →
  let run := forward self image source_camera render_cameras render_anchors
               render_resolutions render_bg_colors render_region_size image_back s in
  state_after run = s2 ∧
  calls run = tr ++ [CallSynthesizer planes render_cameras render_anchors
                       render_resolutions render_bg_colors render_region_size] ∧
  (results !! "images_rgb" = None → outcome run = Raise (KeyError "images_rgb")) ∧
  (∀ img n m, results !! "images_rgb" = Some img →
     size img 0 = Ok n → size img 1 = Ok m →
     (n ≠ N →
        outcome run = Raise (AssertionError "Batch size mismatch for render_results")) ∧
     (n = N → m ≠ M →
        outcome run = Raise (AssertionError
          "Number of rendered views should be consistent with render_cameras"))).
Proof.
  intros Hv Hrc Hd Hsyn run. unfold run.
  rewrite (forward_from_dispatch _ _ _ _ _ _ _ _ _ _ _ _ _ _ _ _ Hv Hrc Hd).
  cbv zeta. rewrite Hsyn. unfold outcome, state_after, calls. simpl.
  split; [done|]. split; [done|]. split.
  - by intros ->.
  - intros img n m -> Hn Hm. simpl. rewrite Hn. simpl. split.
    + intros Hne. by rewrite bool_decide_eq_false_2 by done.
    + intros -> Hne. rewrite bool_decide_eq_true_2 by done. simpl.
      rewrite Hm. simpl. by rewrite bool_decide_eq_false_2 by done.
Qed.

(** X16: when the checks on the batch sizes pass and the render
    cameras have fewer than two axes, [forward] raises a value error at the
    unpacking of [N, M], with no submodule called and the state
    untouched. *)
Theorem forward_needs_two_camera_axes (self : ModelLRM A)
    (image source_camera render_cameras render_anchors render_resolutions
       render_bg_colors : Tensor A) (render_region_size : Z)
    (image_back : option (Tensor A)) s :
  validate image source_camera render_cameras render_anchors render_bg_colors = Ok () →
  length (shape render_cameras) < 2 →
  ∃ msg,
    forward self image source_camera render_cameras render_anchors render_resolutions
      render_bg_colors render_region_size image_back s
    = (Raise (ValueError msg), s, []).
Proof.
  intros Hv Hlen. unfold forward. rewrite bind_lift, Hv, bind_lift.
  unfold unpack2.
  destruct (shape render_cameras) as [|a [|b sh]]; simpl in *; eauto. lia.
Qed.

End Facade.

(** ** Whole runs *)

Section WholeRuns.
Context {A S : Type} `{!Inhabited A} `{!Weights A} `{!Collaborators A S}.
Implicit Types s : S.
Implicit Types x : Tensor A.

Lemma run_eta {X} (r : result X * S * list (Call A)) :
  r = (outcome r, state_after r, calls r).
Proof. by destruct r as [[? ?] ?]. Qed.

Lemma bind_call_run {X Y} (c : Call A) (g : S → result X * S) (f : X → Run A S Y)
    s (v : X) r s' tr :
  (g s).1 = Ok v → f v (g s).2 = (r, s', tr) → (call c g ≫= f) s = (r, s', c :: tr).
Proof. intros Hg Hf. rewrite bind_call, Hg. simpl. by rewrite Hf. Qed.

Lemma validate_ok (image source_camera render_cameras render_anchors
    render_bg_colors : Tensor A) N :
  size image 0 = Ok N → size source_camera 0 = Ok N → size render_cameras 0 = Ok N →
  size render_anchors 0 = Ok N → size render_bg_colors 0 = Ok N →
  validate image source_camera render_cameras render_anchors render_bg_colors = Ok ().
Proof.
  intros Hi Hc Hrc Ha Hb. unfold validate. rewrite Hi, Hc, Hrc, Ha, Hb. rewrite !bind_Ok.
  by rewrite !bool_decide_eq_true_2 by done.
Qed.

Lemma decode_planes_run (args : Args.t) (self : ModelLRM A)
    (image_feats camera_embeddings : Tensor A) (N L' E : nat) s :
  init args = Ok self → interfaces self →
  0 < N → 0 < Args.triplane_low_res args →
  shape image_feats = [N; L'; encoder_feat_dim self] →
  shape camera_embeddings = [N; E] →
  ∃ x u planes s',
    decode_planes self N image_feats camera_embeddings s =
      (Ok planes, s', [CallTransformer x image_feats camera_embeddings; CallUpsampler u]) ∧
    shape planes = [N; 3; Args.triplane_dim args;
                    2 * Args.triplane_low_res args; 2 * Args.triplane_low_res args].
Proof.
  intros Hinit Hif HN Hlow Hfs Hes.
  apply init_inv in Hinit
    as (_ & _ & Hl & _ & _ & _ & _ & _ & Hpos & _ & Hin & Hout & Hk & Hst & Hp & _).
  destruct (forward_transformer_run self image_feats camera_embeddings s N _ _ _ _
              Hpos Hfs Hes) as (x & Hrun & Hx).
  pose proof Hif as (_ & _ & Htr).
  destruct (Htr x image_feats camera_embeddings s N _ _ L' E Hx Hfs Hes)
    as (tokens & Htok & Hts).
  rewrite Htok in Hrun. set (s1 := (transformer_call _ _ _ s).2) in Hrun.
  rewrite <-Hin in Hts.
  destruct (reshape_upsample_spec self tokens N _ _ s1 Hl eq_refl HN Hlow Hts)
    as (u & out & Hup & _ & _ & Hos & _).
  exists x, u, out, s1. split.
  - unfold decode_planes.
    rewrite (bind_run_Ok _ _ _ _ _ _ Hrun), (bind_run_Ok _ _ _ _ _ _ Hup).
    rewrite (size_0 _ _ _ Hos), bind_lift_Ok.
    rewrite bool_decide_eq_true_2 by done. simpl py_assert. rewrite bind_lift_Ok.
    rewrite (size_1 _ _ _ _ Hos), bind_lift_Ok.
    rewrite bool_decide_eq_true_2 by done. simpl py_assert. rewrite bind_lift_Ok.
    done.
  - by rewrite Hos, Hout, upsampler_doubles.
Qed.

(** The run of the plane generator on inputs of the documented sizes. *)
Lemma forward_planes_run (args : Args.t) (self : ModelLRM A)
    (image camera : Tensor A) (N C H W R : nat) s :
  init args = Ok self → interfaces self →
  0 < N → 0 < Args.triplane_low_res args →
  shape image = [N; C; H; W] → shape camera = [N; R] →
  ∃ feats emb x u planes s',
    forward_planes self image camera s =
      (Ok planes, s',
       [CallEncoder image; CallCameraEmbedder camera; CallTransformer x feats emb;
        CallUpsampler u]) ∧
    shape planes = [N; 3; Args.triplane_dim args;
                    2 * Args.triplane_low_res args; 2 * Args.triplane_low_res args].
Proof.
  intros Hinit Hif HN Hlow Himg Hcam.
  pose proof Hif as (Henc & Hemb & _).
  destruct (Henc image s N C H W Himg) as (feats & L' & Hfeats & Hfs).
  set (s1 := (encoder_call (fwd (encoder self)) image s).2).
  destruct (Hemb camera s1 N R Hcam) as (emb & Hemb' & Hes).
  set (s2 := (camera_embedder_call camera s1).2).
  destruct (decode_planes_run args self feats emb N L' _ s2 Hinit Hif HN Hlow Hfs Hes)
    as (x & u & planes & s' & Hdec & Hps).
  exists feats, emb, x, u, planes, s'. split; [|done].
  unfold forward_planes. rewrite (size_0 _ _ _ Himg), bind_lift_Ok.
  apply bind_call_run with (v := feats); [exact Hfeats|].
  rewrite (size_last3 _ _ _ _ Hfs), bind_lift_Ok.
  rewrite bool_decide_eq_true_2 by done. simpl py_assert. rewrite bind_lift_Ok.
  apply bind_call_run with (v := emb); [exact Hemb'|].
  rewrite (size_last2 _ _ _ Hes), bind_lift_Ok.
  rewrite bool_decide_eq_true_2 by done. simpl py_assert. rewrite bind_lift_Ok.
  exact Hdec.
Qed.

(** X17: without a back image, for a model that [__init__]
    returned, collaborators that keep their interfaces and inputs of the
    documented sizes with a positive batch size, [forward] returns; it calls
    the encoder, the camera embedder, the transformer, the upsampler and the
    synthesizer, each once and in this order, the synthesizer on planes of
    size (N, 3, triplane_dim, 2 * triplane_low_res, 2 * triplane_low_res);
    the result holds ['images_rgb'] of size (N, M, ...) and a 'planes'
    entry. *)
Theorem forward_single_view (args : Args.t) (self : ModelLRM A)
    (image source_camera render_cameras render_anchors render_resolutions
       render_bg_colors : Tensor A) (render_region_size : Z)
    (N M C H W R : nat) rest s :
  init args = Ok self → interfaces self → synthesizer_interface →
  0 < N → 0 < Args.triplane_low_res args →
  shape image = [N; C; H; W] → shape source_camera = [N; R] →
  shape render_cameras = N :: M :: rest →
  size render_anchors 0 = Ok N → size render_bg_colors 0 = Ok N →
  ∃ out planes img rest' feats emb x u,
    outcome (forward self image source_camera render_cameras render_anchors
               render_resolutions render_bg_colors render_region_size None s) = Ok out ∧
    calls (forward self image source_camera render_cameras render_anchors
             render_resolutions render_bg_colors render_region_size None s) =
      [CallEncoder image; CallCameraEmbedder source_camera; CallTransformer x feats emb;
       CallUpsampler u;
       CallSynthesizer planes render_cameras render_anchors render_resolutions
         render_bg_colors render_region_size] ∧
    shape planes = [N; 3; Args.triplane_dim args;
                    2 * Args.triplane_low_res args; 2 * Args.triplane_low_res args] ∧
    out !! "images_rgb" = Some img ∧ shape img = N :: M :: rest' ∧
    is_Some (out !! "planes").
Proof.
  intros Hinit Hif Hsyn HN Hlow Himg Hcam Hrc Ha Hb.
  destruct (forward_planes_run args self image source_camera N C H W R s
              Hinit Hif HN Hlow Himg Hcam)
    as (feats & emb & x & u & planes & s1 & Hfp & Hps).
  assert (Hd : dispatch self image source_camera None s =
            (Ok (Some planes), s1,
             [CallEncoder image; CallCameraEmbedder source_camera;
              CallTransformer x feats emb; CallUpsampler u])).
  { unfold dispatch. rewrite (bind_run_Ok _ _ _ _ _ _ Hfp). done. }
  assert (Hv : validate image source_camera render_cameras render_anchors
                 render_bg_colors = Ok ()).
  { apply validate_ok with N; [by eapply size_0..|done|done]. }
  destruct (Hsyn planes render_cameras render_anchors render_resolutions render_bg_colors
              render_region_size s1 N M rest Hrc) as (results & img & rest' & Hr & Hi & Hs).
  rewrite (forward_from_dispatch _ _ _ _ _ _ _ _ _ _ _ _ _ _ _ _ Hv Hrc Hd).
  cbv zeta. rewrite Hr. unfold outcome, calls. simpl. rewrite Hi. simpl.
  rewrite (size_0 _ _ _ Hs). simpl. rewrite bool_decide_eq_true_2 by done. simpl.
  rewrite (size_1 _ _ _ _ Hs). simpl. rewrite bool_decide_eq_true_2 by done. simpl.
  exists (results ∪ {[ "planes" := planes ]}), planes, img, rest', feats, emb, x, u.
  split; [done|]. split; [done|]. split; [done|].
  split; [by apply lookup_union_Some_l|]. split; [done|].
  destruct (results !! "planes") as [p|] eqn:Hp.
  - exists p. by apply lookup_union_Some_l.
  - exists planes. rewrite lookup_union_r by done. apply lookup_singleton_eq.
Qed.

End WholeRuns.

(** ** Which submodules a run calls *)

Section TraceFacts.
Context {A S : Type} `{!Inhabited A} `{!Collaborators A S}.
Implicit Types s : S.
Implicit Types P : Call A → Prop.

Lemma traces_lift {X} P (r : result X) : traces P (lift r : Run A S X).
Proof. intros s. constructor. Qed.

Lemma traces_ret {X} P (v : X) : traces P (mret v : Run A S X).
Proof. intros s. constructor. Qed.

Lemma traces_call {X} P (c : Call A) (g : S → result X * S) : P c → traces P (call c g).
Proof. intros Hc s. rewrite call_run. by repeat constructor. Qed.

Lemma traces_bind {X Y} P (m : Run A S X) (f : X → Run A S Y) :
  traces P m → (∀ v, traces P (f v)) → traces P (m ≫= f).
Proof.
  intros Hm Hf s. rewrite calls_bind_run. apply Forall_app. split; [apply Hm|].
  destruct (outcome (m s)); [apply Hf|constructor].
Qed.

Lemma traces_bind_lift {X Y} P (r : result X) (f : X → Run A S Y) :
  (∀ v, r = Ok v → traces P (f v)) → traces P (lift r ≫= f).
Proof.
  intros Hf s. rewrite bind_lift. destruct r as [v|e]; [by apply Hf|constructor].
Qed.

Lemma traces_forward_planes P (self : ModelLRM A) image camera :
  (∀ c, is_plane_call c = true → P c) → traces P (forward_planes self image camera).
Proof.
  intros HP. unfold forward_planes, decode_planes, forward_transformer, reshape_upsample.
  repeat first
    [ apply traces_ret
    | apply traces_call; by apply HP
    | apply traces_bind; [|intros ?]
    | apply traces_lift ].
Qed.

Lemma traces_run_layers P (layers : list (Layer A)) x :
  (∀ c, is_front_back_conv_call c = true → P c) →
  traces P (run_layers layers x : Run A S (Tensor A)).
Proof.
  intros HP. revert x. induction layers as [|l layers IH]; intros x; simpl.
  - apply traces_ret.
  - apply traces_bind; [apply traces_call; by apply HP|done].
Qed.

(** The fusion calls the modules of its strategy only, and none that
    [__init__] did not build. *)
Lemma traces_fuse P (self : ModelLRM A) front_planes back_planes :
  (∀ c, is_front_back_conv_call c = true →
        conv_fuse self = true → is_Some (front_back_conv self) → P c) →
  (∀ c, is_swin_call c = true →
        conv_fuse self = false → is_Some (swin_cross_attention self) → P c) →
  traces P (fuse self front_planes back_planes).
Proof.
  intros Hconv Hswin. unfold fuse.
  apply traces_bind; [apply traces_lift|intros [[[[bs np] ch] h] w]].
  destruct (conv_fuse self) eqn:Hc.
  - apply traces_bind; [apply traces_lift|intros ?].
    apply traces_bind; [apply traces_lift|intros ?].
    apply traces_bind_lift. intros layers Hl.
    assert (is_Some (front_back_conv self)).
    { destruct (front_back_conv self); [eauto|done]. }
    apply traces_bind; [apply traces_run_layers; auto|intros ?].
    apply traces_bind; [apply traces_lift|intros ?]. apply traces_ret.
  - destruct (swin_ca_fuse self); [|apply traces_ret].
    do 4 (apply traces_bind; [apply traces_lift|intros ?]).
    apply traces_bind_lift. intros ca Hca.
    assert (is_Some (swin_cross_attention self)).
    { destruct (swin_cross_attention self); [eauto|done]. }
    apply traces_bind; [apply traces_call; auto|intros ?].
    do 3 (apply traces_bind; [apply traces_lift|intros ?]). apply traces_ret.
Qed.

Lemma traces_dispatch P (self : ModelLRM A) image source_camera image_back :
  (∀ c, is_plane_call c = true → P c) →
  (∀ c, is_front_back_conv_call c = true →
        conv_fuse self = true → is_Some (front_back_conv self) → P c) →
  (∀ c, is_swin_call c = true →
        conv_fuse self = false → is_Some (swin_cross_attention self) → P c) →
  traces P (dispatch self image source_camera image_back).
Proof.
  intros Hp Hconv Hswin. unfold dispatch. destruct image_back as [image_back|].
  - apply traces_bind; [by apply traces_forward_planes|intros ?].
    apply traces_bind; [by apply traces_forward_planes|intros ?].
    apply traces_bind; [apply traces_lift|intros ?].
    by apply traces_fuse.
  - apply traces_bind; [by apply traces_forward_planes|intros ?]. apply traces_ret.
Qed.

Lemma outcome_bind_run_inv {X Y} (m : Run A S X) (f : X → Run A S Y) s y :
  outcome ((m ≫= f) s) = Ok y →
  ∃ v, outcome (m s) = Ok v ∧ outcome (f v (state_after (m s))) = Ok y.
Proof.
  rewrite bind_run. destruct (outcome (m s)) as [v|e]; [|done]. eauto.
Qed.

Lemma outcome_bind_lift_inv {X Y} (r : result X) (f : X → Run A S Y) s y :
  outcome ((lift r ≫= f) s) = Ok y → ∃ v, r = Ok v ∧ outcome (f v s) = Ok y.
Proof. rewrite bind_lift. destruct r as [v|e]; [|done]. eauto. Qed.

(** Without the module of its strategy the fusion assigns no planes. *)
Lemma fuse_without_modules (self : ModelLRM A) front_planes back_planes s planes :
  front_back_conv self = None → swin_cross_attention self = None →
  outcome (fuse self front_planes back_planes s) ≠ Ok (Some planes).
Proof.
  intros Hconv Hswin Hrun. unfold fuse in Hrun.
  apply outcome_bind_lift_inv in Hrun as ([[[[bs np] ch] h] w] & _ & Hrun).
  destruct (conv_fuse self).
  - apply outcome_bind_lift_inv in Hrun as (? & _ & Hrun).
    apply outcome_bind_lift_inv in Hrun as (? & _ & Hrun).
    apply outcome_bind_lift_inv in Hrun as (? & Hattr & _).
    by rewrite Hconv in Hattr.
  - destruct (swin_ca_fuse self); [|done].
    do 4 apply outcome_bind_lift_inv in Hrun as (? & _ & Hrun).
    apply outcome_bind_lift_inv in Hrun as (? & Hattr & _).
    by rewrite Hswin in Hattr.
Qed.

End TraceFacts.

Section DualViewPolicy.
Context {A S : Type} `{!Inhabited A} `{!Weights A} `{!Collaborators A S}.
Implicit Types s : S.

(** X18: on a model that [__init__] returned for a
    [model_lora_rank] of 0 or less, [forward] with a back image raises for
    all inputs and collaborators, and calls no submodule but those of the
    plane generator: neither a fusion module nor the synthesizer. *)
Theorem dual_view_needs_lora (args : Args.t) (self : ModelLRM A)
    (image source_camera render_cameras render_anchors render_resolutions
       render_bg_colors image_back : Tensor A) (render_region_size : Z) s :
  init args = Ok self → (Args.model_lora_rank args ≤ 0)%Z →
  (∃ e, outcome (forward self image source_camera render_cameras render_anchors
                   render_resolutions render_bg_colors render_region_size
                   (Some image_back) s) = Raise e) ∧
  Forall (λ c, is_plane_call c = true)
    (calls (forward self image source_camera render_cameras render_anchors
              render_resolutions render_bg_colors render_region_size
              (Some image_back) s)).
Proof.
  intros Hinit Hlora. apply Z.ltb_ge in Hlora.
  destruct (init_steps _ _ Hinit)
    as (cls & enc & cam & tr & syn & _ & _ & _ & _ & _ & _ & _ & _ & Hp).
  rewrite Hlora in Hp. destruct Hp as (_ & _ & _ & Hconv & Hswin).
  assert (Htr : Forall (λ c, is_plane_call c = true)
                  (calls (dispatch self image source_camera (Some image_back) s))).
  { apply traces_dispatch; [done| |].
    - intros c _ _ [? Hsome]. by rewrite Hconv in Hsome.
    - intros c _ _ [? Hsome]. by rewrite Hswin in Hsome. }
  unfold forward. rewrite bind_lift. destruct (validate _ _ _ _ _) as [[]|e].
  2: { split; [eauto|constructor]. }
  rewrite bind_lift. destruct (unpack2 _) as [[N M]|e].
  2: { split; [eauto|constructor]. }
  rewrite bind_run.
  destruct (outcome (dispatch self image source_camera (Some image_back) s))
    as [[planes|]|e] eqn:Hd.
  - exfalso. revert Hd. unfold dispatch. intros Hd.
    apply outcome_bind_run_inv in Hd as (fp & _ & Hd).
    apply outcome_bind_run_inv in Hd as (bp & _ & Hd).
    apply outcome_bind_lift_inv in Hd as (bp' & _ & Hd).
    by eapply fuse_without_modules.
  - rewrite bind_lift. unfold outcome, calls. simpl. rewrite app_nil_r. eauto.
  - unfold outcome, calls. simpl. eauto.
Qed.

(** X19: when [conv_fuse] is set, with a positive
    [model_lora_rank], [__init__] builds the convolutional stack and no
    cross-attention layer, whatever [swin_ca_fuse] is, and the fusion of the
    model calls nothing but layers of that stack. *)
Theorem conv_fuse_takes_precedence (args : Args.t) (self : ModelLRM A) :
  init args = Ok self → (0 < Args.model_lora_rank args)%Z → Args.conv_fuse args = true →
  front_back_conv self =
    Some (new_front_back_conv (Args.triplane_dim args) (Args.triplane_high_res args)) ∧
  swin_cross_attention self = None ∧
  ∀ front_planes back_planes s,
    Forall (λ c, is_front_back_conv_call c = true)
      (calls (fuse self front_planes back_planes s)).
Proof.
  intros Hinit Hlora Hconv. apply Z.ltb_lt in Hlora.
  assert (Hfb : front_back_conv self =
            Some (new_front_back_conv (Args.triplane_dim args) (Args.triplane_high_res args))
          ∧ swin_cross_attention self = None ∧ conv_fuse self = true).
  { revert Hinit. unfold init. intros Hinit.
    do 7 apply bind_Ok_inv in Hinit as (? & _ & Hinit).
    cbv zeta in Hinit. cbn [conv_fuse swin_ca_fuse] in Hinit.
    rewrite Hlora, Hconv in Hinit. by injection Hinit as <-. }
  destruct Hfb as (Hfb & Hsw & Hc). split; [done|]. split; [done|].
  intros front_planes back_planes s. apply traces_fuse; [done|].
  intros c _ Hc'. congruence.
Qed.

End DualViewPolicy.

(** ** Two views *)

Section TwoViews.
Context {A S : Type} `{!Inhabited A} `{!Weights A} `{!Collaborators A S}.
Implicit Types s : S.

Lemma preserves_run_layers (layers : list (Layer A)) (x : Tensor A) :
  preserves (run_layers layers x : Run A S (Tensor A)).
Proof.
  revert x. induction layers as [|l layers IH]; intros x; simpl.
  - apply preserves_ret.
  - apply preserves_bind; [by apply preserves_call|done].
Qed.

(** A stack that returns has run every layer, the first on the input. *)
Lemma run_layers_calls (layers : list (Layer A)) (x y : Tensor A) s :
  outcome (run_layers layers x s) = Ok y →
  ∃ xs, calls (run_layers layers x s) = CallFrontBackConv <$> xs ∧
        length xs = length layers.
Proof.
  revert x. induction layers as [|l layers IH]; intros x; simpl.
  - intros _. by exists [].
  - intros Hy. apply outcome_bind_run_inv in Hy as (x' & Hx' & Hy).
    rewrite calls_bind_run, Hx'.
    change (state_after (call _ _ s)) with s in *.
    destruct (IH _ Hy) as (xs & -> & Hlen).
    exists (x :: xs). split; [done|]. simpl. by rewrite Hlen.
Qed.

Lemma fuse_conv_run (args : Args.t) (self : ModelLRM A) (front_planes back_planes : Tensor A)
    (N : nat) s :
  init args = Ok self → (0 < Args.model_lora_rank args)%Z → Args.conv_fuse args = true →
  0 < N → 0 < Args.triplane_dim args → 0 < Args.triplane_high_res args →
  shape front_planes = [N; 3; Args.triplane_dim args; Args.triplane_high_res args;
                        Args.triplane_high_res args] →
  shape back_planes = shape front_planes →
  ∃ planes xs,
    fuse self front_planes back_planes s = (Ok (Some planes), s, CallFrontBackConv <$> xs) ∧
    length xs = 7 ∧ shape planes = shape front_planes.
Proof.
  intros Hinit Hlora Hconv HN HD Hhr Hf Hb. rewrite Hf in Hb.
  apply Z.ltb_lt in Hlora.
  apply init_inv in Hinit as (_&_&_&_&_& Hc & Hs &_&_&_&_&_&_&_&_& Hsel).
  destruct (Hsel Hlora) as [[_ Hlayers]|(Hconv' & _)]; [|congruence].
  set (D := Args.triplane_dim args) in *. set (hr := Args.triplane_high_res args) in *.
  unfold fuse. rewrite Hf. unfold unpack5. rewrite bind_lift_Ok. cbv beta iota.
  rewrite Hc, Hconv.
  destruct (cat_planes _ _ _ _ _ _ _ Hf Hb) as (c & -> & Hcs).
  rewrite bind_lift_Ok. unfold reshape.
  rewrite (view_one_hole _ _ (N * 3));
    [|done|simpl; nia|rewrite Hcs; simpl; lia].
  rewrite bind_lift_Ok. rewrite Hlayers. simpl attribute. rewrite bind_lift_Ok.
  match goal with |- context [run_layers _ ?x] =>
    destruct (run_front_back_conv x (N * 3) D hr s eq_refl) as (y & Hy & Hys);
    destruct (run_layers_calls _ _ _ _ Hy) as (xs & Hxs & Hlen);
    pose proof (preserves_run_layers (new_front_back_conv D hr) x s) as Hst;
    pose proof (run_eta (run_layers (new_front_back_conv D hr) x s)) as Hrun
  end.
  rewrite Hy, Hst, Hxs in Hrun.
  rewrite (bind_run_Ok _ _ _ _ _ _ Hrun).
  rewrite (view_one_hole _ _ D); [|done|simpl; nia|rewrite Hys; simpl; lia].
  rewrite bind_lift_Ok. exists (mkTensor [N; 3; D; hr; hr] (data y)), xs.
  split; [|done]. unfold outcome, state_after, calls. simpl. by rewrite app_nil_r.
Qed.

Lemma fuse_swin_run (self : ModelLRM A) (front_planes back_planes : Tensor A)
    (N P D H W : nat) (ca : NNModule A CrossAttentionLayer) s :
  conv_fuse self = false → swin_ca_fuse self = true →
  swin_cross_attention self = Some ca → cross_attention_interface →
  shape front_planes = [N; P; D; H; W] → shape back_planes = [N; P; D; H; W] →
  ∃ planes front_tokens back_tokens s',
    fuse self front_planes back_planes s =
      (Ok (Some planes), s', [CallSwinCrossAttention front_tokens back_tokens H W]) ∧
    shape planes = [N; P; D; H; W].
Proof.
  intros Hconv Hswin Hattr Hca Hf Hb. unfold fuse.
  rewrite Hf. unfold unpack5. rewrite bind_lift_Ok. cbv beta iota. rewrite Hconv, Hswin.
  unfold reshape.
  rewrite (view_no_hole _ front_planes); [|done|rewrite Hf; simpl; lia].
  rewrite bind_lift_Ok, permute_ok by done. rewrite bind_lift_Ok.
  rewrite (view_no_hole _ back_planes); [|done|rewrite Hb; simpl; lia].
  rewrite bind_lift_Ok, permute_ok by done. rewrite bind_lift_Ok.
  rewrite Hattr. simpl attribute. rewrite bind_lift_Ok.
  match goal with |- context [swin_cross_attention_call ?l ?f ?b ?h ?w] =>
    destruct (Hca l f b h w s (N * P) (H * W) D eq_refl eq_refl)
      as (out & rest & Hout & Hos);
    exists (mkTensor [N; P; D; H; W]
              (data (tabulate (gather (shape out) [0; 2; 1])
                       (λ idx, get out (gather idx (inv_perm [0; 2; 1])))))),
           f, b, (swin_cross_attention_call l f b h w s).2
  end.
  split; [|done].
  eapply bind_call_run; [exact Hout|]. cbv beta iota.
  rewrite bind_lift_Ok, permute_ok by (by rewrite Hos).
  rewrite bind_lift_Ok.
  rewrite view_no_hole; [|done|rewrite Hos; simpl; lia].
  by rewrite bind_lift_Ok.
Qed.

(** The end of [forward] when the renderer keeps its interface. *)
Lemma forward_renders (self : ModelLRM A)
    (image source_camera render_cameras render_anchors render_resolutions
       render_bg_colors : Tensor A) (render_region_size : Z)
    (image_back : option (Tensor A)) s s1 tr planes (N M : nat) rest :
  synthesizer_interface →
  validate image source_camera render_cameras render_anchors render_bg_colors = Ok () →
  shape render_cameras = N :: M :: rest →
  dispatch self image source_camera image_back s = (Ok (Some planes), s1, tr) →
  ∃ out img rest',
    outcome (forward self image source_camera render_cameras render_anchors
               render_resolutions render_bg_colors render_region_size image_back s)
      = Ok out ∧
    calls (forward self image source_camera render_cameras render_anchors
             render_resolutions render_bg_colors render_region_size image_back s)
      = tr ++ [CallSynthesizer planes render_cameras render_anchors render_resolutions
                 render_bg_colors render_region_size] ∧
    out !! "images_rgb" = Some img ∧ shape img = N :: M :: rest' ∧
    is_Some (out !! "planes").
Proof.
  intros Hsyn Hv Hrc Hd.
  destruct (Hsyn planes render_cameras render_anchors render_resolutions render_bg_colors
              render_region_size s1 N M rest Hrc) as (results & img & rest' & Hr & Hi & Hs).
  rewrite (forward_from_dispatch _ _ _ _ _ _ _ _ _ _ _ _ _ _ _ _ Hv Hrc Hd).
  cbv zeta. rewrite Hr. unfold outcome, calls. simpl. rewrite Hi. simpl.
  rewrite (size_0 _ _ _ Hs). simpl. rewrite bool_decide_eq_true_2 by done. simpl.
  rewrite (size_1 _ _ _ _ Hs). simpl. rewrite bool_decide_eq_true_2 by done. simpl.
  exists (results ∪ {[ "planes" := planes ]}), img, rest'.
  split; [done|]. split; [done|].
  split; [by apply lookup_union_Some_l|]. split; [done|].
  destruct (results !! "planes") as [p|] eqn:Hp.
  - exists p. by apply lookup_union_Some_l.
  - exists planes. rewrite lookup_union_r by done. apply lookup_singleton_eq.
Qed.

(** X20: with a back image, for a model that [__init__] returned
    for a positive [model_lora_rank], collaborators that keep their
    interfaces and inputs of the documented sizes with a positive batch
    size and a positive [triplane_low_res] (for the convolutional strategy,
    a positive [triplane_dim] and [triplane_high_res] twice
    [triplane_low_res]), [forward] returns. Its
    calls are the four of the plane generator on the front image, the same
    four on the back image with the same source camera, then the seven
    layers of the convolutional stack or the one cross-attention call, then
    the synthesizer, once, on planes of size (N, 3, triplane_dim,
    2 * triplane_low_res, 2 * triplane_low_res). *)
Theorem forward_dual_view (args : Args.t) (self : ModelLRM A)
    (image image_back source_camera render_cameras render_anchors render_resolutions
       render_bg_colors : Tensor A) (render_region_size : Z)
    (N M C H W C' H' W' R : nat) rest s :
  init args = Ok self → (0 < Args.model_lora_rank args)%Z →
  interfaces self → cross_attention_interface → synthesizer_interface →
  0 < N → 0 < Args.triplane_low_res args →
  (Args.conv_fuse args = true →
     0 < Args.triplane_dim args ∧
     Args.triplane_high_res args = 2 * Args.triplane_low_res args) →
  shape image = [N; C; H; W] → shape image_back = [N; C'; H'; W'] →
  shape source_camera = [N; R] → shape render_cameras = N :: M :: rest →
  size render_anchors 0 = Ok N → size render_bg_colors 0 = Ok N →
  ∃ out planes img rest' front_calls back_calls fusion_calls,
    outcome (forward self image source_camera render_cameras render_anchors
               render_resolutions render_bg_colors render_region_size
               (Some image_back) s) = Ok out ∧
    calls (forward self image source_camera render_cameras render_anchors
             render_resolutions render_bg_colors render_region_size
             (Some image_back) s) =
      front_calls ++ back_calls ++ fusion_calls ++
        [CallSynthesizer planes render_cameras render_anchors render_resolutions
           render_bg_colors render_region_size] ∧
    (∃ feats emb x u,
       front_calls = [CallEncoder image; CallCameraEmbedder source_camera;
                      CallTransformer x feats emb; CallUpsampler u]) ∧
    (∃ feats emb x u,
       back_calls = [CallEncoder image_back; CallCameraEmbedder source_camera;
                     CallTransformer x feats emb; CallUpsampler u]) ∧
    (if Args.conv_fuse args
     then ∃ xs, fusion_calls = CallFrontBackConv <$> xs ∧ length xs = 7
     else ∃ front_tokens back_tokens,
            fusion_calls =
              [CallSwinCrossAttention front_tokens back_tokens
                 (2 * Args.triplane_low_res args) (2 * Args.triplane_low_res args)]) ∧
    shape planes = [N; 3; Args.triplane_dim args;
                    2 * Args.triplane_low_res args; 2 * Args.triplane_low_res args] ∧
    out !! "images_rgb" = Some img ∧ shape img = N :: M :: rest' ∧
    is_Some (out !! "planes").
Proof.
  intros Hinit Hlora Hif Hca Hsyn HN Hlow Hsizes Himg Hback Hcam Hrc Ha Hb.
  destruct (forward_planes_run args self image source_camera N C H W R s
              Hinit Hif HN Hlow Himg Hcam)
    as (f1 & e1 & x1 & u1 & fp & s1 & Hfp & Hfs).
  destruct (forward_planes_run args self image_back source_camera N C' H' W' R s1
              Hinit Hif HN Hlow Hback Hcam)
    as (f2 & e2 & x2 & u2 & bp & s2 & Hbp & Hbs).
  destruct (flip_back_planes_get bp _ _ _ _ Hbs) as (bp' & Hflip & Hbs' & _ & _).
  pose proof (dispatch_mirrors_before_fusing self image source_camera image_back
                fp bp s s1 s2 _ _ Hfp Hbp) as Hd.
  rewrite Hflip in Hd.
  assert (Hv : validate image source_camera render_cameras render_anchors
                 render_bg_colors = Ok ()).
  { apply validate_ok with N; [by eapply size_0..|done|done]. }
  assert (Hfuse : ∃ planes s3 fusion_calls,
            fuse self fp bp' s2 = (Ok (Some planes), s3, fusion_calls) ∧
            shape planes = shape fp ∧
            if Args.conv_fuse args
            then ∃ xs, fusion_calls = CallFrontBackConv <$> xs ∧ length xs = 7
            else ∃ front_tokens back_tokens,
                   fusion_calls =
                     [CallSwinCrossAttention front_tokens back_tokens
                        (2 * Args.triplane_low_res args)
                        (2 * Args.triplane_low_res args)]).
  { destruct (Args.conv_fuse args) eqn:Hconv.
    - destruct (Hsizes eq_refl) as [HD Hhr].
      rewrite <-Hhr in Hfs, Hbs'.
      destruct (fuse_conv_run args self fp bp' N s2 Hinit Hlora Hconv HN HD)
        as (planes & xs & Hrun & Hlen & Hps); [lia|done|congruence|].
      exists planes, s2, (CallFrontBackConv <$> xs). eauto.
    - pose proof (init_inv _ _ Hinit) as (_&_&_&_&_& Hc & Hs &_&_&_&_&_&_&_&_& Hsel).
      destruct (Hsel (proj2 (Z.ltb_lt _ _) Hlora)) as [[? _]|(_ & Hswin & [ca Hattr])];
        [congruence|].
      rewrite <-Hc in Hconv. rewrite <-Hs in Hswin.
      destruct (fuse_swin_run self fp bp' _ _ _ _ _ ca s2 Hconv Hswin Hattr Hca Hfs Hbs')
        as (planes & ft & bt & s3 & Hrun & Hps).
      exists planes, s3, [CallSwinCrossAttention ft bt
                            (2 * Args.triplane_low_res args)
                            (2 * Args.triplane_low_res args)].
      split; [done|]. split; [congruence|]. eauto. }
  destruct Hfuse as (planes & s3 & fusion_calls & Hrun & Hps & Hfc).
  rewrite Hrun in Hd. unfold outcome, state_after, calls in Hd. simpl in Hd.
  destruct (forward_renders self image source_camera render_cameras render_anchors
              render_resolutions render_bg_colors render_region_size (Some image_back)
              s s3 _ planes N M rest Hsyn Hv Hrc Hd)
    as (out & img & rest' & Hout & Hcalls & Hi & His & Hpl).
  exists out, planes, img, rest',
    [CallEncoder image; CallCameraEmbedder source_camera; CallTransformer x1 f1 e1;
     CallUpsampler u1],
    [CallEncoder image_back; CallCameraEmbedder source_camera; CallTransformer x2 f2 e2;
     CallUpsampler u2], fusion_calls.
  split; [exact Hout|]. split; [rewrite Hcalls; simpl; by rewrite <-?app_assoc|].
  split; [eauto|]. split; [eauto|]. split; [exact Hfc|].
  split; [congruence|]. done.
Qed.

(** X21: on a model that [__init__] returned for a
    [model_lora_rank] of 0 or less, with collaborators that keep their
    interfaces and inputs of the documented sizes, the batch size and
    [triplane_low_res] positive (and [triplane_dim] when [conv_fuse] is
    set), [forward] with a back image runs the plane generator on both
    images and then raises: an
    attribute error for [front_back_conv] when [conv_fuse] is set, one for
    [swin_cross_attention] when only [swin_ca_fuse] is set, and an unbound
    local error for [planes] when neither is. *)
Theorem dual_view_without_fusion_module (args : Args.t) (self : ModelLRM A)
    (image image_back source_camera render_cameras render_anchors render_resolutions
       render_bg_colors : Tensor A) (render_region_size : Z)
    (N M C H W C' H' W' R : nat) rest s :
  init args = Ok self → (Args.model_lora_rank args ≤ 0)%Z → interfaces self →
  0 < N → 0 < Args.triplane_low_res args →
  (Args.conv_fuse args = true → 0 < Args.triplane_dim args) →
  shape image = [N; C; H; W] → shape image_back = [N; C'; H'; W'] →
  shape source_camera = [N; R] → shape render_cameras = N :: M :: rest →
  size render_anchors 0 = Ok N → size render_bg_colors 0 = Ok N →
  ∃ s' feats emb x u feats' emb' x' u',
    forward self image source_camera render_cameras render_anchors
      render_resolutions render_bg_colors render_region_size (Some image_back) s =
    (Raise (if Args.conv_fuse args
            then AttributeError "'ModelLRM' object has no attribute 'front_back_conv'"
            else if Args.swin_ca_fuse args
            then AttributeError "'ModelLRM' object has no attribute 'swin_cross_attention'"
            else UnboundLocalError "planes"),
     s',
     [CallEncoder image; CallCameraEmbedder source_camera; CallTransformer x feats emb;
      CallUpsampler u;
      CallEncoder image_back; CallCameraEmbedder source_camera;
      CallTransformer x' feats' emb'; CallUpsampler u']).
Proof.
  intros Hinit Hlora Hif HN Hlow HD Himg Hback Hcam Hrc Ha Hb.
  destruct (forward_planes_run args self image source_camera N C H W R s
              Hinit Hif HN Hlow Himg Hcam)
    as (f1 & e1 & x1 & u1 & fp & s1 & Hfp & Hfs).
  destruct (forward_planes_run args self image_back source_camera N C' H' W' R s1
              Hinit Hif HN Hlow Hback Hcam)
    as (f2 & e2 & x2 & u2 & bp & s2 & Hbp & Hbs).
  destruct (flip_back_planes_get bp _ _ _ _ Hbs) as (bp' & Hflip & Hbs' & _ & _).
  pose proof (dispatch_mirrors_before_fusing self image source_camera image_back
                fp bp s s1 s2 _ _ Hfp Hbp) as Hd.
  rewrite Hflip in Hd.
  assert (Hv : validate image source_camera render_cameras render_anchors
                 render_bg_colors = Ok ()).
  { apply validate_ok with N; [by eapply size_0..|done|done]. }
  pose proof (init_inv _ _ Hinit) as (_&_&_&_&_& Hc & Hs & _).
  apply Z.ltb_ge in Hlora.
  destruct (init_steps _ _ Hinit)
    as (cls & enc & cam & tr & syn & _ & _ & _ & _ & _ & _ & _ & _ & Hp).
  rewrite Hlora in Hp. destruct Hp as (_ & _ & _ & Hnoconv & Hnoswin).
  exists s2, f1, e1, x1, u1, f2, e2, x2, u2.
  assert (Hfuse : ∃ r, fuse self fp bp' s2 = (r, s2, []) ∧ (∀ planes, r ≠ Ok (Some planes)) ∧
            match r with Raise e => e | Ok _ => UnboundLocalError "planes" end =
              if Args.conv_fuse args
              then AttributeError "'ModelLRM' object has no attribute 'front_back_conv'"
              else if Args.swin_ca_fuse args
              then AttributeError "'ModelLRM' object has no attribute 'swin_cross_attention'"
              else UnboundLocalError "planes").
  { unfold fuse. rewrite Hfs. unfold unpack5. rewrite bind_lift_Ok. cbv beta iota.
    rewrite Hc, Hs. destruct (Args.conv_fuse args) eqn:Hconv.
    - specialize (HD eq_refl).
      destruct (cat_planes _ _ _ _ _ _ _ Hfs Hbs') as (c & -> & Hcs).
      rewrite bind_lift_Ok. unfold reshape.
      rewrite (view_one_hole _ _ (N * 3));
        [|done|simpl; nia|rewrite Hcs; simpl; lia].
      rewrite bind_lift_Ok, Hnoconv, bind_lift. simpl. eexists. by split.
    - destruct (Args.swin_ca_fuse args) eqn:Hswin.
      + unfold reshape.
        rewrite (view_no_hole _ fp); [|done|rewrite Hfs; simpl; lia].
        rewrite bind_lift_Ok, permute_ok by done. rewrite bind_lift_Ok.
        rewrite (view_no_hole _ bp'); [|done|rewrite Hbs'; simpl; lia].
        rewrite bind_lift_Ok, permute_ok by done. rewrite bind_lift_Ok.
        rewrite Hnoswin, bind_lift. simpl. eexists. by split.
      + eexists. by split. }
  destruct Hfuse as (r & Hfuse & Hr & <-).
  rewrite Hfuse in Hd. cbn [outcome state_after calls fst snd app] in Hd.
  by apply (forward_without_planes _ _ _ _ _ _ _ _ _ _ _ _ _ _ _ _ Hv Hrc Hd).
Qed.

End TwoViews.

(** ** Freezing and the forward pass; when construction returns *)

Section FreezeForward.
Context {A S : Type} `{!Inhabited A} `{!Weights A} `{!Collaborators A S}.
Implicit Types s : S.

(** X22: [freeze_modules] changes nothing that [forward]
    computes: on the model it leaves, for every combination of flags,
    [forward] gives the result, the state and the calls that it gives on the
    model before. *)
Theorem freeze_modules_keeps_forward (e c p t u y : bool) (self : ModelLRM A)
    (image source_camera render_cameras render_anchors render_resolutions
       render_bg_colors : Tensor A) (render_region_size : Z)
    (image_back : option (Tensor A)) s :
  forward (freeze_modules e c p t u y self).2 image source_camera render_cameras
    render_anchors render_resolutions render_bg_colors render_region_size image_back s
  = forward self image source_camera render_cameras render_anchors render_resolutions
      render_bg_colors render_region_size image_back s.
Proof.
  destruct p; [rewrite freeze_modules_raise|rewrite freeze_modules_run];
    destruct self; destruct e, c, t, u, y; reflexivity.
Qed.

(** X23: with [transformer_dim = 0], [__init__] returns no model;
    when the encoder and the camera embedder construct, it raises the zero
    division error of the scale of [pos_embed]. *)
Theorem init_zero_transformer_dim (args : Args.t) :
  Args.transformer_dim args = 0 →
  (∃ e, init args = Raise e) ∧
  ∀ cls enc cam,
    _encoder_fn (Args.encoder_type args) = Ok (Some cls) →
    new_encoder cls (Args.encoder_model_name args) (Args.encoder_freeze args) = Ok enc →
    new_camera_embedder (12 + 4) (Args.camera_embed_dim args) = Ok cam →
    init args = Raise (ZeroDivisionError "float division by zero").
Proof.
  intros Hdim. split.
  - destruct (init args) as [self|e] eqn:Hinit; [|eauto].
    by apply init_inv in Hinit as (_&_&_&_&_&_&_& Hne & _).
  - intros cls enc cam Hcls Henc Hcam. unfold init.
    rewrite Hcls, !bind_Ok, Henc, bind_Ok, Hcam, bind_Ok.
    unfold new_pos_embed. by rewrite decide_True by done.
Qed.

(** X24: when the encoder type is supported, [transformer_dim] is
    not 0 and the encoder, the camera embedder, the transformer and the
    synthesizer construct, [__init__] returns a model exactly when
    [model_lora_rank] is 0 or less, or [conv_fuse] is set, or [swin_ca_fuse]
    is set and the cross-attention layer constructs. *)
Theorem init_returns_iff (args : Args.t) cls enc cam tr syn :
  _encoder_fn (Args.encoder_type args) = Ok (Some cls) →
  new_encoder cls (Args.encoder_model_name args) (Args.encoder_freeze args) = Ok enc →
  new_camera_embedder (12 + 4) (Args.camera_embed_dim args) = Ok cam →
  Args.transformer_dim args ≠ 0 →
  new_transformer "cond_mod" (Args.transformer_layers args)
    (Args.transformer_heads args) (Args.transformer_dim args)
    (Args.encoder_feat_dim args) (Args.camera_embed_dim args)
    (if (0 <? Args.model_lora_rank args)%Z then Some (Args.model_lora_rank args) else None)
    = Ok tr →
  new_synthesizer (Args.triplane_dim args) (Args.rendering_samples_per_ray args) = Ok syn →
  is_ok (init args) = true ↔
    (Args.model_lora_rank args ≤ 0)%Z ∨ Args.conv_fuse args = true ∨
    (Args.swin_ca_fuse args = true ∧
     is_ok (new_cross_attention
              {| ca_dim := Args.ca_dim args; ca_depth := Args.ca_depth args;
                 ca_num_heads := Args.ca_num_heads args;
                 ca_window_size := Args.ca_window_size args |}) = true).
Proof.
  intros Hcls Henc Hcam Hdim Htr Hsyn. unfold init.
  rewrite Hcls, !bind_Ok, Henc, bind_Ok, Hcam, bind_Ok.
  unfold new_pos_embed. rewrite decide_False by done. rewrite bind_Ok.
  destruct (0 <? Args.model_lora_rank args)%Z eqn:Hlora.
  - apply Z.ltb_lt in Hlora.
    rewrite Htr, !bind_Ok, Hsyn, bind_Ok. cbv zeta. cbn [conv_fuse swin_ca_fuse].
    destruct (Args.conv_fuse args); [simpl; split; auto|].
    destruct (Args.swin_ca_fuse args).
    + destruct (new_cross_attention _) as [ca|e]; simpl.
      * split; auto.
      * split; [done|]. intros [?|[?|[_ ?]]]; (done || lia).
    + simpl. split; [done|]. intros [?|[?|[? _]]]; (done || lia).
  - apply Z.ltb_ge in Hlora.
    rewrite Htr, !bind_Ok, Hsyn, bind_Ok. simpl. split; auto.
Qed.

End FreezeForward.

(** ** The small instance, again *)

Section MoreSmallFacts.
Import Small.

Lemma small_synthesizer : synthesizer_interface (A := Z) (S := nat).
Proof.
  intros planes cams anchors resolutions bg region s N M rest Hsh. simpl. rewrite Hsh.
  eexists _, _, [3; 1; 1]. split; [done|]. split; [apply lookup_singleton_eq|done].
Qed.

Lemma small_init_conv_0 :
  init (S := nat) (args 0 true false) = Ok (model (args 0 true false)).
Proof. vm_compute. reflexivity. Qed.

Lemma small_init_both :
  init (S := nat) (args 1 true true) = Ok (model (args 1 true true)).
Proof. vm_compute. reflexivity. Qed.

(** X2, for a ResNet encoder. *)
Lemma init_unsupported_encoder_witness :
  init (S := nat) (Cases.with_encoder_type "ResNet" (args 0 false false))
    = Raise (AssertionError "Unsupported encoder type").
Proof. apply (init_unsupported_encoder (S := nat)); vm_compute; discriminate. Defined.

(** X23, for the arguments of the small instance with [transformer_dim = 0]. *)
Lemma init_zero_transformer_dim_witness :
  init (S := nat) (Cases.with_transformer_dim 0 (args 0 false false))
    = Raise (ZeroDivisionError "float division by zero").
Proof.
  destruct (init_zero_transformer_dim (S := nat)
              (Cases.with_transformer_dim 0 (args 0 false false)) eq_refl) as [_ H].
  apply (H DinoWrapper [a_param false] [a_param true]); reflexivity.
Defined.

(** X6, for rank 1 with the convolutional strategy; the first parameter of
    the transformer is the one [mark_only_lora_as_trainable] froze. *)
Lemma init_with_lora_trains_no_encoder_witness :
  all_frozen (params (encoder (model (args 1 true false)))) ∧
  all_frozen (params (camera_embedder (model (args 1 true false)))) ∧
  requires_grad (pos_embed (model (args 1 true false))) = true ∧
  params (transformer (model (args 1 true false))) = [a_param false; a_param true].
Proof.
  destruct (init_with_lora_trains_no_encoder (S := nat) (args 1 true false)
              (model (args 1 true false)) small_init_conv)
    as (He & Hc & Hp & _ & (tr & Htr & Ht) & _); [reflexivity|].
  split; [exact He|]. split; [exact Hc|]. split; [exact Hp|].
  rewrite Ht. injection Htr as <-. reflexivity.
Defined.

(** X7, for rank 0 with [conv_fuse=True]. *)
Lemma init_without_lora_builds_no_fusion_witness :
  conv_fuse (model (args 0 true false)) = true ∧
  front_back_conv (model (args 0 true false)) = None ∧
  swin_cross_attention (model (args 0 true false)) = None ∧
  params (camera_embedder (model (args 0 true false))) = [a_param true].
Proof.
  destruct (init_without_lora_builds_no_fusion (S := nat) (args 0 true false)
              (model (args 0 true false)) small_init_conv_0)
    as (Hf & Hs & Hc & _ & _ & (cam & Hcam & Hcp) & _); [simpl; lia|].
  split; [exact Hc|]. split; [exact Hf|]. split; [exact Hs|].
  rewrite Hcp. injection Hcam as <-. reflexivity.
Defined.

(** X8, for features for two samples, embeddings for three. *)
Lemma forward_transformer_batch_mismatch_witness :
  forward_transformer (S := nat) (model (args 0 false false))
      (iota [2; 2; 3] 0) (iota [3; 2] 0) 0
    = (Raise (AssertionError "Batch size mismatch for image_feats and camera_embeddings!"),
       0, []).
Proof.
  apply (forward_transformer_batch_mismatch (S := nat) _ _ _ _ 2 3);
    [reflexivity|reflexivity|lia].
Defined.

(** X9, for two samples; the last query of the second sample. *)
Lemma forward_transformer_broadcasts_witness :
  ∃ x,
    calls (forward_transformer (S := nat) (model (args 0 false false))
             (encoded image) (embedded source_camera) 0)
      = [CallTransformer x (encoded image) (embedded source_camera)] ∧
    shape x = [2; 3; 2] ∧
    get x [1; 2; 1] = get (value (pos_embed (model (args 0 false false)))) [0; 2; 1].
Proof.
  destruct (forward_transformer_broadcasts (S := nat) (model (args 0 false false))
              (encoded image) (embedded source_camera) 0 2 3 2 [2; 3] [2]
              eq_refl eq_refl eq_refl) as (x & Hrun & Hx & Hget).
  exists x. split; [by rewrite Hrun|]. split; [exact Hx|]. apply Hget; lia.
Defined.

(** X10, for tokens of size (0, 3, 2). *)
Lemma reshape_upsample_rejects_empty_witness :
  ∃ msg,
    reshape_upsample (S := nat) (model (args 0 false false)) (iota [0; 3; 2] 0) 0
      = (Raise (RuntimeError msg), 0, []).
Proof.
  apply (reshape_upsample_rejects_empty (S := nat) _ _ 0 [3; 2]);
    [reflexivity|left; reflexivity].
Defined.

(** X11, for a triplane of two rows and two columns holding 0 to 11. *)
Lemma flip_back_planes_involutive_witness :
  ∃ bp', flip_back_planes (iota [1; 3; 1; 2; 2] 0) = Ok bp' ∧
         flip_back_planes bp' = Ok (iota [1; 3; 1; 2; 2] 0).
Proof.
  destruct (flip_back_planes_involutive (iota [1; 3; 1; 2; 2] 0) 1 1 2 2)
    as (bp' & H1 & _ & H2); [reflexivity|reflexivity|].
  exists bp'. split; [exact H1|exact H2].
Defined.

(** X12, for two samples; channel 0 and channel 1 of sample 5 of the batch,
    plane 2 of the second sample. *)
Lemma conv_fusion_input_layout_witness :
  ∃ x rest,
    calls (fuse (S := nat) (model (args 1 true false)) (iota [2; 3; 1; 2; 2] 0)
             (iota [2; 3; 1; 2; 2] 100) 0) = CallFrontBackConv x :: rest ∧
    shape x = [6; 2; 2; 2] ∧
    get x [5; 0; 1; 0] = get (iota [2; 3; 1; 2; 2] 0) [1; 2; 0; 1; 0] ∧
    get x [5; 1; 1; 0] = get (iota [2; 3; 1; 2; 2] 100) [1; 2; 0; 1; 0].
Proof.
  edestruct (conv_fusion_input_layout (S := nat) (model (args 1 true false))
               (iota [2; 3; 1; 2; 2] 0) (iota [2; 3; 1; 2; 2] 100) 2 3 1 2 2)
    as (x & rest & Hcalls & Hx & Hget);
    [reflexivity|reflexivity|reflexivity|reflexivity|lia|lia|lia|].
  exists x, rest. split; [exact Hcalls|]. split; [exact Hx|]. split.
  - apply (Hget 1 2 0 1 0); lia.
  - apply (Hget 1 2 1 1 0); lia.
Defined.

(** X13, for planes of five channels, three rows and four columns. *)
Lemma swin_fusion_token_layout_witness :
  ∃ front_tokens back_tokens,
    calls (fuse (S := nat) (model (args 1 false true)) (iota [2; 3; 5; 3; 4] 0)
             (iota [2; 3; 5; 3; 4] 1000) 0)
      = [CallSwinCrossAttention front_tokens back_tokens 3 4] ∧
    shape front_tokens = [6; 12; 5] ∧
    get front_tokens [1 * 3 + 2; 2 * 4 + 3; 4] = get (iota [2; 3; 5; 3; 4] 0) [1; 2; 4; 2; 3] ∧
    get back_tokens [1 * 3 + 2; 2 * 4 + 3; 4]
      = get (iota [2; 3; 5; 3; 4] 1000) [1; 2; 4; 2; 3].
Proof.
  edestruct (swin_fusion_token_layout (S := nat) (model (args 1 false true))
               (iota [2; 3; 5; 3; 4] 0) (iota [2; 3; 5; 3; 4] 1000) 2 3 5 3 4)
    as (ft & bt & Hcalls & Hft & _ & Hget & _);
    [reflexivity|reflexivity|reflexivity|reflexivity|reflexivity|].
  exists ft, bt. split; [exact Hcalls|]. split; [exact Hft|].
  apply (Hget 1 2 4 2 3); lia.
Defined.

End MoreSmallFacts.

Section FacadeSmallFacts.
Import Small.

Lemma small_dispatch_single :
  dispatch (S := nat) (model (args 0 false false)) image source_camera None 0
    = (Ok (Some (planes_of (model (args 0 false false)) image source_camera None)), 0,
       calls (dispatch (S := nat) (model (args 0 false false)) image source_camera None 0)).
Proof. vm_compute. reflexivity. Qed.

Lemma small_dispatch_single_with (mode : nat) :
  @dispatch Z nat _ (Cases.with_renderer mode) (model (args 0 false false))
      image source_camera None 0
    = (Ok (Some (planes_of (model (args 0 false false)) image source_camera None)), 0,
       calls (dispatch (S := nat) (model (args 0 false false)) image source_camera None 0)).
Proof. vm_compute. reflexivity. Qed.

(** X14, for the renderer of the small instance, and one that returns
    planes of its own. *)
Lemma forward_returns_render_results_witness :
  (∃ out,
     outcome (forward (S := nat) (model (args 0 false false)) image source_camera
                render_cameras render_anchors render_resolutions render_bg_colors 8 None 0)
       = Ok out ∧
     out !! "planes" = Some (planes_of (model (args 0 false false)) image source_camera None) ∧
     is_Some (out !! "images_rgb")) ∧
  (∃ out,
     outcome (@forward Z nat _ (Cases.with_renderer 3) (model (args 0 false false))
                image source_camera render_cameras render_anchors render_resolutions
                render_bg_colors 8 None 0)
       = Ok out ∧
     out !! "planes" = Some (iota [1] 7)).
Proof.
  split.
  - destruct (forward_returns_render_results (S := nat) (model (args 0 false false))
                image source_camera render_cameras render_anchors render_resolutions
                render_bg_colors 8 None 0 0 0 _ _
                {[ "images_rgb" :=
                     tabulate [2; 1; 3; 1; 1]
                       (λ idx, get (planes_of (model (args 0 false false)) image
                                      source_camera None) [idx !!! 0; 0; 0; 0; 0]) ]}
                _ 2 1 [3] [3; 1; 1]
                eq_refl eq_refl small_dispatch_single eq_refl
                (lookup_singleton_eq _ _) eq_refl)
      as (out & Hrun & Hkeep & _ & Hplanes).
    exists out. split; [by rewrite Hrun|]. split.
    + apply Hplanes. by apply lookup_singleton_ne.
    + eexists. apply Hkeep. apply lookup_singleton_eq.
  - destruct (forward_returns_render_results (Collaborators0 := Cases.with_renderer 3)
                (model (args 0 false false))
                image source_camera render_cameras render_anchors render_resolutions
                render_bg_colors 8 None 0 0 0 _ _
                (Cases.renderer_results 3 2 1) (iota [2; 1; 3; 1; 1] 0) 2 1 [3] [3; 1; 1]
                eq_refl eq_refl (small_dispatch_single_with 3) eq_refl)
      as (out & Hrun & Hkeep & _); [|reflexivity|].
    { unfold Cases.renderer_results. rewrite lookup_insert_ne by done.
      apply lookup_singleton_eq. }
    exists out. split; [by rewrite Hrun|].
    apply Hkeep. unfold Cases.renderer_results. apply lookup_insert_eq.
Defined.

(** X15, for renderers that return no images, images for three samples
    instead of two, and two views instead of one. *)
Lemma forward_render_checks_witness :
  outcome (@forward Z nat _ (Cases.with_renderer 0) (model (args 0 false false))
             image source_camera render_cameras render_anchors render_resolutions
             render_bg_colors 8 None 0)
    = Raise (KeyError "images_rgb") ∧
  outcome (@forward Z nat _ (Cases.with_renderer 1) (model (args 0 false false))
             image source_camera render_cameras render_anchors render_resolutions
             render_bg_colors 8 None 0)
    = Raise (AssertionError "Batch size mismatch for render_results") ∧
  outcome (@forward Z nat _ (Cases.with_renderer 2) (model (args 0 false false))
             image source_camera render_cameras render_anchors render_resolutions
             render_bg_colors 8 None 0)
    = Raise (AssertionError
               "Number of rendered views should be consistent with render_cameras").
Proof.
  split; [|split].
  - pose proof (forward_render_checks (Collaborators0 := Cases.with_renderer 0)
                  (model (args 0 false false))
                  image source_camera render_cameras render_anchors render_resolutions
                  render_bg_colors 8 None 0 0 0 _ _ (Cases.renderer_results 0 2 1) 2 1 [3]
                  eq_refl eq_refl (small_dispatch_single_with 0) eq_refl) as H.
    cbv zeta in H. destruct H as (_ & _ & Hkey & _). apply Hkey. reflexivity.
  - pose proof (forward_render_checks (Collaborators0 := Cases.with_renderer 1)
                  (model (args 0 false false))
                  image source_camera render_cameras render_anchors render_resolutions
                  render_bg_colors 8 None 0 0 0 _ _ (Cases.renderer_results 1 2 1) 2 1 [3]
                  eq_refl eq_refl (small_dispatch_single_with 1) eq_refl) as H.
    cbv zeta in H. destruct H as (_ & _ & _ & Hsize).
    destruct (Hsize (iota [3; 1; 3; 1; 1] 0) 3 1) as [Hn _];
      [apply lookup_singleton_eq|reflexivity|reflexivity|].
    apply Hn. lia.
  - pose proof (forward_render_checks (Collaborators0 := Cases.with_renderer 2)
                  (model (args 0 false false))
                  image source_camera render_cameras render_anchors render_resolutions
                  render_bg_colors 8 None 0 0 0 _ _ (Cases.renderer_results 2 2 1) 2 1 [3]
                  eq_refl eq_refl (small_dispatch_single_with 2) eq_refl) as H.
    cbv zeta in H. destruct H as (_ & _ & _ & Hsize).
    destruct (Hsize (iota [2; 2; 3; 1; 1] 0) 2 2) as [_ Hm];
      [apply lookup_singleton_eq|reflexivity|reflexivity|].
    apply Hm; [reflexivity|lia].
Defined.

(** X16, for render cameras of one axis. *)
Lemma forward_needs_two_camera_axes_witness :
  ∃ msg,
    forward (S := nat) (model (args 0 false false)) image source_camera (iota [2] 0)
      render_anchors render_resolutions render_bg_colors 8 None 0
    = (Raise (ValueError msg), 0, []).
Proof.
  apply (forward_needs_two_camera_axes (S := nat)); [reflexivity|simpl; lia].
Defined.

(** X17, for two images, one view each. *)
Lemma forward_single_view_witness :
  ∃ out planes img rest' feats emb x u,
    outcome (forward (S := nat) (model (args 0 false false)) image source_camera
               render_cameras render_anchors render_resolutions render_bg_colors 8 None 0)
      = Ok out ∧
    calls (forward (S := nat) (model (args 0 false false)) image source_camera
             render_cameras render_anchors render_resolutions render_bg_colors 8 None 0)
      = [CallEncoder image; CallCameraEmbedder source_camera; CallTransformer x feats emb;
         CallUpsampler u;
         CallSynthesizer planes render_cameras render_anchors render_resolutions
           render_bg_colors 8] ∧
    shape planes = [2; 3; 1; 2; 2] ∧
    out !! "images_rgb" = Some img ∧ shape img = 2 :: 1 :: rest' ∧
    is_Some (out !! "planes").
Proof.
  apply (forward_single_view (S := nat) (args 0 false false) (model (args 0 false false))
           image source_camera render_cameras render_anchors render_resolutions
           render_bg_colors 8 2 1 1 1 1 16 [3] 0).
  - exact small_init_0.
  - apply small_interfaces; reflexivity.
  - exact small_synthesizer.
  - lia.
  - simpl. lia.
  - reflexivity.
  - reflexivity.
  - reflexivity.
  - reflexivity.
  - reflexivity.
Defined.

(** X20, for the convolutional strategy, then the cross-attention strategy;
    the calls after the eight of the plane generator. *)
Lemma forward_dual_view_witness :
  (∃ out planes xs,
     outcome (forward (S := nat) (model (args 1 true false)) image source_camera
                render_cameras render_anchors render_resolutions render_bg_colors 8
                (Some image_back) 0) = Ok out ∧
     drop 8 (calls (forward (S := nat) (model (args 1 true false)) image source_camera
                      render_cameras render_anchors render_resolutions render_bg_colors 8
                      (Some image_back) 0))
       = (CallFrontBackConv <$> xs) ++
           [CallSynthesizer planes render_cameras render_anchors render_resolutions
              render_bg_colors 8] ∧
     length xs = 7 ∧ shape planes = [2; 3; 1; 2; 2]) ∧
  (∃ out planes front_tokens back_tokens,
     outcome (forward (S := nat) (model (args 1 false true)) image source_camera
                render_cameras render_anchors render_resolutions render_bg_colors 8
                (Some image_back) 0) = Ok out ∧
     drop 8 (calls (forward (S := nat) (model (args 1 false true)) image source_camera
                      render_cameras render_anchors render_resolutions render_bg_colors 8
                      (Some image_back) 0))
       = [CallSwinCrossAttention front_tokens back_tokens 2 2;
          CallSynthesizer planes render_cameras render_anchors render_resolutions
            render_bg_colors 8] ∧
     shape planes = [2; 3; 1; 2; 2]).
Proof.
  split.
  - destruct (forward_dual_view (S := nat) (args 1 true false) (model (args 1 true false))
                image image_back source_camera render_cameras render_anchors
                render_resolutions render_bg_colors 8 2 1 1 1 1 1 1 1 16 [3] 0)
      as (out & planes & img & rest' & fc & bc & fu & Hout & Hcalls
            & (f1 & e1 & x1 & u1 & ->) & (f2 & e2 & x2 & u2 & ->) & (xs & -> & Hlen)
            & Hps & _);
      [exact small_init_conv|reflexivity|apply small_interfaces; reflexivity
      |exact small_cross_attention|exact small_synthesizer|lia|simpl; lia
      |intros _; simpl; lia|reflexivity|reflexivity|reflexivity|reflexivity
      |reflexivity|reflexivity|].
    exists out, planes, xs. split; [exact Hout|]. split; [by rewrite Hcalls|].
    split; [exact Hlen|exact Hps].
  - destruct (forward_dual_view (S := nat) (args 1 false true) (model (args 1 false true))
                image image_back source_camera render_cameras render_anchors
                render_resolutions render_bg_colors 8 2 1 1 1 1 1 1 1 16 [3] 0)
      as (out & planes & img & rest' & fc & bc & fu & Hout & Hcalls
            & (f1 & e1 & x1 & u1 & ->) & (f2 & e2 & x2 & u2 & ->) & (ft & bt & ->)
            & Hps & _);
      [exact small_init_swin|reflexivity|apply small_interfaces; reflexivity
      |exact small_cross_attention|exact small_synthesizer|lia|simpl; lia
      |discriminate|reflexivity|reflexivity|reflexivity|reflexivity
      |reflexivity|reflexivity|].
    exists out, planes, ft, bt. split; [exact Hout|]. split; [by rewrite Hcalls|].
    exact Hps.
Defined.

(** X18, for the default rank with the convolutional strategy asked for. *)
Lemma dual_view_needs_lora_witness :
  (∃ e, outcome (forward (S := nat) (model (args 0 true false)) image source_camera
                   render_cameras render_anchors render_resolutions render_bg_colors 8
                   (Some image_back) 0) = Raise e) ∧
  Forall (λ c, is_plane_call c = true)
    (calls (forward (S := nat) (model (args 0 true false)) image source_camera
              render_cameras render_anchors render_resolutions render_bg_colors 8
              (Some image_back) 0)).
Proof.
  apply (dual_view_needs_lora (S := nat) (args 0 true false));
    [exact small_init_conv_0|simpl; lia].
Defined.

(** X21, for the three errors. *)
Lemma dual_view_without_fusion_module_witness :
  outcome (forward (S := nat) (model (args 0 true false)) image source_camera
             render_cameras render_anchors render_resolutions render_bg_colors 8
             (Some image_back) 0)
    = Raise (AttributeError "'ModelLRM' object has no attribute 'front_back_conv'") ∧
  outcome (forward (S := nat) (model (args 0 false true)) image source_camera
             render_cameras render_anchors render_resolutions render_bg_colors 8
             (Some image_back) 0)
    = Raise (AttributeError "'ModelLRM' object has no attribute 'swin_cross_attention'") ∧
  outcome (forward (S := nat) (model (args 0 false false)) image source_camera
             render_cameras render_anchors render_resolutions render_bg_colors 8
             (Some image_back) 0)
    = Raise (UnboundLocalError "planes").
Proof.
  split; [|split].
  - destruct (dual_view_without_fusion_module (S := nat) (args 0 true false)
                (model (args 0 true false))
                image image_back source_camera render_cameras render_anchors
                render_resolutions render_bg_colors 8 2 1 1 1 1 1 1 1 16 [3] 0)
      as (s' & f1 & e1 & x1 & u1 & f2 & e2 & x2 & u2 & Hrun);
      [exact small_init_conv_0|simpl; lia|apply small_interfaces; reflexivity|lia
      |simpl; lia|intros _; simpl; lia|reflexivity|reflexivity|reflexivity|reflexivity
      |reflexivity|reflexivity|].
    by rewrite Hrun.
  - destruct (dual_view_without_fusion_module (S := nat) (args 0 false true)
                (model (args 0 false true))
                image image_back source_camera render_cameras render_anchors
                render_resolutions render_bg_colors 8 2 1 1 1 1 1 1 1 16 [3] 0)
      as (s' & f1 & e1 & x1 & u1 & f2 & e2 & x2 & u2 & Hrun);
      [vm_compute; reflexivity|simpl; lia|apply small_interfaces; reflexivity|lia
      |simpl; lia|discriminate|reflexivity|reflexivity|reflexivity|reflexivity
      |reflexivity|reflexivity|].
    by rewrite Hrun.
  - destruct (dual_view_without_fusion_module (S := nat) (args 0 false false)
                (model (args 0 false false))
                image image_back source_camera render_cameras render_anchors
                render_resolutions render_bg_colors 8 2 1 1 1 1 1 1 1 16 [3] 0)
      as (s' & f1 & e1 & x1 & u1 & f2 & e2 & x2 & u2 & Hrun);
      [exact small_init_0|simpl; lia|apply small_interfaces; reflexivity|lia
      |simpl; lia|discriminate|reflexivity|reflexivity|reflexivity|reflexivity
      |reflexivity|reflexivity|].
    by rewrite Hrun.
Defined.

(** X19, for both strategies asked for. *)
Lemma conv_fuse_takes_precedence_witness :
  is_Some (front_back_conv (model (args 1 true true))) ∧
  swin_cross_attention (model (args 1 true true)) = None ∧
  Forall (λ c, is_front_back_conv_call c = true)
    (calls (fuse (S := nat) (model (args 1 true true)) (iota [2; 3; 1; 2; 2] 0)
              (iota [2; 3; 1; 2; 2] 100) 0)).
Proof.
  destruct (conv_fuse_takes_precedence (S := nat) (args 1 true true)
              (model (args 1 true true)) small_init_both) as (Hconv & Hswin & Hcalls);
    [reflexivity|reflexivity|].
  split; [rewrite Hconv; eauto|]. split; [exact Hswin|]. apply Hcalls.
Defined.

(** X24, for a positive rank with no strategy, and with the cross-attention
    strategy. *)
Lemma init_returns_iff_witness :
  is_ok (init (S := nat) (args 1 false false)) = false ∧
  is_ok (init (S := nat) (args 1 false true)) = true.
Proof.
  split.
  - destruct (init_returns_iff (S := nat) (args 1 false false) DinoWrapper
                [a_param false] [a_param true] [a_param true; a_param true]
                [a_param true]) as [Hif _];
      [reflexivity|reflexivity|reflexivity|discriminate|reflexivity|reflexivity|].
    destruct (is_ok (init (S := nat) (args 1 false false))); [|reflexivity].
    destruct (Hif eq_refl) as [H|[H|[H _]]]; [simpl in H; lia|discriminate H|discriminate H].
  - apply (init_returns_iff (S := nat) (args 1 false true) DinoWrapper
             [a_param false] [a_param true] [a_param true; a_param true]
             [a_param true]);
      [reflexivity|reflexivity|reflexivity|discriminate|reflexivity|reflexivity|].
    right; right. split; reflexivity.
Defined.

End FacadeSmallFacts.

(** ** The final checks of the plane generator *)

Section FinalChecks.
Context {A S : Type} `{!Inhabited A} `{!Collaborators A S}.
Implicit Types s : S.

(** Whatever the upsampler is, planes that [reshape_upsample] returns have
    five axes, the batch size of the tokens first and three planes next. *)
Lemma reshape_upsample_axes (self : ModelLRM A) (tokens planes : Tensor A) s :
  outcome (reshape_upsample self tokens s) = Ok planes →
  ∃ N D' H' W', size tokens 0 = Ok N ∧ shape planes = [N; 3; D'; H'; W'].
Proof.
  unfold reshape_upsample. intros Hrun.
  apply outcome_bind_lift_inv in Hrun as (N & HN & Hrun).
  apply outcome_bind_lift_inv in Hrun as (x1 & _ & Hrun).
  apply outcome_bind_lift_inv in Hrun as (x2 & _ & Hrun).
  apply outcome_bind_lift_inv in Hrun as (x3 & _ & Hrun).
  apply outcome_bind_run_inv in Hrun as (x4 & Hx4 & Hrun).
  rewrite outcome_call in Hx4. cbn [fst] in Hx4. unfold conv_transpose2d in Hx4.
  destruct (shape x3) as [|B [|C [|H [|W [|]]]]]; try done.
  destruct (decide (C = ct_in (fwd (upsampler self)))); [|done].
  injection Hx4 as <-.
  apply outcome_bind_lift_inv in Hrun as (x5 & Hx5 & Hrun).
  apply outcome_bind_lift_inv in Hrun as (x6 & Hx6 & Hrun).
  unfold view in Hx5. apply bind_Ok_inv in Hx5 as (sh & Hsh & [= <-]).
  unfold infer_size in Hsh. simpl in Hsh.
  match type of Hsh with context [decide ?P] => destruct (decide P); [|done] end.
  injection Hsh as <-.
  unfold einsum_indhw_nidhw, permute in Hx6. rewrite decide_True in Hx6 by done.
  injection Hx6 as <-. injection Hrun as <-.
  by eexists N, _, _, _.
Qed.

(** X25: when the transformer stage and [reshape_upsample] return,
    the planes have five axes, the batch size of the tokens first and 3
    next, so that the check "Planes should have 3 channels" of
    [forward_planes] cannot fail; the stage returns the planes when that
    batch size is the one of the image and raises the assertion error
    "Batch size mismatch for planes" otherwise, in the state and with the
    calls of the two steps. *)
Theorem decode_planes_checks (self : ModelLRM A) (N : nat)
    (image_feats camera_embeddings tokens planes : Tensor A) s s1 s2 tr1 tr2 :
  forward_transformer self image_feats camera_embeddings s = (Ok tokens, s1, tr1) →
  reshape_upsample self tokens s1 = (Ok planes, s2, tr2) →
  ∃ n D' H' W',
    size tokens 0 = Ok n ∧ shape planes = [n; 3; D'; H'; W'] ∧
    decode_planes self N image_feats camera_embeddings s =
      (if decide (n = N) then Ok planes
       else Raise (AssertionError "Batch size mismatch for planes"),
       s2, tr1 ++ tr2).
Proof.
  intros Hft Hru.
  destruct (reshape_upsample_axes self tokens planes s1) as (n & D' & H' & W' & Hn & Hsh).
  { by rewrite Hru. }
  exists n, D', H', W'. split; [done|]. split; [done|].
  unfold decode_planes.
  rewrite (bind_run_Ok _ _ _ _ _ _ Hft), (bind_run_Ok _ _ _ _ _ _ Hru).
  rewrite (size_0 _ _ _ Hsh), bind_lift_Ok, bind_lift.
  destruct (decide (n = N)) as [->|Hne].
  - rewrite bool_decide_eq_true_2 by done. simpl py_assert. cbv iota.
    rewrite (size_1 _ _ _ _ Hsh), bind_lift_Ok.
    rewrite bool_decide_eq_true_2 by done. simpl py_assert. rewrite bind_lift_Ok.
    unfold outcome, state_after, calls. simpl. by rewrite !app_nil_r.
  - rewrite bool_decide_eq_false_2 by done. simpl py_assert. cbv iota.
    unfold outcome, state_after, calls. simpl. by rewrite !app_nil_r.
Qed.

End FinalChecks.

Section FinalChecksSmall.
Import Small.

(** X25, for tokens for two samples, checked against two images and
    against five. *)
Lemma decode_planes_checks_witness :
  (∃ planes,
     outcome (decode_planes (S := nat) (model (args 0 false false)) 2
                (encoded image) (embedded source_camera) 0) = Ok planes ∧
     shape planes = [2; 3; 1; 2; 2]) ∧
  outcome (decode_planes (S := nat) (model (args 0 false false)) 5
             (encoded image) (embedded source_camera) 0)
    = Raise (AssertionError "Batch size mismatch for planes").
Proof.
  assert (Hft : forward_transformer (S := nat) (model (args 0 false false))
                  (encoded image) (embedded source_camera) 0
                = (Ok (value_of (outcome (forward_transformer (S := nat)
                                            (model (args 0 false false)) (encoded image)
                                            (embedded source_camera) 0)) image), 0,
                   calls (forward_transformer (S := nat) (model (args 0 false false))
                            (encoded image) (embedded source_camera) 0)))
    by (vm_compute; reflexivity).
  set (tokens := value_of _ image) in Hft.
  assert (Hru : reshape_upsample (S := nat) (model (args 0 false false)) tokens 0
                = (Ok (value_of (outcome (reshape_upsample (S := nat)
                                            (model (args 0 false false)) tokens 0)) image),
                   0,
                   calls (reshape_upsample (S := nat) (model (args 0 false false))
                            tokens 0)))
    by (vm_compute; reflexivity).
  split.
  - destruct (decode_planes_checks (S := nat) (model (args 0 false false)) 2
                _ _ _ _ _ _ _ _ _ Hft Hru) as (n & D' & H' & W' & Hn & Hsh & Hrun).
    assert (n = 2) as -> by (vm_compute in Hn; congruence).
    eexists. rewrite Hrun. split; [reflexivity|].
    assert (Hs : shape (value_of (outcome (reshape_upsample (S := nat)
                          (model (args 0 false false)) tokens 0)) image) = [2; 3; 1; 2; 2])
      by (vm_compute; reflexivity).
    exact Hs.
  - destruct (decode_planes_checks (S := nat) (model (args 0 false false)) 5
                _ _ _ _ _ _ _ _ _ Hft Hru) as (n & D' & H' & W' & Hn & Hsh & Hrun).
    assert (n = 2) as -> by (vm_compute in Hn; congruence).
    by rewrite Hrun.
Defined.

End FinalChecksSmall.
